(** * The ComputerCraft dashboard relay: message model, client registry, router

    A shallow embedding of

    - [utils/messageUtils.ts]      (module [messageUtils]),
    - [services/ClientManager.ts]  (module [ClientManager]),
    - [services/MessageRouter.ts]  (module [MessageRouter]),
    - the WebSocket [message] callback of [index.ts] (module [Server]),

    followed by the properties of the routing core.

    Conventions.  A JavaScript object is an association list in property
    order; its keys are pairwise distinct, as in any JavaScript object, and
    a lookup takes the first binding.  Numbers are the integer-valued ones
    (timestamps, counters).  Objects are the plain ones [JSON.parse] and
    object literals build: none carries a [toString] or [valueOf] property of
    its own, so string conversion is total.  [console.*] output is not part of
    the state; an argument of a log call is modelled only where evaluating it
    can raise.  The predicate [plain] below singles out the values on which
    these conventions cost nothing: where a property depends on a string
    conversion of a value the caller chooses, it is stated for plain
    values. *)

From Stdlib Require Import List String Ascii ZArith Bool Lia DecimalString.
From Stdlib Require DecimalPos DecimalZ.
Import ListNotations.
Set Warnings "-register-all".
Local Open Scope list_scope.
Local Open Scope string_scope.

(** ** JavaScript values *)

Inductive JsValue : Type :=
| JUndefined
| JNull
| JBool (b : bool)
| JNum (n : Z)
| JStr (s : string)
| JArr (elems : list JsValue)
| JObj (fields : list (string * JsValue)).

(** [Array.prototype.join]: the separator goes between the pieces. *)
Fixpoint join (sep : string) (pieces : list string) : string :=
  match pieces with
  | [] => ""
  | [p] => p
  | p :: rest => p ++ sep ++ join sep rest
  end.

(** [String(v)] and the conversion inside a template literal.  An array
    converts through [join(",")], where [undefined] and [null] elements give
    the empty string.  This is the engine's conversion on the values of the
    conventions above: integers it prints digit by digit (the safe ones) and
    objects without a [toString] property of their own. *)
Fixpoint ToString (v : JsValue) : string :=
  match v with
  | JUndefined => "undefined"
  | JNull => "null"
  | JBool true => "true"
  | JBool false => "false"
  | JNum n => NilZero.string_of_int (Z.to_int n)
  | JStr s => s
  | JArr elems =>
      join ","
        (map (fun e => match e with
                       | JUndefined | JNull => ""
                       | _ => ToString e
                       end) elems)
  | JObj _ => "[object Object]"
  end.

(** Truthiness, as [||], [&&], [!] and [if] see it. *)
Definition truthy (v : JsValue) : bool :=
  match v with
  | JUndefined | JNull => false
  | JBool b => b
  | JNum n => negb (n =? 0)%Z
  | JStr s => negb (s =? "")
  | JArr _ | JObj _ => true
  end.

(** [a === b].  Two objects or arrays are equal only when they are the same
    reference; the values compared by the registry come from different
    messages, hence are never the same reference. *)
Definition strict_eq (a b : JsValue) : bool :=
  match a, b with
  | JUndefined, JUndefined => true
  | JNull, JNull => true
  | JBool x, JBool y => Bool.eqb x y
  | JNum x, JNum y => (x =? y)%Z
  | JStr x, JStr y => (x =? y)
  | _, _ => false
  end.

Inductive JsType := Tundefined | Tobject | Tboolean | Tnumber | Tstring.

Definition typeof (v : JsValue) : JsType :=
  match v with
  | JUndefined => Tundefined
  | JNull | JArr _ | JObj _ => Tobject
  | JBool _ => Tboolean
  | JNum _ => Tnumber
  | JStr _ => Tstring
  end.

(** ** Objects as records of properties *)

Definition Message := list (string * JsValue).

(** [o.k]: [undefined] when the property is absent. *)
Fixpoint get_field (k : string) (o : Message) : JsValue :=
  match o with
  | [] => JUndefined
  | (k', v) :: rest => if k =? k' then v else get_field k rest
  end.

(** ['k' in o]. *)
Fixpoint has_field (k : string) (o : Message) : bool :=
  match o with
  | [] => false
  | (k', _) :: rest => (k =? k') || has_field k rest
  end.

(** [{...o, k: v}]: an existing property keeps its place and takes the new
    value, a new one goes last. *)
Fixpoint set_field (k : string) (v : JsValue) (o : Message) : Message :=
  match o with
  | [] => [(k, v)]
  | (k', v') :: rest =>
      if k =? k' then (k', v) :: rest else (k', v') :: set_field k v rest
  end.

(** [v.k] for any value [v]: raises on [undefined] and [null]; a primitive
    or an array has none of the properties the router reads ([name],
    [currentTask]). *)
Definition member (v : JsValue) (k : string) : option JsValue :=
  match v with
  | JUndefined | JNull => None
  | JObj fields => Some (get_field k fields)
  | _ => Some JUndefined
  end.

(** ** The world: registry, wire and the readings of clock and random source *)

Inductive ReadyState := CONNECTING | OPEN | CLOSING | CLOSED.

Definition ReadyState_eqb (a b : ReadyState) : bool :=
  match a, b with
  | CONNECTING, CONNECTING | OPEN, OPEN | CLOSING, CLOSING | CLOSED, CLOSED => true
  | _, _ => false
  end.

(** A transport handle of the [ws] library: its identity and its state. *)
Record WebSocket := { handle : nat; readyState : ReadyState }.

Inductive ClientType := dashboard | computercraft.

Definition ClientType_eqb (a b : ClientType) : bool :=
  match a, b with
  | dashboard, dashboard | computercraft, computercraft => true
  | _, _ => false
  end.

(** Modelled from the spec: the [ConnectedClient] interface of the server's
    [types/messages.ts], which is not among the sources.  The fields are those
    of the spec's connection record and those [ClientManager.ts] and
    [index.ts] read and write; the three registration fields hold whatever
    value the registration message carried, [undefined] before. *)
Record ConnectedClient := {
  id : string;
  ws : WebSocket;
  type : ClientType;
  connectedAt : Z;
  lastPing : option Z;
  computerName : JsValue;
  computerType : JsValue;
  registeredFunctions : JsValue;
  userAgent : option string
}.

(** [Partial<ConnectedClient>]: each field of the record, given or left
    out.  A field that is given carries a value of the field's type. *)
Record ClientUpdates := {
  u_id : option string;
  u_ws : option WebSocket;
  u_type : option ClientType;
  u_connectedAt : option Z;
  u_lastPing : option (option Z);
  u_computerName : option JsValue;
  u_computerType : option JsValue;
  u_registeredFunctions : option JsValue;
  u_userAgent : option (option string)
}.

(** One successful [ws.send]: the registry key of the record whose transport
    took the frame, and the value handed to [JSON.stringify]. *)
Record Frame := { frame_to : string; frame_data : Message }.

Record World := {
  clients : list (string * ConnectedClient);  (* the Map, in insertion order *)
  sent : list Frame;                          (* oldest first *)
  clock_reads : nat;                          (* Date.now() calls so far *)
  random_draws : nat                          (* Math.random() calls so far *)
}.

(** What the program cannot decide: the clock, the random source and whether
    a transport write raises. *)
Record Env := {
  Date_now_at : nat -> Z;
  Math_random_at : nat -> string;   (* base-36 text of the draw, "0." first *)
  ws_send_throws : list Frame -> ConnectedClient -> Message -> bool;
  ws_ping_throws : ConnectedClient -> bool
}.

(** State passing for the code that reads and writes the world. *)
Definition M (A : Type) : Type := World -> A * World.

Definition ret {A} (a : A) : M A := fun w => (a, w).

Definition bind {A B} (m : M A) (k : A -> M B) : M B :=
  fun w => let (a, w') := m w in k a w'.

Notation "x <- m ;; k" := (bind m (fun x => k))
  (at level 61, m at next level, right associativity).
Notation "m ;;; k" := (bind m (fun _ => k))
  (at level 61, right associativity).

Definition gets {A} (f : World -> A) : M A := fun w => (f w, w).

Definition set_clients (cs : list (string * ConnectedClient)) : M unit :=
  fun w => (tt, {| clients := cs; sent := sent w;
                   clock_reads := clock_reads w; random_draws := random_draws w |}).

Definition Date_now (E : Env) : M Z :=
  fun w => (Date_now_at E (clock_reads w),
            {| clients := clients w; sent := sent w;
               clock_reads := S (clock_reads w); random_draws := random_draws w |}).

Definition Math_random (E : Env) : M string :=
  fun w => (Math_random_at E (random_draws w),
            {| clients := clients w; sent := sent w;
               clock_reads := clock_reads w; random_draws := S (random_draws w) |}).

Definition ws_send (to : string) (data : Message) : M unit :=
  fun w => (tt, {| clients := clients w;
                   sent := (sent w ++ [{| frame_to := to; frame_data := data |}])%list;
                   clock_reads := clock_reads w; random_draws := random_draws w |}).

(** ** utils/messageUtils.ts *)

Module messageUtils.

(** The five cases of [switch (message.type)]. *)
Inductive MessageKind :=
| chat | command | api_registration | status_update | command_response.

(** Which [case] label the discriminant is strictly equal to, if any. *)
Definition switch_type (v : JsValue) : option MessageKind :=
  match v with
  | JStr t =>
      if t =? "chat" then Some chat
      else if t =? "command" then Some command
      else if t =? "api_registration" then Some api_registration
      else if t =? "status_update" then Some status_update
      else if t =? "command_response" then Some command_response
      else None
  | _ => None
  end.

Definition generateMessageId (E : Env) : M string :=
  now <- Date_now E ;;
  r <- Math_random E ;;
  ret ("msg_" ++ ToString (JNum now) ++ "_" ++ substring 2 9 r).

(** [{...partialMessage, id: partialMessage.id || generateMessageId(),
      timestamp: partialMessage.timestamp || Date.now()}]. *)
Definition createMessage (E : Env) (partialMessage : Message) : M Message :=
  i <- (if truthy (get_field "id" partialMessage)
        then ret (get_field "id" partialMessage)
        else (s <- generateMessageId E ;; ret (JStr s))) ;;
  t <- (if truthy (get_field "timestamp" partialMessage)
        then ret (get_field "timestamp" partialMessage)
        else (n <- Date_now E ;; ret (JNum n))) ;;
  ret (set_field "timestamp" t (set_field "id" i partialMessage)).

(** The truth value of [obj && typeof obj === 'object' && typeof obj.id ===
    'string' && ...]: an array or [null] has none of the four properties. *)
Definition isValidMessage (obj : JsValue) : bool :=
  match obj with
  | JObj o =>
      match typeof (get_field "id" o), typeof (get_field "timestamp" o),
            typeof (get_field "type" o), typeof (get_field "source" o) with
      | Tstring, Tnumber, Tstring, Tstring => true
      | _, _, _, _ => false
      end
  | _ => false
  end.

Definition validateMessageType (message : Message) : bool :=
  match switch_type (get_field "type" message) with
  | Some chat =>
      has_field "content" message && has_field "priority" message
  | Some command =>
      has_field "targetComputer" message && has_field "functionName" message
      && has_field "parameters" message
  | Some api_registration =>
      has_field "computerName" message && has_field "computerType" message
      && has_field "functions" message
  | Some status_update =>
      has_field "computerName" message && has_field "status" message
  | Some command_response =>
      has_field "originalCommandId" message && has_field "success" message
  | None => false
  end.

Definition is_angle (c : ascii) : bool :=
  (Ascii.eqb c "<"%char) || (Ascii.eqb c ">"%char).

(** [s.replace(/[<>]/g, '')]. *)
Fixpoint strip_angles (s : string) : string :=
  match s with
  | EmptyString => EmptyString
  | String c rest =>
      if is_angle c then strip_angles rest else String c (strip_angles rest)
  end.

Definition sanitizeMessage (message : Message) : Message :=
  if strict_eq (get_field "type" message) (JStr "chat")
  then set_field "content"
         (JStr (strip_angles (ToString (get_field "content" message)))) message
  else message.

End messageUtils.

(** ** services/ClientManager.ts *)

Module ClientManager.

Definition PING_INTERVAL : Z := 30000.

(** The [Map<string, ConnectedClient>]: [get], [set], [delete]. *)
Fixpoint map_get (k : string) (m : list (string * ConnectedClient))
  : option ConnectedClient :=
  match m with
  | [] => None
  | (k', c) :: rest => if k =? k' then Some c else map_get k rest
  end.

Fixpoint map_set (k : string) (c : ConnectedClient)
  (m : list (string * ConnectedClient)) : list (string * ConnectedClient) :=
  match m with
  | [] => [(k, c)]
  | (k', c') :: rest =>
      if k =? k' then (k', c) :: rest else (k', c') :: map_set k c rest
  end.

Fixpoint map_delete (k : string) (m : list (string * ConnectedClient))
  : list (string * ConnectedClient) :=
  match m with
  | [] => []
  | (k', c') :: rest =>
      if k =? k' then rest else (k', c') :: map_delete k rest
  end.

Definition values (m : list (string * ConnectedClient)) : list ConnectedClient :=
  map snd m.

Definition or_else {A} (o : option A) (d : A) : A :=
  match o with Some a => a | None => d end.

(** [Object.assign(client, updates)]. *)
Definition assign (client : ConnectedClient) (updates : ClientUpdates)
  : ConnectedClient :=
  {| id := or_else (u_id updates) (id client);
     ws := or_else (u_ws updates) (ws client);
     type := or_else (u_type updates) (type client);
     connectedAt := or_else (u_connectedAt updates) (connectedAt client);
     lastPing := or_else (u_lastPing updates) (lastPing client);
     computerName := or_else (u_computerName updates) (computerName client);
     computerType := or_else (u_computerType updates) (computerType client);
     registeredFunctions :=
       or_else (u_registeredFunctions updates) (registeredFunctions client);
     userAgent := or_else (u_userAgent updates) (userAgent client) |}.

Definition generateClientId (E : Env) : M string :=
  now <- Date_now E ;;
  r <- Math_random E ;;
  ret ("client_" ++ ToString (JNum now) ++ "_" ++ substring 2 6 r).

Definition addClient (E : Env) (socket : WebSocket) (ty : ClientType)
  (metadata : ClientUpdates) : M string :=
  clientId <- generateClientId E ;;
  t1 <- Date_now E ;;
  t2 <- Date_now E ;;
  let client :=
    assign {| id := clientId; ws := socket; type := ty;
              connectedAt := t1; lastPing := Some t2;
              computerName := JUndefined; computerType := JUndefined;
              registeredFunctions := JUndefined; userAgent := None |}
           metadata in
  cs <- gets clients ;;
  set_clients (map_set clientId client cs) ;;;
  ret clientId.

Definition removeClient (clientId : string) : M unit :=
  cs <- gets clients ;;
  match map_get clientId cs with
  | Some _ => set_clients (map_delete clientId cs)
  | None => ret tt
  end.

Definition getClient (clientId : string) : M (option ConnectedClient) :=
  gets (fun w => map_get clientId (clients w)).

Definition getClientsByType (ty : ClientType) : M (list ConnectedClient) :=
  gets (fun w =>
          filter (fun client => ClientType_eqb (type client) ty)
                 (values (clients w))).

Definition getComputerByName (name : JsValue) : M (option ConnectedClient) :=
  gets (fun w =>
          find (fun client =>
                  ClientType_eqb (type client) computercraft
                  && strict_eq (computerName client) name)
               (values (clients w))).

Definition updateClient (clientId : string) (updates : ClientUpdates) : M unit :=
  cs <- gets clients ;;
  match map_get clientId cs with
  | Some client => set_clients (map_set clientId (assign client updates) cs)
  | None => ret tt
  end.

(** [client.lastPing || client.connectedAt]. *)
Definition last_seen (client : ConnectedClient) : Z :=
  match lastPing client with
  | Some t => if (t =? 0)%Z then connectedAt client else t
  | None => connectedAt client
  end.

Definition isClientAlive (E : Env) (clientId : string) : M bool :=
  cs <- gets clients ;;
  match map_get clientId cs with
  | None => ret false
  | Some client =>
      now <- Date_now E ;;
      let timeSinceLastPing := (now - last_seen client)%Z in
      ret (timeSinceLastPing <? PING_INTERVAL * 3)%Z
  end.

(** Returns [false] and never raises: the [try] swallows what
    [JSON.stringify] or [ws.send] raise. *)
Definition sendToClient (E : Env) (clientId : string) (message : Message)
  : M bool :=
  cs <- gets clients ;;
  match map_get clientId cs with
  | None => ret false
  | Some client =>
      if negb (ReadyState_eqb (readyState (ws client)) OPEN) then ret false
      else
        history <- gets sent ;;
        if ws_send_throws E history client message then ret false
        else ws_send clientId message ;;; ret true
  end.

(** [for (const client of clients) if (f(client)) sentCount++]. *)
Fixpoint count_true (f : ConnectedClient -> M bool)
  (cs : list ConnectedClient) (sentCount : nat) : M nat :=
  match cs with
  | [] => ret sentCount
  | client :: rest =>
      ok <- f client ;;
      count_true f rest (if ok then S sentCount else sentCount)
  end.

Definition broadcastToType (E : Env) (ty : ClientType) (message : Message)
  : M nat :=
  cs <- getClientsByType ty ;;
  count_true (fun client => sendToClient E (id client) message) cs 0.

Definition broadcastToAll (E : Env) (message : Message) : M nat :=
  a <- broadcastToType E dashboard message ;;
  b <- broadcastToType E computercraft message ;;
  ret (a + b).

(** [array.filter(f)] for an [f] that reads the world. *)
Fixpoint filterM {A} (f : A -> M bool) (l : list A) : M (list A) :=
  match l with
  | [] => ret []
  | x :: rest =>
      keep <- f x ;;
      rest' <- filterM f rest ;;
      ret (if keep then x :: rest' else rest')
  end.

Fixpoint forEach {A} (f : A -> M unit) (l : list A) : M unit :=
  match l with
  | [] => ret tt
  | x :: rest => f x ;;; forEach f rest
  end.

Record Stats := {
  totalClients : nat;
  dashboards : nat;
  computers : nat;
  aliveClients : nat
}.

(** The local [aliveClients] array of [getStats]. *)
Definition aliveClientList (E : Env) : M (list ConnectedClient) :=
  cs <- gets clients ;;
  filterM (fun client => isClientAlive E (id client)) (values cs).

Definition getStats (E : Env) : M Stats :=
  alive <- aliveClientList E ;;
  cs <- gets clients ;;
  ds <- getClientsByType dashboard ;;
  cc <- getClientsByType computercraft ;;
  ret {| totalClients := List.length cs; dashboards := List.length ds;
         computers := List.length cc; aliveClients := List.length alive |}.

(** The first loop of [cleanup]: the ids pushed on [deadClients]. *)
Fixpoint deadClients (E : Env) (entries : list (string * ConnectedClient))
  : M (list string) :=
  match entries with
  | [] => ret []
  | (clientId, client) :: rest =>
      alive <- isClientAlive E clientId ;;
      dead <- deadClients E rest ;;
      ret (if negb alive || negb (ReadyState_eqb (readyState (ws client)) OPEN)
           then clientId :: dead else dead)
  end.

Definition cleanup (E : Env) : M unit :=
  cs <- gets clients ;;
  dead <- deadClients E cs ;;
  forEach removeClient dead.

(** One iteration of the ping loop: [client.ws.ping()] and then
    [client.lastPing = Date.now()], both inside the [try]. *)
Definition ping (E : Env) (entry : string * ConnectedClient) : M unit :=
  let (clientId, client) := entry in
  if ReadyState_eqb (readyState (ws client)) OPEN then
    if ws_ping_throws E client then ret tt
    else
      now <- Date_now E ;;
      cs <- gets clients ;;
      set_clients
        (map_set clientId
           (assign client
              {| u_id := None; u_ws := None; u_connectedAt := None;
                 u_type := None; u_lastPing := Some (Some now);
                 u_computerName := None; u_computerType := None;
                 u_registeredFunctions := None; u_userAgent := None |}) cs)
  else ret tt.

(** The callback [startPingInterval] hands to [setInterval]. *)
Definition pingIntervalTick (E : Env) : M unit :=
  cleanup E ;;;
  cs <- gets clients ;;
  forEach (ping E) cs.


(** [v || d]. *)
Definition or_default (v d : JsValue) : JsValue := if truthy v then v else d.



(** [destroy]: the timer is cleared, every transport is closed inside a
    [try] that swallows what [close] raises, and the map is cleared.  The
    world keeps transports only through the records of the map. *)
Definition destroy : M unit := set_clients [].

End ClientManager.

(** ** services/MessageRouter.ts *)

Module MessageRouter.
Import messageUtils ClientManager.

Inductive JsError := TypeError.

(** How a call of the router ends. *)
Inductive Completion := Normal | Throw (e : JsError).

(** Every element of a list, unless one is [None]. *)
Fixpoint all_some {A} (l : list (option A)) : option (list A) :=
  match l with
  | [] => Some []
  | None :: _ => None
  | Some a :: rest =>
      match all_some rest with Some r => Some (a :: r) | None => None end
  end.

(** [functions.map(f => f.name)]: only an array has [map], and reading
    [name] off a [null] or [undefined] element raises. *)
Definition function_names (functions : JsValue) : option (list JsValue) :=
  match functions with
  | JArr elems => all_some (map (fun f => member f "name") elems)
  | _ => None
  end.

(** [functions.length] of an array. *)
Definition array_length (v : JsValue) : JsValue :=
  match v with
  | JArr elems => JNum (Z.of_nat (List.length elems))
  | _ => JUndefined
  end.

Definition handleChatMessage (E : Env) (message : Message)
  (senderClientId : string) : M Completion :=
  sentCount <- broadcastToType E dashboard message ;;
  ret Normal.

Definition notConnectedResponse (message : Message) : Message :=
  [ ("type", JStr "command_response");
    ("source", JStr "server");
    ("originalCommandId", get_field "id" message);
    ("success", JBool false);
    ("error", JStr ("Computer '" ++ ToString (get_field "targetComputer" message)
                    ++ "' is not connected")) ].

Definition sendFailedResponse (message : Message) : Message :=
  [ ("type", JStr "command_response");
    ("source", JStr "server");
    ("originalCommandId", get_field "id" message);
    ("success", JBool false);
    ("error", JStr ("Failed to communicate with computer '"
                    ++ ToString (get_field "targetComputer" message) ++ "'")) ].

Definition handleCommandMessage (E : Env) (message : Message)
  (senderClientId : string) : M Completion :=
  targetClient <- getComputerByName (get_field "targetComputer" message) ;;
  match targetClient with
  | None =>
      errorResponse <- createMessage E (notConnectedResponse message) ;;
      sendToClient E senderClientId errorResponse ;;;
      ret Normal
  | Some targetClient =>
      success <- sendToClient E (id targetClient) message ;;
      if success then ret Normal
      else
        errorResponse <- createMessage E (sendFailedResponse message) ;;
        sendToClient E senderClientId errorResponse ;;;
        ret Normal
  end.

Definition welcomeMessage (message : Message) : Message :=
  [ ("type", JStr "chat");
    ("source", JStr "server");
    ("content", JStr ("Welcome " ++ ToString (get_field "computerName" message)
                      ++ "! Registration successful. Functions: "
                      ++ ToString (array_length (get_field "functions" message))));
    ("priority", JStr "medium");
    ("category", JStr "system") ].

Definition handleAPIRegistration (E : Env) (message : Message)
  (senderClientId : string) : M Completion :=
  match function_names (get_field "functions" message) with
  | None => ret (Throw TypeError)
  | Some _ =>
      updateClient senderClientId
        {| u_id := None; u_ws := None; u_connectedAt := None;
           u_type := None; u_lastPing := None;
           u_computerName := Some (get_field "computerName" message);
           u_computerType := Some (get_field "computerType" message);
           u_registeredFunctions := Some (get_field "functions" message);
           u_userAgent := None |} ;;;
      sentCount <- broadcastToType E dashboard message ;;
      welcome <- createMessage E (welcomeMessage message) ;;
      sendToClient E senderClientId welcome ;;;
      ret Normal
  end.

Definition handleStatusUpdate (E : Env) (message : Message)
  (senderClientId : string) : M Completion :=
  match member (get_field "status" message) "currentTask" with
  | None => ret (Throw TypeError)
  | Some _ =>
      sentCount <- broadcastToType E dashboard message ;;
      ret Normal
  end.

Definition handleCommandResponse (E : Env) (message : Message)
  (senderClientId : string) : M Completion :=
  sentCount <- broadcastToType E dashboard message ;;
  ret Normal.

Definition routeMessage (E : Env) (message : Message) (senderClientId : string)
  : M Completion :=
  if negb (validateMessageType message) then ret Normal
  else
    let sanitizedMessage := sanitizeMessage message in
    match switch_type (get_field "type" sanitizedMessage) with
    | Some chat => handleChatMessage E sanitizedMessage senderClientId
    | Some command => handleCommandMessage E sanitizedMessage senderClientId
    | Some api_registration =>
        handleAPIRegistration E sanitizedMessage senderClientId
    | Some status_update => handleStatusUpdate E sanitizedMessage senderClientId
    | Some command_response =>
        handleCommandResponse E sanitizedMessage senderClientId
    | None => ret Normal
    end.

(** [priority] has the default ['medium'], taken when the argument is left
    out or is [undefined]. *)
Definition sendServerMessage (E : Env) (content priority : JsValue) : M unit :=
  let priority := match priority with
                  | JUndefined => JStr "medium"
                  | given => given
                  end in
  message <- createMessage E
    [ ("type", JStr "chat"); ("source", JStr "server"); ("content", content);
      ("priority", priority); ("category", JStr "system") ] ;;
  sentCount <- broadcastToType E dashboard message ;;
  ret tt.

(** [v.length]: of an array, of a string, of an object that has the
    property; [undefined] on a boolean or a number. *)
Definition length_of (v : JsValue) : JsValue :=
  match v with
  | JArr elems => JNum (Z.of_nat (List.length elems))
  | JStr s => JNum (Z.of_nat (String.length s))
  | JObj fields => get_field "length" fields
  | _ => JUndefined
  end.







End MessageRouter.

(** ** index.ts: the [message] callback of a WebSocket connection *)

Module Server.
Import messageUtils ClientManager MessageRouter.

(** [data] is what [JSON.parse] made of the frame, [None] when it raised.
    The whole body sits in a [try] whose [catch] only logs, so the callback
    itself always completes. *)
Definition onMessage (E : Env) (clientId : string) (data : option JsValue)
  : M unit :=
  match data with
  | Some (JObj message) =>
      if negb (isValidMessage (JObj message)) then ret tt
      else
        client <- getClient clientId ;;
        (match client with
         | Some _ =>
             if strict_eq (get_field "type" message) (JStr "api_registration")
             then updateClient clientId
                    {| u_id := None; u_ws := None; u_connectedAt := None;
                       u_type := Some computercraft; u_lastPing := None;
                       u_computerName := None; u_computerType := None;
                       u_registeredFunctions := None; u_userAgent := None |}
             else ret tt
         | None => ret tt
         end) ;;;
        completion <- routeMessage E message clientId ;;
        ret tt
  | _ => ret tt
  end.

(** The [connection] callback: register the socket as a dashboard, then
    send the welcome chat with a bare [ws.send].  Returns the new id, and
    whether that [ws.send] returned normally; nothing guards it. *)
Definition connectedMessage (clientId : string) : Message :=
  [ ("type", JStr "chat");
    ("source", JStr "server");
    ("content", JStr ("Connected to ComputerCraft server! Client ID: "
                      ++ clientId));
    ("priority", JStr "low");
    ("category", JStr "system") ].

Definition onConnection (E : Env) (socket : WebSocket)
  (agent : option string) : M (string * bool) :=
  clientId <- addClient E socket dashboard
                {| u_id := None; u_ws := None; u_connectedAt := None;
                   u_type := None; u_lastPing := None; u_computerName := None;
                   u_computerType := None; u_registeredFunctions := None;
                   u_userAgent := Some agent |} ;;
  welcome <- createMessage E (connectedMessage clientId) ;;
  cs <- gets clients ;;
  history <- gets sent ;;
  match map_get clientId cs with
  | Some client =>
      if ws_send_throws E history client welcome then ret (clientId, false)
      else ws_send clientId welcome ;;; ret (clientId, true)
  | None => ret (clientId, false)
  end.

(** The [close] and the [error] callbacks. *)
Definition onClose (clientId : string) : M unit := removeClient clientId.

Definition onError (clientId : string) : M unit := removeClient clientId.

(** The [pong] callback: [client.lastPing = Date.now()]. *)
Definition onPong (E : Env) (clientId : string) : M unit :=
  client <- getClient clientId ;;
  match client with
  | Some c =>
      now <- Date_now E ;;
      cs <- gets clients ;;
      set_clients
        (map_set clientId
           (assign c
              {| u_id := None; u_ws := None; u_connectedAt := None;
                 u_type := None; u_lastPing := Some (Some now);
                 u_computerName := None; u_computerType := None;
                 u_registeredFunctions := None; u_userAgent := None |}) cs)
  | None => ret tt
  end.

(** What [res.status(n).json(body)] sends. *)
Record Reply := { status : nat; body : Message }.

Definition internalError (label : string) (text : string) : Reply :=
  {| status := 500;
     body := [("error", JStr label); ("message", JStr text)] |}.

(** [POST /api/computercraft/message].  [describe] is the engine's
    [error.message]. *)
Definition postMessage (E : Env) (describe : JsError -> string)
  (requestBody : JsValue) : M Reply :=
  match requestBody with
  | JObj message =>
      if negb (isValidMessage requestBody) then
        ret {| status := 400;
               body := [("error", JStr "Invalid message format");
                        ("required", JArr [JStr "id"; JStr "timestamp";
                                           JStr "type"; JStr "source"])] |}
      else
        now <- Date_now E ;;
        let virtualClientId :=
          "http_" ++ ToString (get_field "source" message) ++ "_"
          ++ ToString (JNum now) in
        completion <- routeMessage E message virtualClientId ;;
        match completion with
        | Normal =>
            t <- Date_now E ;;
            ret {| status := 200;
                   body := [("success", JBool true); ("timestamp", JNum t);
                            ("message",
                             JStr "Message received and processed")] |}
        | Throw e => ret (internalError "Internal server error" (describe e))
        end
  | _ =>
      ret {| status := 400;
             body := [("error", JStr "Invalid message format");
                      ("required", JArr [JStr "id"; JStr "timestamp";
                                         JStr "type"; JStr "source"])] |}
  end.

Definition registrationRequest
  (computerName computerType functions status : JsValue) : Message :=
  [ ("type", JStr "api_registration");
    ("source", computerName);
    ("computerName", computerName);
    ("computerType", computerType);
    ("functions", functions);
    ("status", or_default status (JObj [])) ].

(** [POST /api/computercraft/register].  Destructuring a [null] or
    [undefined] body raises inside the [try]. *)
Definition postRegister (E : Env) (describe : JsError -> string)
  (requestBody : JsValue) : M Reply :=
  match member requestBody "computerName", member requestBody "computerType",
        member requestBody "functions", member requestBody "status" with
  | Some computerName, Some computerType, Some functions, Some status =>
      if negb (truthy computerName) || negb (truthy computerType)
         || negb (truthy functions)
      then
        ret {| status := 400;
               body := [("error", JStr "Missing required fields");
                        ("required", JArr [JStr "computerName";
                                           JStr "computerType";
                                           JStr "functions"])] |}
      else
        registrationMessage <-
          createMessage E
            (registrationRequest computerName computerType functions status) ;;
        let virtualClientId :=
          "http_" ++ ToString computerName ++ "_register" in
        completion <- routeMessage E registrationMessage virtualClientId ;;
        match completion with
        | Normal =>
            ret {| status := 200;
                   body := [("success", JBool true);
                            ("message",
                             JStr ("Computer " ++ ToString computerName
                                   ++ " registered successfully"));
                            ("registeredFunctions", length_of functions)] |}
        | Throw e => ret (internalError "Registration failed" (describe e))
        end
  | _, _, _, _ => ret (internalError "Registration failed" (describe TypeError))
  end.

Definition commandRequest (targetComputer functionName parameters : JsValue)
  : Message :=
  [ ("type", JStr "command");
    ("source", JStr "http_api");
    ("targetComputer", targetComputer);
    ("functionName", functionName);
    ("parameters", or_default parameters (JObj [])) ].

(** [POST /api/computercraft/command]. *)
Definition postCommand (E : Env) (describe : JsError -> string)
  (requestBody : JsValue) : M Reply :=
  match member requestBody "targetComputer", member requestBody "functionName",
        member requestBody "parameters" with
  | Some targetComputer, Some functionName, Some parameters =>
      if negb (truthy targetComputer) || negb (truthy functionName)
      then
        ret {| status := 400;
               body := [("error", JStr "Missing required fields");
                        ("required", JArr [JStr "targetComputer";
                                           JStr "functionName"])] |}
      else
        commandMessage <-
          createMessage E
            (commandRequest targetComputer functionName parameters) ;;
        now <- Date_now E ;;
        let virtualClientId := "http_command_" ++ ToString (JNum now) in
        completion <- routeMessage E commandMessage virtualClientId ;;
        match completion with
        | Normal =>
            ret {| status := 200;
                   body := [("success", JBool true);
                            ("message",
                             JStr ("Command sent to "
                                   ++ ToString targetComputer));
                            ("command", functionName)] |}
        | Throw e => ret (internalError "Command failed" (describe e))
        end
  | _, _, _ => ret (internalError "Command failed" (describe TypeError))
  end.

End Server.

(** ** Concrete worlds and messages *)

Module Examples.
Import messageUtils ClientManager MessageRouter.

(** A still clock at one million, one random text, transports that never
    raise. *)
Definition quiet : Env :=
  {| Date_now_at := fun _ => 1000000%Z;
     Math_random_at := fun _ => "0.k3j9x2m7qp5";
     ws_send_throws := fun _ _ _ => false;
     ws_ping_throws := fun _ => false |}.

(** As [quiet], but a write to the connection ["v2"] raises. *)
Definition flaky : Env :=
  {| Date_now_at := fun _ => 1000000%Z;
     Math_random_at := fun _ => "0.k3j9x2m7qp5";
     ws_send_throws := fun _ client _ => id client =? "v2";
     ws_ping_throws := fun _ => false |}.

(** As [quiet], but the clock advances one millisecond per reading. *)
Definition ticking : Env :=
  {| Date_now_at := fun k => (1000000 + Z.of_nat k)%Z;
     Math_random_at := fun _ => "0.k3j9x2m7qp5";
     ws_send_throws := fun _ _ _ => false;
     ws_ping_throws := fun _ => false |}.

Definition connection (name : string) (h : nat) (st : ReadyState)
  (ty : ClientType) (seen : Z) : ConnectedClient :=
  {| id := name; ws := {| handle := h; readyState := st |}; type := ty;
     connectedAt := seen; lastPing := Some seen;
     computerName := JUndefined; computerType := JUndefined;
     registeredFunctions := JUndefined; userAgent := None |}.

Definition device (name : string) (h : nat) (st : ReadyState) (seen : Z)
  (computer : string) : ConnectedClient :=
  {| id := name; ws := {| handle := h; readyState := st |};
     type := computercraft;
     connectedAt := seen; lastPing := Some seen;
     computerName := JStr computer; computerType := JStr "turtle";
     registeredFunctions := JArr []; userAgent := None |}.

Definition world_of (cs : list ConnectedClient) : World :=
  {| clients := map (fun c => (id c, c)) cs; sent := [];
     clock_reads := 0; random_draws := 0 |}.

Definition v1 := connection "v1" 1 OPEN dashboard 999000.
Definition v2 := connection "v2" 2 OPEN dashboard 999000.
Definition v3 := connection "v3" 3 OPEN dashboard 999000.
Definition turtle1 := device "t1" 4 OPEN 999000 "Turtle1".
Definition stale_open := connection "old" 5 OPEN dashboard 900000.
(** A connection the [message] callback has just promoted, not yet named. *)
Definition promoted := connection "t1" 4 OPEN computercraft 999000.

(** One viewer. *)
Definition one_viewer : World := world_of [v1].
(** A registry as the server builds it: a viewer and a registered device,
    under generated ids. *)
Definition hub : World :=
  world_of [ connection "client_999000_a1b2c3" 1 OPEN dashboard 999000;
             device "client_999001_d4e5f6" 2 OPEN 999001 "Turtle1" ].
(** Three viewers. *)
Definition three_viewers : World := world_of [v1; v2; v3].
(** A viewer and a registered device. *)
Definition viewer_and_turtle : World := world_of [v1; turtle1].
(** A viewer and a promoted connection about to register. *)
Definition viewer_and_promoted : World := world_of [v1; promoted].
(** A promoted connection that is about to register a name already taken. *)
Definition latecomer := connection "t2" 6 OPEN computercraft 999500.
(** The device "Turtle1" and, registered after it, the latecomer. *)
Definition turtle_and_latecomer : World := world_of [turtle1; latecomer].
(** A viewer last seen 100 s ago whose transport is still open, and a fresh one. *)
Definition with_stale : World := world_of [stale_open; v1].

Definition dig_functions : JsValue :=
  JArr [ JObj [ ("name", JStr "dig"); ("description", JStr "Dig forward");
                ("parameters", JArr []); ("category", JStr "mining") ] ].

Definition chat_hi : Message :=
  [ ("id", JStr "m1"); ("timestamp", JNum 5); ("type", JStr "chat");
    ("source", JStr "dashboard"); ("content", JStr "<b>hi</b>");
    ("priority", JStr "low") ].

(** A chat without [id]. *)
Definition chat_no_id : Message :=
  [ ("timestamp", JNum 5); ("type", JStr "chat");
    ("source", JStr "dashboard"); ("content", JStr "hi");
    ("priority", JStr "low") ].

(** A chat whose [content] is the number 5. *)
Definition chat_number : Message :=
  [ ("id", JStr "m1"); ("timestamp", JNum 5); ("type", JStr "chat");
    ("source", JStr "dashboard"); ("content", JNum 5);
    ("priority", JStr "low") ].


Definition registration : Message :=
  [ ("id", JStr "m3"); ("timestamp", JNum 7); ("type", JStr "api_registration");
    ("source", JStr "Turtle1"); ("computerName", JStr "Turtle1");
    ("computerType", JStr "turtle"); ("functions", dig_functions);
    ("status", JObj []) ].

(** A chat without [priority]. *)
Definition chat_no_priority : Message :=
  [ ("id", JStr "m1"); ("timestamp", JNum 5); ("type", JStr "chat");
    ("source", JStr "dashboard"); ("content", JStr "hi") ].

(** A registration without [status]. *)
Definition registration_no_status : Message :=
  [ ("id", JStr "m3"); ("timestamp", JNum 7); ("type", JStr "api_registration");
    ("source", JStr "Turtle1"); ("computerName", JStr "Turtle1");
    ("computerType", JStr "turtle"); ("functions", dig_functions) ].

Definition status_report : Message :=
  [ ("id", JStr "m4"); ("timestamp", JNum 8); ("type", JStr "status_update");
    ("source", JStr "Turtle1"); ("computerName", JStr "Turtle1");
    ("status", JObj [("isActive", JBool true)]) ].

(** A registration whose [functions] is a number. *)
Definition registration_bad_functions : Message :=
  [ ("id", JStr "m3"); ("timestamp", JNum 7); ("type", JStr "api_registration");
    ("source", JStr "Turtle1"); ("computerName", JStr "Turtle1");
    ("computerType", JStr "turtle"); ("functions", JNum 5);
    ("status", JObj []) ].

(** The text the engine gives for a caught error. *)
Definition error_text (e : JsError) : string :=
  "Cannot read properties of undefined".

(** A socket that has just been accepted. *)
Definition new_socket : WebSocket := {| handle := 7; readyState := OPEN |}.

(** Metadata that names the computer and carries a socket of its own. *)
Definition rebound : ClientUpdates :=
  {| u_id := None; u_ws := Some {| handle := 9; readyState := CLOSED |};
     u_connectedAt := None; u_type := None; u_lastPing := None;
     u_computerName := Some (JStr "Turtle1"); u_computerType := None;
     u_registeredFunctions := None; u_userAgent := None |}.

(** Updates that carry an [id]. *)
Definition renamed : ClientUpdates :=
  {| u_id := Some "v9"; u_ws := None; u_connectedAt := None; u_type := None;
     u_lastPing := None; u_computerName := None; u_computerType := None;
     u_registeredFunctions := None; u_userAgent := None |}.

(** The body of a [POST /register] that names a computer, its type and its
    functions. *)
Definition register_body : JsValue :=
  JObj [ ("computerName", JStr "Turtle9"); ("computerType", JStr "turtle");
         ("functions", dig_functions) ].

(** The body of a [POST /command] for a computer nobody registered. *)
Definition command_body : JsValue :=
  JObj [ ("targetComputer", JStr "Ghost"); ("functionName", JStr "dig") ].

End Examples.

(** ** Vocabulary of the properties *)

Import messageUtils ClientManager MessageRouter.

(** The world after the given frames went out, nothing else changed. *)
Definition deliver (w : World) (frames : list Frame) : World :=
  {| clients := clients w; sent := (sent w ++ frames)%list;
     clock_reads := clock_reads w; random_draws := random_draws w |}.

(** Whether a delivery to [clientId] would go through in [w]: the record
    exists, its transport is open and the write does not raise. *)
Definition accepts (E : Env) (w : World) (clientId : string)
  (message : Message) : bool :=
  match map_get clientId (clients w) with
  | Some client =>
      ReadyState_eqb (readyState (ws client)) OPEN
      && negb (ws_send_throws E (sent w) client message)
  | None => false
  end.

(** The outcome of one [sendToClient] per client, in order. *)
Fixpoint attempts (E : Env) (message : Message) (cs : list ConnectedClient)
  : M (list bool) :=
  match cs with
  | [] => ret []
  | client :: rest =>
      ok <- sendToClient E (id client) message ;;
      oks <- attempts E message rest ;;
      ret (ok :: oks)
  end.

Definition count_ok (oks : list bool) : nat :=
  List.length (filter (fun ok => ok) oks).

(** The frames a round of attempts puts on the wire: one per client whose
    attempt returned true, in order. *)
Fixpoint frames_of (message : Message) (cs : list ConnectedClient)
  (oks : list bool) : list Frame :=
  match cs, oks with
  | client :: cs', ok :: oks' =>
      ((if ok then [{| frame_to := id client; frame_data := message |}]
        else []) ++ frames_of message cs' oks')%list
  | _, _ => []
  end.

Fixpoint distinct (ks : list string) : bool :=
  match ks with
  | [] => true
  | k :: rest => negb (existsb (String.eqb k) rest) && distinct rest
  end.

(** What every registry built by [addClient], [updateClient] and
    [removeClient] satisfies: a record sits under its own id, and a key
    occurs once, as in any [Map]. *)
Definition registry_wf (w : World) : bool :=
  forallb (fun entry => fst entry =? id (snd entry)) (clients w)
  && distinct (map fst (clients w)).

(** Every reading of the clock from [w] on finds the client last seen at
    least three heartbeat periods ago. *)
Definition stale (E : Env) (w : World) (client : ConnectedClient) : Prop :=
  forall k, clock_reads w <= k ->
            (PING_INTERVAL * 3 <= Date_now_at E k - last_seen client)%Z.

(** The field names [validateMessageType] looks for, per kind. *)
Definition checked_fields (kind : MessageKind) : list string :=
  match kind with
  | chat => ["content"; "priority"]
  | command => ["targetComputer"; "functionName"; "parameters"]
  | api_registration => ["computerName"; "computerType"; "functions"]
  | status_update => ["computerName"; "status"]
  | command_response => ["originalCommandId"; "success"]
  end.

(** A value [null] or [undefined], off which no property can be read. *)
Definition nullish (v : JsValue) : Prop := v = JNull \/ v = JUndefined.

(** Every key of the registry was made by [generateClientId]. *)
Definition generated_ids (w : World) : bool :=
  forallb (fun entry => String.prefix "client_" (fst entry)) (clients w).

(** What [handleAPIRegistration] may have stored as a function list:
    nothing yet, or an array without [null] and [undefined] entries. *)
Definition listable (functions : JsValue) : bool :=
  match functions with
  | JUndefined => true
  | JArr elems =>
      forallb (fun f => match f with
                        | JUndefined | JNull => false
                        | _ => true
                        end) elems
  | _ => false
  end.

Definition functions_listable (w : World) : bool :=
  forallb (fun entry => listable (registeredFunctions (snd entry))) (clients w).

(** Every reading of the clock from [w] on finds the client seen less than
    three heartbeat periods ago. *)
Definition fresh (E : Env) (w : World) (client : ConnectedClient) : Prop :=
  forall k, clock_reads w <= k ->
            (Date_now_at E k - last_seen client < PING_INTERVAL * 3)%Z.

(** The record with [lastPing] set to [t]. *)
Definition stamped (client : ConnectedClient) (t : Z) : ConnectedClient :=
  assign client
    {| u_id := None; u_ws := None; u_connectedAt := None;
       u_type := None; u_lastPing := Some (Some t); u_computerName := None;
       u_computerType := None; u_registeredFunctions := None;
       u_userAgent := None |}.

(** The fields a registration writes on the sender's record. *)
Definition registered_as (message : Message) : ClientUpdates :=
  {| u_id := None; u_ws := None; u_connectedAt := None;
     u_type := None; u_lastPing := None;
     u_computerName := Some (get_field "computerName" message);
     u_computerType := Some (get_field "computerType" message);
     u_registeredFunctions := Some (get_field "functions" message);
     u_userAgent := None |}.

(** Where routing [message] from [sender] in [w] may send a frame: to a
    registered connection that is the sender, a dashboard, or the device a
    command names, which then gets the command itself. *)
Definition rightful (w : World) (message : Message) (sender : string)
  (f : Frame) : Prop :=
  map_get (frame_to f) (clients w) <> None
  /\ (frame_to f = sender
      \/ (exists c, map_get (frame_to f) (clients w) = Some c
                    /\ type c = dashboard)
      \/ (get_field "type" message = JStr "command"
          /\ frame_data f = message
          /\ exists d,
              fst (getComputerByName (get_field "targetComputer" message) w)
              = Some d
              /\ frame_to f = id d)).

(** The values whose string conversion is the one [ToString] computes.  A
    [toString] property of its own, which in data read by [JSON.parse] is
    never a function, makes the conversion of an object raise; a number
    outside the safe integers is printed rounded or with an exponent.  An
    array is converted element by element, and the router reads into the
    objects of a message, so the condition goes all the way down. *)
Fixpoint plain (v : JsValue) : bool :=
  match v with
  | JNum n => (Z.abs n <=? 9007199254740991)%Z
  | JArr elems => forallb plain elems
  | JObj fields =>
      negb (has_field "toString" fields)
      && forallb (fun field => plain (snd field)) fields
  | _ => true
  end.

(** A message all of whose values are plain, and that has no [toString]
    property itself. *)
Definition plain_message (message : Message) : bool := plain (JObj message).

(** The two invariants of a registry the server built. *)
Definition registry_ok (w : World) : Prop :=
  registry_wf w = true /\ generated_ids w = true.


(** Take one step through a state-passing computation. *)
Ltac step :=
  match goal with
  | |- context [let (_, _) := ?x in _] => destruct x eqn:?
  | |- context [match ?x with Some _ => _ | None => _ end] => destruct x eqn:?
  | |- context [if ?x then _ else _] => destruct x eqn:?
  end.

(** ** Delivery primitives *)

Lemma deliver_nil w : deliver w [] = w.
Proof.
  destruct w; unfold deliver; simpl. now rewrite app_nil_r.
Qed.

Lemma deliver_app w f g : deliver (deliver w f) g = deliver w (f ++ g)%list.
Proof.
  unfold deliver; simpl. now rewrite app_assoc.
Qed.

Lemma sendToClient_spec E clientId message w :
  sendToClient E clientId message w =
  (accepts E w clientId message,
   deliver w (if accepts E w clientId message
              then [{| frame_to := clientId; frame_data := message |}]
              else [])).
Proof.
  unfold sendToClient, accepts, bind, gets, ret, ws_send; simpl.
  destruct (map_get clientId (clients w)) as [client|]; simpl.
  - destruct (ReadyState_eqb (readyState (ws client)) OPEN); simpl;
      [destruct (ws_send_throws E (sent w) client message); simpl|];
      now rewrite ?deliver_nil.
  - now rewrite deliver_nil.
Qed.

Lemma sendToClient_clients E clientId message w :
  clients (snd (sendToClient E clientId message w)) = clients w.
Proof. now rewrite sendToClient_spec. Qed.

Lemma attempts_clients E message cs :
  forall w, clients (snd (attempts E message cs w)) = clients w.
Proof.
  induction cs as [|client rest IH]; intro w; simpl; [reflexivity|].
  unfold bind. rewrite sendToClient_spec.
  specialize (IH (deliver w (if accepts E w (id client) message
       then [{| frame_to := id client; frame_data := message |}] else []))).
  destruct (attempts E message rest _) as [oks w']. simpl in *.
  exact IH.
Qed.

Lemma attempts_length E message cs :
  forall w, List.length (fst (attempts E message cs w)) = List.length cs.
Proof.
  induction cs as [|client rest IH]; intro w; simpl; [reflexivity|].
  unfold bind. destruct (sendToClient E (id client) message w) as [ok w1].
  specialize (IH w1). destruct (attempts E message rest w1) as [oks w2].
  simpl in *. now rewrite IH.
Qed.

(** The counting loop adds one per successful attempt. *)
Lemma count_true_attempts E message cs :
  forall n w,
    count_true (fun client => sendToClient E (id client) message) cs n w =
    (n + count_ok (fst (attempts E message cs w)),
     snd (attempts E message cs w)).
Proof.
  induction cs as [|client rest IH]; intros n w; simpl.
  - unfold ret, count_ok; simpl. now rewrite Nat.add_0_r.
  - unfold bind. destruct (sendToClient E (id client) message w) as [ok w1].
    rewrite IH. destruct (attempts E message rest w1) as [oks w2]. simpl.
    unfold count_ok; destruct ok; simpl; f_equal; lia.
Qed.

Lemma broadcastToType_attempts E ty message w :
  broadcastToType E ty message w =
  (count_ok (fst (attempts E message (fst (getClientsByType ty w)) w)),
   snd (attempts E message (fst (getClientsByType ty w)) w)).
Proof.
  unfold broadcastToType, bind, getClientsByType, gets; simpl.
  now rewrite count_true_attempts.
Qed.

Lemma attempts_frames E message cs :
  forall w,
    snd (attempts E message cs w)
    = deliver w (frames_of message cs (fst (attempts E message cs w))).
Proof.
  induction cs as [|client rest IH]; intro w; simpl.
  - unfold ret; simpl. now rewrite deliver_nil.
  - unfold bind. rewrite sendToClient_spec.
    match goal with
    | |- context [attempts E message rest ?w0] =>
        specialize (IH w0); destruct (attempts E message rest w0) as [oks w1]
    end.
    simpl in *. now rewrite IH, deliver_app.
Qed.

Lemma frames_of_length message cs :
  forall oks, List.length oks = List.length cs ->
              List.length (frames_of message cs oks) = count_ok oks.
Proof.
  unfold count_ok.
  induction cs as [|client rest IH]; intros [|ok oks] Hlen; simpl in *;
    try reflexivity; try discriminate.
  injection Hlen as Hlen. rewrite length_app, (IH oks Hlen).
  now destruct ok.
Qed.

(** C9.  [broadcastToType] returns the number of connections of the role
    whose own [sendToClient] returned true during the call.  Every
    connection of the role gets its attempt, whatever happened to the ones
    before; the call leaves the world those attempts leave, which differs
    from the initial one by one frame per successful attempt, so the count
    is also the number of frames that went out. *)
Theorem broadcast_count_accuracy E ty message w :
  let role := fst (getClientsByType ty w) in
  let outcomes := fst (attempts E message role w) in
  fst (broadcastToType E ty message w) = count_ok outcomes
  /\ List.length outcomes = List.length role
  /\ snd (broadcastToType E ty message w) = snd (attempts E message role w)
  /\ snd (broadcastToType E ty message w)
     = deliver w (frames_of message role outcomes)
  /\ List.length (frames_of message role outcomes)
     = fst (broadcastToType E ty message w).
Proof.
  cbv zeta. rewrite broadcastToType_attempts. simpl.
  split; [reflexivity|]. split; [apply attempts_length|].
  split; [reflexivity|]. split; [apply attempts_frames|].
  apply frames_of_length, attempts_length.
Qed.

(** C10.  Neither [sendToClient] nor [broadcastToType] touches the client
    map: after either call it is the map the call started with, delivered or
    not. *)
Theorem send_paths_preserve_registry E clientId ty message w :
  clients (snd (sendToClient E clientId message w)) = clients w
  /\ clients (snd (broadcastToType E ty message w)) = clients w.
Proof.
  split; [apply sendToClient_clients|].
  rewrite broadcastToType_attempts. simpl. apply attempts_clients.
Qed.

(** ** The client map *)

Lemma distinct_NoDup ks : distinct ks = true -> NoDup ks.
Proof.
  induction ks as [|k rest IH]; simpl; intro H; [constructor|].
  apply andb_prop in H as [Hk Hrest]. constructor; [|now apply IH].
  intro Hin. apply negb_true_iff in Hk.
  assert (existsb (String.eqb k) rest = true) as Hex.
  { apply existsb_exists. exists k. split; [assumption|apply String.eqb_refl]. }
  congruence.
Qed.

Lemma registry_wf_NoDup w :
  registry_wf w = true -> NoDup (map fst (clients w)).
Proof.
  unfold registry_wf. intro H. apply andb_prop in H as [_ H].
  now apply distinct_NoDup.
Qed.

Lemma map_get_In k m c : map_get k m = Some c -> In (k, c) m.
Proof.
  induction m as [|[k' c'] rest IH]; simpl; [discriminate|].
  destruct (String.eqb_spec k k') as [->|Hne]; intro H.
  - injection H as ->. now left.
  - right. now apply IH.
Qed.

Lemma map_get_None k m : map_get k m = None <-> ~ In k (map fst m).
Proof.
  induction m as [|[k' c'] rest IH]; simpl.
  - split; [intros _ []|reflexivity].
  - destruct (String.eqb_spec k k') as [->|Hne].
    + split; [discriminate|]. intro H. exfalso. apply H. now left.
    + rewrite IH. split.
      * intros H [Heq|Hin]; [now apply Hne|now apply H].
      * intros H Hin. apply H. now right.
Qed.

Lemma registry_wf_id w k c :
  registry_wf w = true -> map_get k (clients w) = Some c -> id c = k.
Proof.
  unfold registry_wf. intros H Hget. apply andb_prop in H as [H _].
  rewrite forallb_forall in H. apply map_get_In in Hget.
  specialize (H _ Hget). simpl in H. now apply String.eqb_eq in H.
Qed.

Lemma In_map_get m k c :
  NoDup (map fst m) -> In (k, c) m -> map_get k m = Some c.
Proof.
  induction m as [|[k' c'] rest IH]; simpl; intros Hnd Hin; [contradiction|].
  inversion Hnd as [|? ? Hnotin Hrest]; subst.
  destruct Hin as [Heq|Hin].
  - injection Heq as -> ->. now rewrite String.eqb_refl.
  - destruct (String.eqb_spec k k') as [->|Hne]; [|now apply IH].
    exfalso. apply Hnotin.
    change k' with (fst (k', c)). now apply in_map.
Qed.

Lemma registry_wf_entries w k c :
  registry_wf w = true -> In (k, c) (clients w) -> id c = k.
Proof.
  unfold registry_wf. intros H Hin. apply andb_prop in H as [H _].
  rewrite forallb_forall in H. specialize (H _ Hin). simpl in H.
  now apply String.eqb_eq in H.
Qed.

Lemma map_delete_keys x k m :
  In k (map fst (map_delete x m)) -> In k (map fst m).
Proof.
  induction m as [|[k' c'] rest IH]; simpl; [tauto|].
  destruct (x =? k'); simpl; [now right|].
  intros [H|H]; [now left|right; now apply IH].
Qed.

Lemma map_delete_NoDup x m :
  NoDup (map fst m) -> NoDup (map fst (map_delete x m)).
Proof.
  induction m as [|[k' c'] rest IH]; simpl; intro H; [constructor|].
  inversion H as [|? ? Hnotin Hrest]; subst.
  destruct (x =? k'); simpl; [assumption|].
  constructor; [|now apply IH].
  intro Hin. apply Hnotin. now apply map_delete_keys in Hin.
Qed.

Lemma map_delete_same k m :
  NoDup (map fst m) -> ~ In k (map fst (map_delete k m)).
Proof.
  induction m as [|[k' c'] rest IH]; simpl; intro H; [tauto|].
  inversion H as [|? ? Hnotin Hrest]; subst.
  destruct (String.eqb_spec k k') as [->|Hne]; simpl; [assumption|].
  intros [Heq|Hin]; [now apply Hne|now apply (IH Hrest)].
Qed.

Lemma map_set_keys x c k m :
  In k (map fst (map_set x c m)) -> k = x \/ In k (map fst m).
Proof.
  induction m as [|[k' c'] rest IH]; simpl.
  - intros [H|[]]. now left.
  - destruct (String.eqb_spec x k') as [->|Hne]; simpl.
    + intros [H|H]; [right; now left|right; now right].
    + intros [H|H]; [right; now left|].
      destruct (IH H) as [Hx|Hin]; [now left|right; now right].
Qed.

(** ** Liveness *)

Lemma isClientAlive_spec E clientId w :
  clients (snd (isClientAlive E clientId w)) = clients w
  /\ clock_reads w <= clock_reads (snd (isClientAlive E clientId w))
  /\ fst (isClientAlive E clientId w) =
     match map_get clientId (clients w) with
     | Some client =>
         (Date_now_at E (clock_reads w) - last_seen client
          <? PING_INTERVAL * 3)%Z
     | None => false
     end.
Proof.
  unfold isClientAlive, bind, gets, ret, Date_now; simpl.
  destruct (map_get clientId (clients w)); simpl; auto.
Qed.

Lemma stale_not_alive E w w0 clientId client :
  stale E w client ->
  clients w0 = clients w -> clock_reads w <= clock_reads w0 ->
  map_get clientId (clients w) = Some client ->
  fst (isClientAlive E clientId w0) = false.
Proof.
  intros Hstale Hcs Hclock Hget.
  destruct (isClientAlive_spec E clientId w0) as (_ & _ & ->).
  rewrite Hcs, Hget. apply Z.ltb_ge. now apply Hstale.
Qed.

(** The filter of [getStats] keeps no stale record. *)
Lemma alive_filter_drops_stale E w clientId client :
  registry_wf w = true ->
  map_get clientId (clients w) = Some client ->
  stale E w client ->
  forall l w0,
    clients w0 = clients w -> clock_reads w <= clock_reads w0 ->
    ~ In client
        (fst (filterM (fun c => isClientAlive E (id c)) l w0)).
Proof.
  intros Hwf Hget Hstale.
  induction l as [|x rest IH]; intros w0 Hcs Hclock; simpl; [tauto|].
  unfold bind.
  destruct (isClientAlive_spec E (id x) w0) as (Hcs1 & Hclock1 & _).
  pose proof (fun H => stale_not_alive E w w0 (id x) client Hstale Hcs Hclock H)
    as Hdead.
  destruct (isClientAlive E (id x) w0) as [keep w1]. simpl in *.
  assert (clients w1 = clients w) as Hcs1' by congruence.
  assert (clock_reads w <= clock_reads w1) as Hclock1' by lia.
  specialize (IH w1 Hcs1' Hclock1').
  destruct (filterM _ rest w1) as [kept w2]. simpl in *.
  unfold ret; simpl. destruct keep; simpl; [|assumption].
  intros [Heq|Hin]; [|now apply IH].
  subst x. rewrite (registry_wf_id w clientId client Hwf Hget) in Hdead.
  specialize (Hdead Hget). discriminate.
Qed.

(** The filter of [getStats] reads the clock and nothing else; what it
    returns is shorter than what it was given as soon as a stale record was
    in it. *)
Lemma alive_filter_length E w clientId client :
  registry_wf w = true ->
  map_get clientId (clients w) = Some client ->
  stale E w client ->
  forall l w0,
    clients w0 = clients w -> clock_reads w <= clock_reads w0 ->
    clients (snd (filterM (fun c => isClientAlive E (id c)) l w0)) = clients w
    /\ List.length (fst (filterM (fun c => isClientAlive E (id c)) l w0))
       <= List.length l
    /\ (In client l ->
        List.length (fst (filterM (fun c => isClientAlive E (id c)) l w0))
        < List.length l).
Proof.
  intros Hwf Hget Hstale.
  induction l as [|x rest IH]; intros w0 Hcs Hclock; simpl.
  - unfold ret; simpl. repeat split; [assumption|lia|tauto].
  - unfold bind.
    destruct (isClientAlive_spec E (id x) w0) as (Hcs1 & Hclock1 & _).
    pose proof (fun H => stale_not_alive E w w0 (id x) client Hstale Hcs Hclock H)
      as Hdead.
    destruct (isClientAlive E (id x) w0) as [keep w1]. simpl in *.
    assert (clients w1 = clients w) as Hcs1' by congruence.
    assert (clock_reads w <= clock_reads w1) as Hclock1' by lia.
    destruct (IH w1 Hcs1' Hclock1') as (IHcs & IHle & IHlt).
    destruct (filterM _ rest w1) as [kept w2]. simpl in *.
    unfold ret; simpl. split; [assumption|].
    destruct keep; simpl.
    + split; [lia|]. intros [Heq|Hin]; [|apply IHlt in Hin; lia].
      subst x. rewrite (registry_wf_id w clientId client Hwf Hget) in Hdead.
      specialize (Hdead Hget). discriminate.
    + split; [lia|]. intros _. lia.
Qed.

(** The first loop of [cleanup] lists every stale record and leaves the map
    alone. *)
Lemma deadClients_lists_stale E w clientId client :
  map_get clientId (clients w) = Some client ->
  stale E w client ->
  forall entries w0,
    clients w0 = clients w -> clock_reads w <= clock_reads w0 ->
    clients (snd (deadClients E entries w0)) = clients w
    /\ (In clientId (map fst entries) ->
        In clientId (fst (deadClients E entries w0))).
Proof.
  intros Hget Hstale.
  induction entries as [|[k c] rest IH]; intros w0 Hcs Hclock; simpl.
  - unfold ret; simpl. tauto.
  - unfold bind.
    destruct (isClientAlive_spec E k w0) as (Hcs1 & Hclock1 & _).
    pose proof (fun H => stale_not_alive E w w0 k client Hstale Hcs Hclock H)
      as Hdead.
    destruct (isClientAlive E k w0) as [alive w1]. simpl in *.
    assert (clients w1 = clients w) as Hcs1' by congruence.
    assert (clock_reads w <= clock_reads w1) as Hclock1' by lia.
    destruct (IH w1 Hcs1' Hclock1') as [IHcs IHin].
    destruct (deadClients E rest w1) as [dead w2]. simpl in *.
    unfold ret; simpl. split; [assumption|].
    intros [Heq|Hin].
    + subst k. rewrite (Hdead Hget). simpl. now left.
    + destruct (negb alive || _); simpl; [right|]; now apply IHin.
Qed.

Lemma removeClient_spec clientId w :
  clients (snd (removeClient clientId w)) = map_delete clientId (clients w)
  \/ (map_get clientId (clients w) = None
      /\ clients (snd (removeClient clientId w)) = clients w).
Proof.
  unfold removeClient, bind, gets, set_clients, ret; simpl.
  destruct (map_get clientId (clients w)); simpl; auto.
Qed.

(** The second loop of [cleanup] removes every id it is given. *)
Lemma forEach_removeClient_removes k :
  forall dead w,
    NoDup (map fst (clients w)) ->
    In k dead \/ ~ In k (map fst (clients w)) ->
    ~ In k (map fst (clients (snd (forEach removeClient dead w)))).
Proof.
  induction dead as [|x rest IH]; intros w Hnd Hk; simpl.
  - unfold ret; simpl. destruct Hk as [[]|Hk]. assumption.
  - unfold bind.
    pose proof (removeClient_spec x w) as Hrm.
    destruct (removeClient x w) as [[] w1]. simpl in *.
    apply IH.
    + destruct Hrm as [->|[_ ->]]; [now apply map_delete_NoDup|assumption].
    + destruct Hk as [[Heq|Hin]|Hnot].
      * subst x. right. destruct Hrm as [->|[Hnone ->]].
        -- now apply map_delete_same.
        -- now apply map_get_None.
      * now left.
      * right. destruct Hrm as [->|[_ ->]]; [|assumption].
        intro Hin. apply Hnot. now apply map_delete_keys in Hin.
Qed.

(** ** Registries the program can reach *)

Lemma NoDup_distinct ks : NoDup ks -> distinct ks = true.
Proof.
  induction 1 as [|k rest Hnotin Hnd IH]; simpl; [reflexivity|].
  rewrite IH, andb_true_r. apply negb_true_iff.
  destruct (existsb (String.eqb k) rest) eqn:Hex; [|reflexivity].
  apply existsb_exists in Hex as (k' & Hin & Heq).
  apply String.eqb_eq in Heq. now subst k'.
Qed.

Lemma registry_wf_iff w :
  registry_wf w = true
  <-> (forall k c, In (k, c) (clients w) -> id c = k)
      /\ NoDup (map fst (clients w)).
Proof.
  split.
  - intro H. split; [|now apply registry_wf_NoDup].
    intros k c. now apply registry_wf_entries.
  - intros [Hid Hnd]. unfold registry_wf. apply andb_true_intro. split.
    + apply forallb_forall. intros [k c] Hin. simpl.
      apply String.eqb_eq. symmetry. now apply Hid.
    + now apply NoDup_distinct.
Qed.

Lemma registry_wf_clients w w' :
  clients w' = clients w -> registry_wf w' = registry_wf w.
Proof. unfold registry_wf. now intros ->. Qed.

Lemma map_set_entries x c m k d :
  In (k, d) (map_set x c m) -> (k, d) = (x, c) \/ In (k, d) m.
Proof.
  induction m as [|[k' c'] rest IH]; simpl.
  - intros [H|[]]. left. now symmetry.
  - destruct (String.eqb_spec x k') as [->|Hne]; simpl.
    + intros [H|H]; [left; now symmetry|right; now right].
    + intros [H|H]; [right; now left|].
      destruct (IH H) as [Hx|Hin]; [now left|right; now right].
Qed.

Lemma map_set_NoDup x c m :
  NoDup (map fst m) -> NoDup (map fst (map_set x c m)).
Proof.
  induction m as [|[k' c'] rest IH]; simpl; intro Hnd.
  - constructor; [tauto|constructor].
  - inversion Hnd as [|? ? Hnotin Hrest]; subst.
    destruct (String.eqb_spec x k') as [->|Hne]; simpl.
    + now constructor.
    + constructor; [|now apply IH].
      intro Hin. apply map_set_keys in Hin as [Heq|Hin]; [|contradiction].
      now apply Hne.
Qed.

Lemma map_delete_entries x m k d :
  In (k, d) (map_delete x m) -> In (k, d) m.
Proof.
  induction m as [|[k' c'] rest IH]; simpl; [tauto|].
  destruct (x =? k'); simpl; [now right|].
  intros [H|H]; [now left|right; now apply IH].
Qed.

(** Writing a record under its own id keeps the registry well formed. *)
Lemma map_set_wf w k c cs :
  registry_wf w = true -> id c = k ->
  clients cs = map_set k c (clients w) -> registry_wf cs = true.
Proof.
  intros Hwf Hid Hcs. apply registry_wf_iff in Hwf as [Hids Hnd].
  apply registry_wf_iff. rewrite Hcs. split.
  - intros k' d Hin. apply map_set_entries in Hin as [Heq|Hin].
    + now injection Heq as -> ->.
    + now apply Hids.
  - now apply map_set_NoDup.
Qed.

Lemma updateClient_wf clientId updates w :
  u_id updates = None ->
  registry_wf w = true ->
  registry_wf (snd (updateClient clientId updates w)) = true.
Proof.
  intros Hid Hwf. unfold updateClient, bind, gets, set_clients, ret. simpl.
  destruct (map_get clientId (clients w)) as [client|] eqn:Hget;
    [|assumption].
  apply (map_set_wf w clientId (assign client updates)); [assumption| |reflexivity].
  simpl. rewrite Hid. now apply (registry_wf_id w).
Qed.

Lemma removeClient_wf clientId w :
  registry_wf w = true -> registry_wf (snd (removeClient clientId w)) = true.
Proof.
  intro Hwf. destruct (removeClient_spec clientId w) as [Hrm|[_ Hrm]].
  - apply registry_wf_iff in Hwf as [Hids Hnd].
    apply registry_wf_iff. rewrite Hrm. split.
    + intros k d Hin. apply Hids. now apply map_delete_entries in Hin.
    + now apply map_delete_NoDup.
  - now rewrite (registry_wf_clients _ _ Hrm).
Qed.

Lemma addClient_wf E socket ty metadata w :
  u_id metadata = None ->
  registry_wf w = true ->
  registry_wf (snd (addClient E socket ty metadata w)) = true.
Proof.
  intros Hid Hwf.
  unfold addClient, generateClientId, bind, gets, set_clients, ret,
    Date_now, Math_random. simpl.
  eapply (map_set_wf w); [assumption| |reflexivity]. simpl. now rewrite Hid.
Qed.

(** A clock that never runs backwards: once a record is three periods old
    it stays so at every later reading. *)
Lemma stale_of_monotone_clock E w client :
  (forall i j, i <= j -> (Date_now_at E i <= Date_now_at E j)%Z) ->
  (PING_INTERVAL * 3 <= Date_now_at E (clock_reads w) - last_seen client)%Z ->
  stale E w client.
Proof.
  intros Hmono Hold k Hk. specialize (Hmono _ _ Hk). lia.
Qed.

Lemma cleanup_evicts_stale E w clientId client :
  registry_wf w = true ->
  map_get clientId (clients w) = Some client ->
  stale E w client ->
  ~ In clientId (map fst (clients (snd (cleanup E w)))).
Proof.
  intros Hwf Hget Hstale. unfold cleanup, bind, gets; simpl.
  destruct (deadClients_lists_stale E w clientId client Hget Hstale
              (clients w) w eq_refl (le_n _)) as [Hcs Hin].
  destruct (deadClients E (clients w) w) as [dead w1]. simpl in *.
  apply forEach_removeClient_removes.
  - rewrite Hcs. now apply registry_wf_NoDup.
  - left. apply Hin. apply map_get_In in Hget.
    change clientId with (fst (clientId, client)). now apply in_map.
Qed.

(** The ping loop stamps records that are there; it adds none. *)
Lemma forEach_ping_keys E k :
  forall entries w,
    ~ In k (map fst entries) -> ~ In k (map fst (clients w)) ->
    ~ In k (map fst (clients (snd (forEach (ping E) entries w)))).
Proof.
  induction entries as [|[x c] rest IH]; intros w Hent Hw.
  - simpl. assumption.
  - change (forEach (ping E) ((x, c) :: rest) w)
      with (bind (ping E (x, c)) (fun _ => forEach (ping E) rest) w).
    unfold bind. simpl in Hent.
    assert (~ In k (map fst (clients (snd (ping E (x, c) w))))) as Hstep.
    { unfold ping, bind, gets, set_clients, ret, Date_now; simpl.
      destruct (ReadyState_eqb (readyState (ws c)) OPEN); simpl; [|assumption].
      destruct (ws_ping_throws E c); simpl; [assumption|].
      intro Hin. apply map_set_keys in Hin as [Heq|Hin]; [|now apply Hw].
      apply Hent. now left. }
    destruct (ping E (x, c) w) as [[] w1]. cbn [snd] in Hstep.
    apply (IH w1); [|exact Hstep]. intro Hin. apply Hent. now right.
Qed.

(** C8.  A registered connection is alive iff the time since its [lastPing]
    (its [connectedAt] when [lastPing] is unset or zero) is strictly below
    3 x 30000 ms.  A connection that every later reading of the clock finds
    at or past that age is not in the alive list [getStats] counts, so the
    alive count stays below the total, and is gone from the registry after [cleanup] and after the whole heartbeat
    tick, whatever the state of its transport. *)
Theorem three_missed_beats E w clientId client :
  map_get clientId (clients w) = Some client ->
  let now := Date_now_at E (clock_reads w) in
  let alive := fst (isClientAlive E clientId w) in
  (forall t, lastPing client = Some t -> t <> 0%Z ->
             (alive = true <-> (now - t < 3 * 30000)%Z))
  /\ (lastPing client = None \/ lastPing client = Some 0%Z ->
      (alive = true <-> (now - connectedAt client < 3 * 30000)%Z))
  /\ (registry_wf w = true -> stale E w client ->
      ~ In client (fst (aliveClientList E w))
      /\ aliveClients (fst (getStats E w))
         = List.length (fst (aliveClientList E w))
      /\ aliveClients (fst (getStats E w)) < totalClients (fst (getStats E w))
      /\ map_get clientId (clients (snd (cleanup E w))) = None
      /\ map_get clientId (clients (snd (pingIntervalTick E w))) = None).
Proof.
  intros Hget now alive.
  assert (alive = (now - last_seen client <? PING_INTERVAL * 3)%Z) as Halive.
  { subst alive now.
    destruct (isClientAlive_spec E clientId w) as (_ & _ & ->).
    now rewrite Hget. }
  split; [|split].
  - intros t Ht Hnz. rewrite Halive. unfold last_seen, PING_INTERVAL.
    rewrite Ht. apply Z.eqb_neq in Hnz. rewrite Hnz.
    rewrite Z.ltb_lt. lia.
  - intros Hnone. rewrite Halive. unfold last_seen, PING_INTERVAL.
    destruct Hnone as [-> | ->]; simpl; rewrite Z.ltb_lt; lia.
  - intros Hwf Hstale.
    assert (~ In client (fst (aliveClientList E w))) as Hnot.
    { unfold aliveClientList, bind, gets; simpl.
      now apply (alive_filter_drops_stale E w clientId client). }
    pose proof (cleanup_evicts_stale E w clientId client Hwf Hget Hstale)
      as Hgone.
    repeat split.
    + exact Hnot.
    + unfold getStats, bind, gets, ret, getClientsByType; simpl.
      destruct (aliveClientList E w) as [kept w1]. reflexivity.
    + unfold getStats, aliveClientList, bind, gets, ret, getClientsByType.
      cbv beta iota.
      destruct (alive_filter_length E w clientId client Hwf Hget Hstale
                  (values (clients w)) w eq_refl (le_n _)) as (Hcs & _ & Hlt).
      destruct (filterM _ (values (clients w)) w) as [kept w1].
      cbn [fst snd aliveClients totalClients] in *. rewrite Hcs.
      unfold values in Hlt. rewrite length_map in Hlt. apply Hlt.
      apply map_get_In in Hget.
      change client with (snd (clientId, client)). now apply in_map.
    + now apply map_get_None.
    + apply map_get_None. unfold pingIntervalTick, bind, gets.
      destruct (cleanup E w) as [[] w1]. simpl in *.
      now apply forEach_ping_keys.
Qed.

(** ** Fields of an object *)

Lemma get_set_same k v o : get_field k (set_field k v o) = v.
Proof.
  induction o as [|[k' v'] rest IH]; simpl.
  - now rewrite String.eqb_refl.
  - destruct (k =? k') eqn:Hk; simpl; rewrite Hk; [reflexivity|assumption].
Qed.

Lemma get_set_other k k' v o :
  k' <> k -> get_field k' (set_field k v o) = get_field k' o.
Proof.
  intro Hne. induction o as [|[k0 v0] rest IH]; simpl.
  - apply String.eqb_neq in Hne. now rewrite Hne.
  - destruct (String.eqb_spec k k0) as [->|Hk]; simpl.
    + apply String.eqb_neq in Hne. now rewrite Hne.
    + now rewrite IH.
Qed.

Lemma set_field_keys k v o :
  has_field k o = true -> map fst (set_field k v o) = map fst o.
Proof.
  induction o as [|[k0 v0] rest IH]; simpl; [discriminate|].
  destruct (k =? k0); simpl; [reflexivity|]. intro H. now rewrite IH.
Qed.

Lemma has_field_keys k o : has_field k o = existsb (String.eqb k) (map fst o).
Proof.
  induction o as [|[k0 v0] rest IH]; simpl; [reflexivity|]. now rewrite IH.
Qed.

Lemma get_field_absent k o : has_field k o = false -> get_field k o = JUndefined.
Proof.
  induction o as [|[k0 v0] rest IH]; simpl; [reflexivity|].
  destruct (k =? k0); simpl; [discriminate|assumption].
Qed.

Lemma strict_eq_str v s : strict_eq v (JStr s) = true <-> v = JStr s.
Proof.
  destruct v; simpl; split; try discriminate; intro H.
  - apply String.eqb_eq in H. now subst.
  - injection H as ->. apply String.eqb_refl.
Qed.

Lemma strip_angles_filter s :
  list_ascii_of_string (strip_angles s)
  = filter (fun c => negb (is_angle c)) (list_ascii_of_string s).
Proof.
  induction s as [|c rest IH]; simpl; [reflexivity|].
  destruct (is_angle c); simpl; now rewrite IH.
Qed.

Lemma sanitize_other_kind message :
  get_field "type" message <> JStr "chat" -> sanitizeMessage message = message.
Proof.
  intro H. unfold sanitizeMessage.
  destruct (strict_eq (get_field "type" message) (JStr "chat")) eqn:Heq;
    [|reflexivity].
  apply strict_eq_str in Heq. contradiction.
Qed.

Lemma sanitize_chat message :
  get_field "type" message = JStr "chat" ->
  sanitizeMessage message
  = set_field "content"
      (JStr (strip_angles (ToString (get_field "content" message)))) message.
Proof.
  intro H. unfold sanitizeMessage. rewrite H. reflexivity.
Qed.

(** C7, as amended.  On an accepted chat whose [content] is a string,
    [sanitizeMessage] replaces [content] by the same text without its ['<']
    and ['>'] characters, the other characters in their order; every other
    field keeps its value and the field names keep their order.  An accepted
    message of another kind comes back as it went in. *)
Theorem sanitize_strips_angles_only message :
  validateMessageType message = true ->
  (forall s,
      get_field "type" message = JStr "chat" ->
      get_field "content" message = JStr s ->
      get_field "content" (sanitizeMessage message) = JStr (strip_angles s)
      /\ list_ascii_of_string (strip_angles s)
         = filter (fun c => negb (Ascii.eqb c "<"%char || Ascii.eqb c ">"%char))
                  (list_ascii_of_string s)
      /\ (forall k, k <> "content" ->
                    get_field k (sanitizeMessage message) = get_field k message)
      /\ map fst (sanitizeMessage message) = map fst message)
  /\ (get_field "type" message <> JStr "chat" ->
      sanitizeMessage message = message).
Proof.
  intro Hvalid. split; [|apply sanitize_other_kind].
  intros s Htype Hcontent. rewrite (sanitize_chat message Htype), Hcontent.
  simpl ToString. repeat split.
  - apply get_set_same.
  - apply strip_angles_filter.
  - intros k Hk. now apply get_set_other.
  - apply set_field_keys. unfold validateMessageType in Hvalid.
    rewrite Htype in Hvalid. simpl in Hvalid.
    now apply andb_prop in Hvalid as [? _].
Qed.

(** ** The router *)

Lemma validate_checks_fields message kind :
  switch_type (get_field "type" message) = Some kind ->
  validateMessageType message
  = forallb (fun field => has_field field message) (checked_fields kind).
Proof.
  intro H. unfold validateMessageType. rewrite H.
  destruct kind; simpl; now rewrite ?andb_true_r, ?andb_assoc.
Qed.

Lemma sanitize_keeps_type message :
  get_field "type" (sanitizeMessage message) = get_field "type" message.
Proof.
  unfold sanitizeMessage.
  destruct (strict_eq (get_field "type" message) (JStr "chat"));
    [|reflexivity].
  now apply get_set_other.
Qed.

Lemma routeMessage_dispatch E message sender w kind :
  validateMessageType message = true ->
  switch_type (get_field "type" message) = Some kind ->
  routeMessage E message sender w =
  match kind with
  | chat => handleChatMessage E (sanitizeMessage message) sender w
  | command => handleCommandMessage E message sender w
  | api_registration => handleAPIRegistration E message sender w
  | status_update => handleStatusUpdate E message sender w
  | command_response => handleCommandResponse E message sender w
  end.
Proof.
  intros Hvalid Hkind. unfold routeMessage.
  rewrite Hvalid, sanitize_keeps_type, Hkind. simpl.
  destruct kind; try reflexivity;
    rewrite sanitize_other_kind; try reflexivity;
    intro Hchat; rewrite Hchat in Hkind; discriminate.
Qed.

(** C1, as amended.  A message whose [type] is absent or is none of the
    five kinds, or that lacks one of the fields [validateMessageType] looks
    for under its kind, is dropped: [routeMessage] returns normally and the
    world, registry and wire included, is the one it started with. *)
Theorem incomplete_message_is_dropped E message sender w :
  has_field "type" message = false
  \/ switch_type (get_field "type" message) = None
  \/ (exists kind field,
        switch_type (get_field "type" message) = Some kind
        /\ In field (checked_fields kind)
        /\ has_field field message = false) ->
  routeMessage E message sender w = (Normal, w).
Proof.
  intro H.
  assert (validateMessageType message = false) as Hinvalid.
  { destruct H as [Habsent|[Hnone|(kind & field & Hkind & Hin & Hmissing)]].
    - unfold validateMessageType.
      now rewrite (get_field_absent _ _ Habsent).
    - unfold validateMessageType. now rewrite Hnone.
    - rewrite (validate_checks_fields message kind Hkind).
      destruct (forallb _ (checked_fields kind)) eqn:Hall; [|reflexivity].
      rewrite forallb_forall in Hall. specialize (Hall field Hin). congruence. }
  unfold routeMessage. now rewrite Hinvalid.
Qed.

Lemma all_some_None {A} (l : list (option A)) :
  all_some l = None <-> In None l.
Proof.
  induction l as [|[a|] rest IH]; simpl.
  - split; [discriminate|tauto].
  - destruct (all_some rest).
    + split; [discriminate|]. intros [H|H]; [discriminate|].
      now apply IH in H.
    + split; [|reflexivity]. intros _. right. now apply IH.
  - split; [now left|reflexivity].
Qed.

Lemma member_None v k : member v k = None <-> nullish v.
Proof.
  unfold nullish. destruct v; simpl; split; try discriminate; auto;
    intros [H|H]; discriminate.
Qed.

Lemma function_names_None v :
  function_names v = None
  <-> ~ (exists elems, v = JArr elems /\ forall f, In f elems -> ~ nullish f).
Proof.
  split.
  - intros H (elems & -> & Hall). simpl in H. apply all_some_None in H.
    apply in_map_iff in H as (f & Hf & Hin). apply member_None in Hf.
    now apply (Hall f).
  - intro H. destruct v; try reflexivity. simpl.
    destruct (all_some (map (fun f => member f "name") elems)) eqn:Hsome;
      [|reflexivity].
    exfalso. apply H. exists elems. split; [reflexivity|].
    intros f Hin Hnull. apply (member_None f "name") in Hnull.
    assert (In None (map (fun f => member f "name") elems)) as Hnone.
    { apply in_map_iff. now exists f. }
    apply all_some_None in Hnone. congruence.
Qed.

Lemma switch_type_total_false message :
  switch_type (get_field "type" message) = None ->
  validateMessageType message = false.
Proof. intro H. unfold validateMessageType. now rewrite H. Qed.

Lemma switch_type_inv v kind :
  switch_type v = Some kind ->
  v = JStr (match kind with
            | chat => "chat"
            | command => "command"
            | api_registration => "api_registration"
            | status_update => "status_update"
            | command_response => "command_response"
            end).
Proof.
  destruct v; simpl; try discriminate.
  repeat (match goal with
          | |- context [String.eqb ?a ?b] =>
              destruct (String.eqb_spec a b) as [->|?]
          end; [intro H; injection H as <-; reflexivity|]).
  discriminate.
Qed.

Lemma handleChatMessage_normal E message sender w :
  fst (handleChatMessage E message sender w) = Normal.
Proof. unfold handleChatMessage, bind, ret. now repeat step. Qed.

Lemma handleCommandResponse_normal E message sender w :
  fst (handleCommandResponse E message sender w) = Normal.
Proof. unfold handleCommandResponse, bind, ret. now repeat step. Qed.

Lemma handleCommandMessage_normal E message sender w :
  fst (handleCommandMessage E message sender w) = Normal.
Proof.
  unfold handleCommandMessage, bind, ret.
  destruct (getComputerByName _ w) as [[target|] w0].
  - destruct (sendToClient E (id target) message w0) as [[|] w1];
      [reflexivity|].
    destruct (createMessage E _ w1) as [r w2].
    now destruct (sendToClient E sender r w2).
  - destruct (createMessage E _ w0) as [r w1].
    now destruct (sendToClient E sender r w1).
Qed.

Lemma handleAPIRegistration_completion E message sender w :
  (function_names (get_field "functions" message) = None ->
   handleAPIRegistration E message sender w = (Throw TypeError, w))
  /\ (function_names (get_field "functions" message) <> None ->
      fst (handleAPIRegistration E message sender w) = Normal).
Proof.
  unfold handleAPIRegistration. split; intro H.
  - now rewrite H.
  - destruct (function_names _); [|contradiction].
    unfold bind, ret.
    destruct (updateClient _ _ w) as [u w0].
    destruct (broadcastToType E dashboard message w0) as [n w1].
    destruct (createMessage E _ w1) as [r w2].
    now destruct (sendToClient E sender r w2).
Qed.

Lemma handleStatusUpdate_completion E message sender w :
  (nullish (get_field "status" message) ->
   handleStatusUpdate E message sender w = (Throw TypeError, w))
  /\ (~ nullish (get_field "status" message) ->
      fst (handleStatusUpdate E message sender w) = Normal).
Proof.
  unfold handleStatusUpdate. split; intro H.
  - apply (member_None _ "currentTask") in H. now rewrite H.
  - destruct (member _ "currentTask") eqn:Hm.
    + unfold bind, ret. now destruct (broadcastToType E dashboard message w).
    + apply member_None in Hm. contradiction.
Qed.

(** C3, as amended.  Every call of [routeMessage] ends, normally or by a
    [TypeError].  It raises exactly on a message that passes
    [validateMessageType] and is either an [api_registration] whose
    [functions] is not an array of entries other than [null] and
    [undefined], or a [status_update] whose [status] is [null] or
    [undefined]; it raises before it has touched the registry or sent
    anything. *)
Theorem routeMessage_raises_only_on_unreadable_payload E message sender w :
  (fst (routeMessage E message sender w) = Normal
   \/ routeMessage E message sender w = (Throw TypeError, w))
  /\ (fst (routeMessage E message sender w) = Throw TypeError
      <-> validateMessageType message = true
          /\ ((get_field "type" message = JStr "api_registration"
               /\ ~ (exists elems,
                        get_field "functions" message = JArr elems
                        /\ forall f, In f elems -> ~ nullish f))
              \/ (get_field "type" message = JStr "status_update"
                  /\ nullish (get_field "status" message)))).
Proof.
  destruct (validateMessageType message) eqn:Hvalid.
  2:{ unfold routeMessage. rewrite Hvalid. simpl. split; [now left|].
      split; [discriminate|]. intros [? _]. discriminate. }
  destruct (switch_type (get_field "type" message)) as [kind|] eqn:Hkind.
  2:{ apply switch_type_total_false in Hkind. congruence. }
  rewrite (routeMessage_dispatch E message sender w kind Hvalid Hkind).
  apply switch_type_inv in Hkind.
  destruct kind.
  - rewrite handleChatMessage_normal. split; [now left|].
    split; [discriminate|].
    intros [_ [[H _]|[H _]]]; rewrite Hkind in H; discriminate.
  - rewrite handleCommandMessage_normal. split; [now left|].
    split; [discriminate|].
    intros [_ [[H _]|[H _]]]; rewrite Hkind in H; discriminate.
  - destruct (handleAPIRegistration_completion E message sender w)
      as [Hthrow Hnormal].
    destruct (function_names (get_field "functions" message)) eqn:Hnames.
    + rewrite Hnormal by discriminate. split; [now left|].
      split; [discriminate|].
      intros [_ [[_ H]|[H _]]]; [|rewrite Hkind in H; discriminate].
      apply function_names_None in H. congruence.
    + rewrite (Hthrow eq_refl). simpl. split; [now right|].
      split; [|reflexivity]. intros _. split; [reflexivity|]. left.
      split; [assumption|]. now apply function_names_None.
  - destruct (handleStatusUpdate_completion E message sender w)
      as [Hthrow Hnormal].
    destruct (member (get_field "status" message) "currentTask") eqn:Hm.
    + assert (~ nullish (get_field "status" message)) as Hok.
      { intro Hn. apply (member_None _ "currentTask") in Hn. congruence. }
      rewrite (Hnormal Hok). split; [now left|].
      split; [discriminate|].
      intros [_ [[H _]|[_ H]]]; [rewrite Hkind in H; discriminate|].
      contradiction.
    + apply member_None in Hm. rewrite (Hthrow Hm). simpl.
      split; [now right|]. split; [|reflexivity]. intros _.
      split; [reflexivity|]. right. now split.
  - rewrite handleCommandResponse_normal. split; [now left|].
    split; [discriminate|].
    intros [_ [[H _]|[H _]]]; rewrite Hkind in H; discriminate.
Qed.

Lemma validate_depends_on_names message other :
  map fst other = map fst message ->
  get_field "type" other = get_field "type" message ->
  validateMessageType other = validateMessageType message.
Proof.
  intros Hnames Htype.
  assert (forall k, has_field k other = has_field k message) as Hhas.
  { intro k. rewrite !has_field_keys. now rewrite Hnames. }
  unfold validateMessageType. rewrite Htype.
  destruct (switch_type (get_field "type" message)) as [[]|];
    now rewrite ?Hhas.
Qed.

(** C4, as amended.  The one check [routeMessage] makes before it
    dispatches, [validateMessageType], looks at the [type] string and at the
    names of the fields, never at the type of a field's value: two messages
    with the same [type] and the same field names both pass or both fail,
    and a plain one that fails is dropped.  So a plain chat that carries
    [content] and [priority] is not rejected, of whatever types the two
    are: it goes to the dashboards with [content] replaced by its string
    conversion without ['<'] and ['>'], every other field as it came. *)
Theorem wrong_types_are_routed E message sender w :
  (forall other,
      map fst other = map fst message ->
      get_field "type" other = get_field "type" message ->
      validateMessageType other = validateMessageType message)
  /\ (plain_message message = true ->
      validateMessageType message = false ->
      routeMessage E message sender w = (Normal, w))
  /\ (plain_message message = true ->
      get_field "type" message = JStr "chat" ->
      has_field "content" message = true ->
      has_field "priority" message = true ->
      let sanitized := sanitizeMessage message in
      validateMessageType message = true
      /\ routeMessage E message sender w
         = (Normal, snd (broadcastToType E dashboard sanitized w))
      /\ get_field "content" sanitized
         = JStr (strip_angles (ToString (get_field "content" message)))
      /\ (forall k, k <> "content" ->
                    get_field k sanitized = get_field k message)).
Proof.
  split; [intros other; apply validate_depends_on_names|]. split.
  - intros _ Hinvalid. unfold routeMessage. now rewrite Hinvalid.
  - intros _ Htype Hcontent Hpriority sanitized.
    assert (validateMessageType message = true) as Hvalid.
    { unfold validateMessageType. rewrite Htype. simpl.
      now rewrite Hcontent, Hpriority. }
    assert (switch_type (get_field "type" message) = Some chat) as Hkind
      by now rewrite Htype.
    split; [exact Hvalid|]. split; [|split].
    + rewrite (routeMessage_dispatch E message sender w chat Hvalid Hkind).
      unfold handleChatMessage, bind, ret. fold sanitized.
      now destruct (broadcastToType E dashboard sanitized w).
    + subst sanitized. rewrite (sanitize_chat message Htype).
      apply get_set_same.
    + intros k Hk. subst sanitized. rewrite (sanitize_chat message Htype).
      now apply get_set_other.
Qed.

Lemma createMessage_spec E partialMessage w :
  clients (snd (createMessage E partialMessage w)) = clients w
  /\ sent (snd (createMessage E partialMessage w)) = sent w
  /\ forall k, k <> "id" -> k <> "timestamp" ->
               get_field k (fst (createMessage E partialMessage w))
               = get_field k partialMessage.
Proof.
  unfold createMessage, generateMessageId, bind, ret, Date_now, Math_random.
  destruct (truthy (get_field "id" partialMessage));
    destruct (truthy (get_field "timestamp" partialMessage)); simpl;
    repeat split; intros; now rewrite !get_set_other.
Qed.

Lemma accepts_same_registry_and_wire E w w' clientId message :
  clients w' = clients w -> sent w' = sent w ->
  accepts E w' clientId message = accepts E w clientId message.
Proof. unfold accepts. now intros -> ->. Qed.



Lemma ReadyState_eqb_eq a b : ReadyState_eqb a b = true <-> a = b.
Proof. destruct a, b; simpl; split; congruence. Qed.


Lemma map_get_set_same k c m : map_get k (map_set k c m) = Some c.
Proof.
  induction m as [|[k' c'] rest IH]; simpl.
  - now rewrite String.eqb_refl.
  - destruct (k =? k') eqn:Hk; simpl; rewrite Hk; [reflexivity|assumption].
Qed.


Lemma broadcastToType_clients E ty message w :
  clients (snd (broadcastToType E ty message w)) = clients w.
Proof. rewrite broadcastToType_attempts. simpl. apply attempts_clients. Qed.

Lemma handleAPIRegistration_registry E message sender w client :
  function_names (get_field "functions" message) <> None ->
  map_get sender (clients w) = Some client ->
  clients (snd (handleAPIRegistration E message sender w))
  = map_set sender
      (assign client
         {| u_id := None; u_ws := None; u_connectedAt := None;
            u_type := None; u_lastPing := None;
            u_computerName := Some (get_field "computerName" message);
            u_computerType := Some (get_field "computerType" message);
            u_registeredFunctions := Some (get_field "functions" message);
            u_userAgent := None |})
      (clients w).
Proof.
  intros Hnames Hget. unfold handleAPIRegistration.
  destruct (function_names _); [|contradiction].
  unfold bind at 1. unfold updateClient, bind at 1, gets. simpl.
  rewrite Hget. unfold set_clients at 1. unfold bind.
  match goal with
  | |- context [broadcastToType E dashboard message ?w0] =>
      pose proof (broadcastToType_clients E dashboard message w0) as Hb;
      destruct (broadcastToType E dashboard message w0) as [n w1]
  end.
  match goal with
  | |- context [createMessage E ?p w1] =>
      destruct (createMessage_spec E p w1) as (Hc & _ & _);
      destruct (createMessage E p w1) as [welcome w2]
  end.
  pose proof (sendToClient_clients E sender welcome w2) as Hs.
  destruct (sendToClient E sender welcome w2) as [ok w3].
  unfold ret. simpl in *. congruence.
Qed.


(** ** What routing does to the registry *)

Lemma handleCommandMessage_clients E message sender w :
  clients (snd (handleCommandMessage E message sender w)) = clients w.
Proof.
  unfold handleCommandMessage, bind, ret, getComputerByName, gets.
  cbv beta iota.
  destruct (find _ (values (clients w))) as [target|].
  - pose proof (sendToClient_clients E (id target) message w) as H1.
    destruct (sendToClient E (id target) message w) as [[|] w1];
      [exact H1|].
    destruct (createMessage_spec E (sendFailedResponse message) w1)
      as (H2 & _ & _).
    destruct (createMessage E (sendFailedResponse message) w1) as [r w2].
    pose proof (sendToClient_clients E sender r w2) as H3.
    destruct (sendToClient E sender r w2) as [ok w3]. simpl in *. congruence.
  - destruct (createMessage_spec E (notConnectedResponse message) w)
      as (H2 & _ & _).
    destruct (createMessage E (notConnectedResponse message) w) as [r w2].
    pose proof (sendToClient_clients E sender r w2) as H3.
    destruct (sendToClient E sender r w2) as [ok w3]. simpl in *. congruence.
Qed.

Lemma handleAPIRegistration_unregistered E message sender w :
  map_get sender (clients w) = None ->
  clients (snd (handleAPIRegistration E message sender w)) = clients w.
Proof.
  intro Hget. unfold handleAPIRegistration.
  destruct (function_names _); [|reflexivity].
  unfold bind at 1. unfold updateClient, bind at 1, gets. simpl.
  rewrite Hget. unfold ret at 1. unfold bind.
  pose proof (broadcastToType_clients E dashboard message w) as Hb.
  destruct (broadcastToType E dashboard message w) as [n w1].
  match goal with
  | |- context [createMessage E ?p w1] =>
      destruct (createMessage_spec E p w1) as (Hc & _ & _);
      destruct (createMessage E p w1) as [welcome w2]
  end.
  pose proof (sendToClient_clients E sender welcome w2) as Hs.
  destruct (sendToClient E sender welcome w2) as [ok w3].
  unfold ret. simpl in *. congruence.
Qed.

(** The only write [routeMessage] makes to the registry is that of a
    registration, on the sender's own record, and it is not a write of the
    role. *)
Lemma routeMessage_registry E message sender w :
  clients (snd (routeMessage E message sender w)) = clients w
  \/ exists client updates,
      map_get sender (clients w) = Some client
      /\ (u_type updates = None /\ u_id updates = None)
      /\ clients (snd (routeMessage E message sender w))
         = map_set sender (assign client updates) (clients w).
Proof.
  destruct (validateMessageType message) eqn:Hvalid.
  2:{ left. unfold routeMessage. now rewrite Hvalid. }
  destruct (switch_type (get_field "type" message)) as [kind|] eqn:Hkind.
  2:{ apply switch_type_total_false in Hkind. congruence. }
  rewrite (routeMessage_dispatch E message sender w kind Hvalid Hkind).
  destruct kind.
  - left. unfold handleChatMessage, bind, ret.
    pose proof (broadcastToType_clients E dashboard (sanitizeMessage message) w).
    now destruct (broadcastToType E dashboard (sanitizeMessage message) w).
  - left. apply handleCommandMessage_clients.
  - destruct (map_get sender (clients w)) as [client|] eqn:Hget.
    + destruct (function_names (get_field "functions" message)) eqn:Hnames.
      * right. eexists client, _. split; [reflexivity|]. split; [|
          apply handleAPIRegistration_registry; [congruence|assumption]].
        split; reflexivity.
      * left. destruct (handleAPIRegistration_completion E message sender w)
          as [Hthrow _]. now rewrite (Hthrow Hnames).
    + left. now apply handleAPIRegistration_unregistered.
  - left. unfold handleStatusUpdate.
    destruct (member _ "currentTask"); [|reflexivity].
    unfold bind, ret.
    pose proof (broadcastToType_clients E dashboard message w).
    now destruct (broadcastToType E dashboard message w).
  - left. unfold handleCommandResponse, bind, ret.
    pose proof (broadcastToType_clients E dashboard message w).
    now destruct (broadcastToType E dashboard message w).
Qed.


Lemma map_get_set_other k x c m :
  k <> x -> map_get k (map_set x c m) = map_get k m.
Proof.
  intro Hne. induction m as [|[k' c'] rest IH]; simpl.
  - apply String.eqb_neq in Hne. now rewrite Hne.
  - destruct (String.eqb_spec x k') as [->|Hx]; simpl.
    + apply String.eqb_neq in Hne. now rewrite Hne.
    + now rewrite IH.
Qed.

(** No connection changes role while a message is routed. *)
Lemma routeMessage_keeps_roles E message sender w k c :
  map_get k (clients w) = Some c ->
  exists c', map_get k (clients (snd (routeMessage E message sender w))) = Some c'
             /\ type c' = type c.
Proof.
  intro Hk.
  destruct (routeMessage_registry E message sender w)
    as [->|(client & updates & Hget & [Hrole _] & ->)].
  - now exists c.
  - destruct (String.eqb_spec k sender) as [->|Hne].
    + rewrite map_get_set_same. eexists. split; [reflexivity|].
      simpl. rewrite Hrole. simpl. congruence.
    + rewrite (map_get_set_other _ _ _ _ Hne). now exists c.
Qed.

(** ** The registry stays well formed *)

Lemma forEach_removeClient_wf dead :
  forall w, registry_wf w = true ->
            registry_wf (snd (forEach removeClient dead w)) = true.
Proof.
  induction dead as [|x rest IH]; intros w Hwf; [exact Hwf|].
  change (forEach removeClient (x :: rest) w)
    with (bind (removeClient x) (fun _ => forEach removeClient rest) w).
  unfold bind. pose proof (removeClient_wf x w Hwf) as Hstep.
  destruct (removeClient x w) as [[] w1]. now apply IH.
Qed.

Lemma deadClients_clients E entries :
  forall w, clients (snd (deadClients E entries w)) = clients w.
Proof.
  induction entries as [|[k c] rest IH]; intro w; [reflexivity|].
  cbn [deadClients]. unfold bind.
  destruct (isClientAlive_spec E k w) as (Hcs & _ & _).
  destruct (isClientAlive E k w) as [alive w1].
  specialize (IH w1). destruct (deadClients E rest w1) as [dead w2].
  unfold ret. simpl in *. congruence.
Qed.

Lemma cleanup_wf E w :
  registry_wf w = true -> registry_wf (snd (cleanup E w)) = true.
Proof.
  intro Hwf. unfold cleanup, bind, gets. cbv beta iota.
  pose proof (deadClients_clients E (clients w) w) as Hcs.
  destruct (deadClients E (clients w) w) as [dead w1]. simpl in Hcs.
  apply forEach_removeClient_wf. now rewrite (registry_wf_clients _ _ Hcs).
Qed.




(** ** The theorems at concrete worlds *)

Import Examples.

Lemma incomplete_message_is_dropped_witness :
  has_field "priority" chat_no_priority = false
  /\ routeMessage quiet chat_no_priority "v1" one_viewer = (Normal, one_viewer).
Proof.
  split; [reflexivity|].
  apply (incomplete_message_is_dropped quiet chat_no_priority "v1" one_viewer).
  right; right. exists chat, "priority".
  split; [reflexivity|]. split; [simpl; auto|reflexivity].
Defined.


Lemma wrong_types_are_routed_witness :
  get_field "content" chat_number = JNum 5
  /\ plain_message chat_number = true
  /\ validateMessageType chat_hi = validateMessageType chat_number
  /\ routeMessage quiet chat_number "v1" one_viewer
     = (Normal,
        snd (broadcastToType quiet dashboard (sanitizeMessage chat_number)
               one_viewer))
  /\ get_field "content" (sanitizeMessage chat_number) = JStr "5".
Proof.
  destruct (wrong_types_are_routed quiet chat_number "v1" one_viewer)
    as (Hnames & _ & Hchat).
  destruct (Hchat eq_refl eq_refl eq_refl eq_refl)
    as (_ & Hroute & Hcontent & _).
  split; [reflexivity|]. split; [reflexivity|].
  split; [apply Hnames; reflexivity|]. split; [exact Hroute|exact Hcontent].
Defined.



Lemma sanitize_strips_angles_only_witness :
  get_field "content" chat_hi = JStr "<b>hi</b>"
  /\ get_field "content" (sanitizeMessage chat_hi) = JStr "bhi/b".
Proof.
  destruct (sanitize_strips_angles_only chat_hi eq_refl) as [Hchat _].
  destruct (Hchat "<b>hi</b>" eq_refl eq_refl) as [Hcontent _].
  split; [reflexivity|exact Hcontent].
Defined.

Lemma three_missed_beats_witness :
  readyState (ws stale_open) = OPEN
  /\ fst (isClientAlive quiet "old" with_stale) = false
  /\ ~ In stale_open (fst (aliveClientList quiet with_stale))
  /\ map_get "old" (clients (snd (cleanup quiet with_stale))) = None
  /\ map_get "old" (clients (snd (pingIntervalTick quiet with_stale))) = None.
Proof.
  destruct (three_missed_beats quiet with_stale "old" stale_open eq_refl)
    as (_ & _ & Hstale).
  destruct (Hstale eq_refl) as (Hnot & _ & _ & Hcleanup & Htick).
  - intros k _. simpl. unfold PING_INTERVAL. lia.
  - split; [reflexivity|]. split; [reflexivity|].
    split; [exact Hnot|]. split; [exact Hcleanup|exact Htick].
Defined.

(** ** Where the code departs from the stated claims *)

(** C1 as stated fails: a chat without [id] passes [routeMessage]'s only
    check and reaches the dashboard. *)
Lemma missing_id_is_still_delivered :
  has_field "id" chat_no_id = false
  /\ sent one_viewer = []
  /\ sent (snd (routeMessage quiet chat_no_id "v1" one_viewer))
     = [{| frame_to := "v1"; frame_data := chat_no_id |}].
Proof. repeat split. Qed.

(** Likewise a registration without [status], a field the data model's table
    requires: the registry is updated and frames go out. *)
Example registration_without_status_is_routed :
  has_field "status" registration_no_status = false
  /\ map frame_to
       (sent (snd (routeMessage quiet registration_no_status "t1"
                     viewer_and_promoted)))
     = ["v1"; "t1"]
  /\ fst (getComputerByName (JStr "Turtle1")
            (snd (routeMessage quiet registration_no_status "t1"
                    viewer_and_promoted)))
     <> None.
Proof. repeat split. vm_compute. discriminate. Qed.


(** The [message] callback of [index.ts] promotes before it routes: through
    it the same registration does make the connection findable. *)
Example onMessage_promotes_then_routes :
  option_map id
    (fst (getComputerByName (JStr "Turtle1")
            (snd (Server.onMessage quiet "v1" (Some (JObj registration))
                    one_viewer))))
  = Some "v1".
Proof. reflexivity. Qed.

(** C3 as stated fails: a registration whose [functions] is a number passes
    validation and makes the handler raise. *)
Lemma numeric_functions_raise :
  validateMessageType registration_bad_functions = true
  /\ get_field "functions" registration_bad_functions = JNum 5
  /\ fst (routeMessage quiet registration_bad_functions "v1" one_viewer)
     = Throw TypeError.
Proof. repeat split. Qed.

(** C4 as stated fails: a chat whose [content] is the number 5 is neither
    rejected nor left alone; the dashboard receives it with [content] "5". *)
Lemma numeric_content_is_coerced_and_delivered :
  get_field "content" chat_number = JNum 5
  /\ sent (snd (routeMessage quiet chat_number "v1" one_viewer))
     = [{| frame_to := "v1";
           frame_data := set_field "content" (JStr "5") chat_number |}].
Proof. repeat split. Qed.


(** C7 as stated fails: an accepted chat whose [content] is the number 5,
    which has no angle bracket to lose, comes back with the string "5". *)
Lemma sanitize_changes_numeric_content :
  validateMessageType chat_number = true
  /\ get_field "content" chat_number = JNum 5
  /\ get_field "content" (sanitizeMessage chat_number) = JStr "5"
  /\ sanitizeMessage chat_number <> chat_number.
Proof. repeat split. discriminate. Qed.

(** A write that raises in the middle of a broadcast costs that connection
    its frame and nobody else theirs. *)
Example broadcast_survives_a_failed_write :
  fst (broadcastToType flaky dashboard chat_hi three_viewers) = 2
  /\ map frame_to (sent (snd (broadcastToType flaky dashboard chat_hi
                                three_viewers)))
     = ["v1"; "v3"]
  /\ clients (snd (broadcastToType flaky dashboard chat_hi three_viewers))
     = clients three_viewers.
Proof. repeat split. Qed.

(** * Further properties of the code *)

(** ** Registry operations *)

Lemma map_get_delete_other k x m :
  k <> x -> map_get k (map_delete x m) = map_get k m.
Proof.
  intro Hne. induction m as [|[k' c'] rest IH]; simpl; [reflexivity|].
  destruct (String.eqb_spec x k') as [->|Hx]; simpl.
  - apply String.eqb_neq in Hne. now rewrite Hne.
  - now rewrite IH.
Qed.

Lemma map_delete_length k m c :
  map_get k m = Some c -> S (List.length (map_delete k m)) = List.length m.
Proof.
  induction m as [|[k' c'] rest IH]; simpl; [discriminate|].
  destruct (k =? k'); simpl; [reflexivity|]. intro H. now rewrite IH.
Qed.

Lemma map_set_length k c m :
  List.length (map_set k c m)
  = match map_get k m with
    | Some _ => List.length m
    | None => S (List.length m)
    end.
Proof.
  induction m as [|[k' c'] rest IH]; simpl; [reflexivity|].
  destruct (k =? k'); simpl; [reflexivity|]. rewrite IH.
  now destruct (map_get k rest).
Qed.

Lemma map_set_same_keys k c m c0 :
  map_get k m = Some c0 -> map fst (map_set k c m) = map fst m.
Proof.
  induction m as [|[k' c'] rest IH]; simpl; [discriminate|].
  destruct (k =? k'); simpl; [reflexivity|]. intro H. now rewrite IH.
Qed.

(** X1.  Unregistering is idempotent on a well-formed registry: after
    [removeClient] the id is absent and a second call changes nothing; on an
    id that was never registered the call leaves the world as it is; on a
    registered one the registry loses exactly one record, and no other
    record is touched. *)
Theorem removeClient_idempotent clientId w :
  registry_wf w = true ->
  let after := snd (removeClient clientId w) in
  map_get clientId (clients after) = None
  /\ removeClient clientId after = (tt, after)
  /\ (map_get clientId (clients w) = None -> removeClient clientId w = (tt, w))
  /\ (map_get clientId (clients w) <> None ->
      S (List.length (clients after)) = List.length (clients w))
  /\ (forall k, k <> clientId ->
                map_get k (clients after) = map_get k (clients w)).
Proof.
  intros Hwf after.
  assert (map_get clientId (clients after) = None) as Hgone.
  { subst after. destruct (removeClient_spec clientId w) as [->|[Hnone ->]];
      [|assumption].
    apply map_get_None, map_delete_same. now apply registry_wf_NoDup. }
  split; [exact Hgone|]. split; [|split; [|split]].
  - unfold removeClient at 1, bind, gets. cbv beta iota. now rewrite Hgone.
  - intro Hnone. unfold removeClient, bind, gets. cbv beta iota.
    now rewrite Hnone.
  - intro Hsome. subst after. unfold removeClient, bind, gets, set_clients.
    cbv beta iota. destruct (map_get clientId (clients w)) as [c|] eqn:Hget;
      [|contradiction].
    simpl. now apply (map_delete_length clientId (clients w) c).
  - intros k Hk. subst after.
    destruct (removeClient_spec clientId w) as [->|[_ ->]]; [|reflexivity].
    now apply map_get_delete_other.
Qed.

Lemma prefix_append p s : String.prefix p (p ++ s) = true.
Proof.
  induction p as [|a p IH]; simpl; [now destruct s|].
  destruct (ascii_dec a a); [exact IH|contradiction].
Qed.

(** X2.  [addClient] returns an id that starts with "client_" and under
    which [getClient] then finds the record it built: the new id, the socket
    and the role it was given, [connectedAt] and [lastPing] the two clock
    readings taken for them, each of the five replaced by the field of the
    same name when the metadata carries one.  Every other id resolves as
    before.  The registry grows by one when the id is new; an id that
    collides with a registered one silently replaces that record.  The
    metadata's [computerName], which the log line converts to a string once
    the record is stored, is taken to be plain. *)
Theorem addClient_then_getClient E socket ty metadata w :
  plain (or_else (u_computerName metadata) JUndefined) = true ->
  let after := snd (addClient E socket ty metadata w) in
  let clientId := fst (addClient E socket ty metadata w) in
  String.prefix "client_" clientId = true
  /\ (exists client,
        fst (getClient clientId after) = Some client
        /\ id client = or_else (u_id metadata) clientId
        /\ ws client = or_else (u_ws metadata) socket
        /\ type client = or_else (u_type metadata) ty
        /\ connectedAt client
           = or_else (u_connectedAt metadata)
               (Date_now_at E (S (clock_reads w)))
        /\ lastPing client
           = or_else (u_lastPing metadata)
               (Some (Date_now_at E (S (S (clock_reads w))))))
  /\ (forall k, k <> clientId ->
                map_get k (clients after) = map_get k (clients w))
  /\ List.length (clients after)
     = match map_get clientId (clients w) with
       | Some _ => List.length (clients w)
       | None => S (List.length (clients w))
       end.
Proof.
  intros _.
  unfold addClient, generateClientId, bind, gets, set_clients, ret,
    Date_now, Math_random, getClient. cbv beta iota zeta. cbn [fst snd clients
    clock_reads random_draws].
  split; [apply prefix_append|]. split; [|split].
  - eexists. unfold gets. cbn [fst snd clients].
    rewrite map_get_set_same. split; [reflexivity|].
    cbn [id ws type connectedAt lastPing assign]. auto 10.
  - intros k Hk. now apply map_get_set_other.
  - apply map_set_length.
Qed.

(** X3.  [updateClient] on an id that is not registered does nothing.  On
    a registered one the record becomes the old one with the given fields
    written over it, in the same place of the iteration order; no key is
    added or removed and no other record changes. *)
Theorem updateClient_merges clientId updates w :
  let after := snd (updateClient clientId updates w) in
  (map_get clientId (clients w) = None ->
   updateClient clientId updates w = (tt, w))
  /\ (forall client,
        map_get clientId (clients w) = Some client ->
        map_get clientId (clients after) = Some (assign client updates))
  /\ map fst (clients after) = map fst (clients w)
  /\ (forall k, k <> clientId ->
                map_get k (clients after) = map_get k (clients w)).
Proof.
  unfold updateClient, bind, gets, set_clients, ret. cbv beta iota zeta.
  destruct (map_get clientId (clients w)) as [c|] eqn:Hget; cbn [snd clients].
  - split; [discriminate|]. split; [|split].
    + intros client H. injection H as <-. apply map_get_set_same.
    + now apply (map_set_same_keys clientId _ (clients w) c).
    + intros k Hk. now apply map_get_set_other.
  - split; [reflexivity|]. split; [discriminate|]. split; reflexivity.
Qed.

Lemma filterM_alive_frame E l :
  forall w,
    clients (snd (filterM (fun c => isClientAlive E (id c)) l w)) = clients w
    /\ sent (snd (filterM (fun c => isClientAlive E (id c)) l w)) = sent w
    /\ List.length (fst (filterM (fun c => isClientAlive E (id c)) l w))
       <= List.length l.
Proof.
  induction l as [|x rest IH]; intro w; [simpl; auto|].
  cbn [filterM]. unfold bind.
  assert (clients (snd (isClientAlive E (id x) w)) = clients w
          /\ sent (snd (isClientAlive E (id x) w)) = sent w) as [Hc Hs].
  { unfold isClientAlive, bind, gets, ret, Date_now. cbv beta iota.
    now destruct (map_get (id x) (clients w)). }
  destruct (isClientAlive E (id x) w) as [keep w1].
  destruct (IH w1) as (IHc & IHs & IHl).
  destruct (filterM _ rest w1) as [kept w2]. unfold ret.
  cbn [fst snd] in *. repeat split; try congruence.
  destruct keep; simpl; lia.
Qed.

Lemma filter_by_role_partition (cs : list ConnectedClient) :
  List.length (filter (fun c => ClientType_eqb (type c) dashboard) cs)
  + List.length (filter (fun c => ClientType_eqb (type c) computercraft) cs)
  = List.length cs.
Proof.
  induction cs as [|c rest IH]; simpl; [reflexivity|].
  destruct (type c); simpl; lia.
Qed.

(** X4.  The four numbers of [getStats] are consistent: the total is the
    size of the registry, dashboards and computers add up to it, and the
    alive count never exceeds it.  Taking the statistics changes neither the
    registry nor the wire. *)
Theorem getStats_adds_up E w :
  let stats := fst (getStats E w) in
  totalClients stats = List.length (clients w)
  /\ dashboards stats + computers stats = totalClients stats
  /\ aliveClients stats <= totalClients stats
  /\ clients (snd (getStats E w)) = clients w
  /\ sent (snd (getStats E w)) = sent w.
Proof.
  unfold getStats, aliveClientList, getClientsByType.
  unfold bind, gets, ret. cbv beta iota zeta.
  destruct (filterM_alive_frame E (values (clients w)) w) as (Hc & Hs & Hl).
  destruct (filterM _ (values (clients w)) w) as [alive w1].
  cbn [fst snd totalClients dashboards computers aliveClients] in *.
  rewrite Hc. unfold values in *. rewrite length_map in Hl.
  split; [reflexivity|].
  split; [rewrite filter_by_role_partition; apply length_map|].
  split; [exact Hl|]. split; [reflexivity|exact Hs].
Qed.

(** ** Broadcasts *)

Lemma registry_wf_values w c :
  registry_wf w = true -> In c (values (clients w)) ->
  map_get (id c) (clients w) = Some c.
Proof.
  intros Hwf Hin. unfold values in Hin.
  apply in_map_iff in Hin as ([k c'] & Hc & Hin). simpl in Hc. subst c'.
  rewrite (registry_wf_entries w k c Hwf Hin).
  apply In_map_get; [now apply registry_wf_NoDup|assumption].
Qed.

Lemma registry_wf_ids_NoDup w :
  registry_wf w = true -> NoDup (map id (values (clients w))).
Proof.
  intro Hwf. pose proof (registry_wf_NoDup w Hwf) as Hnd.
  assert (map id (values (clients w)) = map fst (clients w)) as ->;
    [|assumption].
  unfold values. rewrite map_map. apply map_ext_in.
  intros [k c] Hin. simpl. now apply (registry_wf_entries w).
Qed.

Lemma NoDup_map_filter {A B} (f : A -> B) (p : A -> bool) l :
  NoDup (map f l) -> NoDup (map f (filter p l)).
Proof.
  induction l as [|x rest IH]; simpl; intro H; [constructor|].
  inversion H as [|? ? Hnotin Hrest]; subst.
  destruct (p x); simpl; [|now apply IH].
  constructor; [|now apply IH].
  intro Hin. apply Hnotin. apply in_map_iff in Hin as (y & Hy & Hin).
  apply filter_In in Hin as [Hin _]. apply in_map_iff. now exists y.
Qed.

Lemma frames_of_targets message cs :
  forall oks f, In f (frames_of message cs oks) ->
                frame_data f = message /\ In (frame_to f) (map id cs).
Proof.
  induction cs as [|c rest IH]; intros [|ok oks] f Hin; simpl in *;
    try contradiction.
  apply in_app_or in Hin as [Hin|Hin].
  - destruct ok; [|contradiction]. destruct Hin as [<-|[]]. simpl. auto.
  - destruct (IH oks f Hin) as [Hd Ht]. auto.
Qed.

Lemma frames_of_NoDup message cs :
  forall oks, NoDup (map id cs) ->
              NoDup (map frame_to (frames_of message cs oks)).
Proof.
  induction cs as [|c rest IH]; intros [|ok oks] Hnd; simpl;
    try constructor.
  inversion Hnd as [|? ? Hnotin Hrest]; subst.
  rewrite map_app. destruct ok; simpl; [|now apply IH].
  constructor; [|now apply IH].
  intro Hin. apply in_map_iff in Hin as (f & Hf & Hin).
  apply frames_of_targets in Hin as [_ Hin]. now rewrite Hf in Hin.
Qed.

(** A frame of a round of attempts went to an open transport of the
    registry. *)
Lemma attempts_frames_open E message w cs :
  forall w0,
    clients w0 = clients w ->
    forall f, In f (frames_of message cs (fst (attempts E message cs w0))) ->
              exists client,
                map_get (frame_to f) (clients w) = Some client
                /\ readyState (ws client) = OPEN.
Proof.
  induction cs as [|c rest IH]; intros w0 Hcs f Hin; [contradiction|].
  cbn [attempts] in Hin. unfold bind in Hin.
  rewrite sendToClient_spec in Hin.
  match type of Hin with
  | context [attempts E message rest ?w1] =>
      specialize (IH w1); destruct (attempts E message rest w1) as [oks w2]
  end.
  unfold ret in Hin. cbn [fst frames_of] in Hin, IH.
  apply in_app_or in Hin as [Hin|Hin].
  - destruct (accepts E w0 (id c) message) eqn:Hacc; [|contradiction].
    destruct Hin as [<-|[]]. cbn [frame_to]. unfold accepts in Hacc.
    rewrite Hcs in Hacc.
    destruct (map_get (id c) (clients w)) as [client|]; [|discriminate].
    exists client. split; [reflexivity|].
    apply andb_prop in Hacc as [Hopen _]. now apply ReadyState_eqb_eq.
  - apply IH; [|assumption]. now rewrite <- Hcs.
Qed.

(** X5.  A broadcast never strays from its role: on a well-formed registry
    the world after [broadcastToType] is the initial one plus some frames,
    as many as the count returned, each carrying the message as given and
    each addressed to a registered connection of the role whose transport
    is open; no connection gets two. *)
Theorem broadcast_reaches_only_role E ty message w :
  registry_wf w = true ->
  exists frames,
    snd (broadcastToType E ty message w) = deliver w frames
    /\ List.length frames = fst (broadcastToType E ty message w)
    /\ NoDup (map frame_to frames)
    /\ forall f, In f frames ->
                 frame_data f = message
                 /\ exists client,
                     map_get (frame_to f) (clients w) = Some client
                     /\ type client = ty
                     /\ readyState (ws client) = OPEN.
Proof.
  intro Hwf. rewrite broadcastToType_attempts. cbn [fst snd].
  set (role := fst (getClientsByType ty w)).
  exists (frames_of message role (fst (attempts E message role w))).
  split; [apply attempts_frames|].
  split; [apply frames_of_length, attempts_length|].
  split.
  - apply frames_of_NoDup. subst role. unfold getClientsByType, gets.
    cbn [fst]. apply NoDup_map_filter. now apply registry_wf_ids_NoDup.
  - intros f Hin.
    destruct (frames_of_targets message role _ f Hin) as [Hdata Hto].
    split; [assumption|].
    destruct (attempts_frames_open E message w role w eq_refl f Hin)
      as (client & Hget & Hopen).
    exists client. split; [assumption|]. split; [|assumption].
    apply in_map_iff in Hto as (c & Hid & Hc).
    subst role. unfold getClientsByType, gets in Hc. cbn [fst] in Hc.
    apply filter_In in Hc as [Hc Hty].
    pose proof (registry_wf_values w c Hwf Hc) as Hgetc.
    rewrite <- Hid in Hget. rewrite Hgetc in Hget. injection Hget as <-.
    now destruct (type c), ty.
Qed.

Lemma attempts_when_writes_succeed E message w :
  (forall history client data, ws_send_throws E history client data = false) ->
  forall cs w0,
    clients w0 = clients w ->
    (forall c, In c cs -> map_get (id c) (clients w) = Some c) ->
    attempts E message cs w0
    = (map (fun c => ReadyState_eqb (readyState (ws c)) OPEN) cs,
       deliver w0
         (map (fun c => {| frame_to := id c; frame_data := message |})
            (filter (fun c => ReadyState_eqb (readyState (ws c)) OPEN) cs))).
Proof.
  intros Hquiet. induction cs as [|c rest IH]; intros w0 Hcs Hreg.
  - simpl. unfold ret. now rewrite deliver_nil.
  - cbn [attempts]. unfold bind. rewrite sendToClient_spec.
    assert (accepts E w0 (id c) message
            = ReadyState_eqb (readyState (ws c)) OPEN) as Hacc.
    { unfold accepts. rewrite Hcs, (Hreg c (or_introl eq_refl)), Hquiet.
      apply andb_true_r. }
    rewrite Hacc, IH; [|assumption|intros c' Hin; apply Hreg; now right].
    unfold ret. cbn [map filter].
    destruct (ReadyState_eqb (readyState (ws c)) OPEN); cbn [map];
      now rewrite deliver_app.
Qed.

Lemma count_ok_map {A} (p : A -> bool) l :
  count_ok (map p l) = List.length (filter p l).
Proof.
  unfold count_ok. induction l as [|x rest IH]; simpl; [reflexivity|].
  destruct (p x); simpl; now rewrite IH.
Qed.

(** X6.  When no transport write raises, a broadcast on a well-formed
    registry reaches exactly the connections of the role whose transport is
    open, once each and in registration order, and returns their number. *)
Theorem broadcast_reaches_every_open_connection E ty message w :
  (forall history client data, ws_send_throws E history client data = false) ->
  registry_wf w = true ->
  let open :=
    filter (fun c => ReadyState_eqb (readyState (ws c)) OPEN)
           (fst (getClientsByType ty w)) in
  broadcastToType E ty message w
  = (List.length open,
     deliver w (map (fun c => {| frame_to := id c; frame_data := message |})
                    open)).
Proof.
  intros Hquiet Hwf open. rewrite broadcastToType_attempts.
  rewrite (attempts_when_writes_succeed E message w Hquiet _ w eq_refl).
  - cbn [fst snd]. now rewrite count_ok_map.
  - intros c Hc. unfold getClientsByType, gets in Hc. cbn [fst] in Hc.
    apply filter_In in Hc as [Hc _]. now apply registry_wf_values.
Qed.

Lemma count_ok_le oks : count_ok oks <= List.length oks.
Proof.
  unfold count_ok. induction oks as [|[|] rest IH]; simpl; lia.
Qed.

(** X7.  [broadcastToAll] returns the dashboards' count plus the
    computers' count, which is the number of frames it put on the wire and
    at most the size of the registry; it leaves the registry as it was. *)
Theorem broadcastToAll_counts_frames E message w :
  exists frames,
    snd (broadcastToAll E message w) = deliver w frames
    /\ fst (broadcastToAll E message w) = List.length frames
    /\ fst (broadcastToAll E message w) <= List.length (clients w)
    /\ (forall f, In f frames -> frame_data f = message).
Proof.
  unfold broadcastToAll, bind, ret.
  rewrite (broadcastToType_attempts E dashboard message w).
  set (ds := fst (getClientsByType dashboard w)).
  pose proof (attempts_frames E message ds w) as Hw1.
  pose proof (attempts_length E message ds w) as Hl1.
  destruct (attempts E message ds w) as [oks1 w1]. cbn [fst snd] in *.
  rewrite (broadcastToType_attempts E computercraft message w1).
  set (cc := fst (getClientsByType computercraft w1)).
  pose proof (attempts_frames E message cc w1) as Hw2.
  pose proof (attempts_length E message cc w1) as Hl2.
  destruct (attempts E message cc w1) as [oks2 w2]. cbn [fst snd] in *.
  exists (frames_of message ds oks1 ++ frames_of message cc oks2)%list.
  split; [now rewrite Hw2, Hw1, deliver_app|].
  split; [now rewrite length_app, !frames_of_length|].
  split.
  - pose proof (count_ok_le oks1). pose proof (count_ok_le oks2).
    pose proof (filter_by_role_partition (values (clients w))) as Hpart.
    unfold values in Hpart. rewrite length_map in Hpart.
    assert (List.length ds + List.length cc = List.length (clients w)).
    { subst ds cc. unfold getClientsByType, gets. cbn [fst].
      rewrite Hw1. cbn [clients deliver]. exact Hpart. }
    lia.
  - intros f Hin. apply in_app_or in Hin as [Hin|Hin];
      now apply frames_of_targets in Hin.
Qed.

(** ** The heartbeat *)

Lemma isClientAlive_frame E clientId w :
  clients (snd (isClientAlive E clientId w)) = clients w
  /\ sent (snd (isClientAlive E clientId w)) = sent w
  /\ clock_reads w <= clock_reads (snd (isClientAlive E clientId w)).
Proof.
  unfold isClientAlive, bind, gets, ret, Date_now. cbv beta iota.
  destruct (map_get clientId (clients w)); simpl; auto.
Qed.

(** What the first loop of [cleanup] lists, and only that. *)
Lemma deadClients_spec E w entries :
  forall w0,
    clients w0 = clients w -> clock_reads w <= clock_reads w0 ->
    clients (snd (deadClients E entries w0)) = clients w
    /\ sent (snd (deadClients E entries w0)) = sent w0
    /\ clock_reads w <= clock_reads (snd (deadClients E entries w0))
    /\ (forall k c, In (k, c) entries ->
                    ReadyState_eqb (readyState (ws c)) OPEN = false ->
                    In k (fst (deadClients E entries w0)))
    /\ (forall k, In k (fst (deadClients E entries w0)) ->
                  exists c j,
                    In (k, c) entries /\ clock_reads w <= j
                    /\ (ReadyState_eqb (readyState (ws c)) OPEN = false
                        \/ match map_get k (clients w) with
                           | Some c' =>
                               (Date_now_at E j - last_seen c'
                                <? PING_INTERVAL * 3)%Z
                           | None => false
                           end = false)).
Proof.
  induction entries as [|[k c] rest IH]; intros w0 Hcs Hclock.
  - simpl. repeat split; auto; intros; contradiction.
  - cbn [deadClients]. unfold bind.
    destruct (isClientAlive_frame E k w0) as (Hc1 & Hs1 & Hk1).
    destruct (isClientAlive_spec E k w0) as (_ & _ & Halive).
    destruct (isClientAlive E k w0) as [alive w1]. cbn [fst snd] in *.
    assert (clients w1 = clients w) as Hcs1 by congruence.
    assert (clock_reads w <= clock_reads w1) as Hclock1 by lia.
    destruct (IH w1 Hcs1 Hclock1) as (IHc & IHs & IHk & IHclosed & IHsound).
    destruct (deadClients E rest w1) as [dead w2]. unfold ret.
    cbn [fst snd] in *.
    split; [assumption|]. split; [congruence|]. split; [assumption|]. split.
    + intros k' c' [Heq|Hin] Hclosed.
      * injection Heq as <- <-. rewrite Hclosed, orb_true_r. now left.
      * destruct (negb alive || _); [right|]; now apply (IHclosed k' c').
    + intros k' Hin.
      destruct (negb alive || negb (ReadyState_eqb (readyState (ws c)) OPEN))
        eqn:Hdead.
      * destruct Hin as [<-|Hin].
        -- exists c, (clock_reads w0). split; [now left|]. split; [lia|].
           apply orb_prop in Hdead as [Hd|Hd]; apply negb_true_iff in Hd.
           ++ right. rewrite Hcs in Halive. congruence.
           ++ now left.
        -- destruct (IHsound k' Hin) as (c' & j & Hin' & Hj & H).
           exists c', j. split; [now right|]. now split.
      * destruct (IHsound k' Hin) as (c' & j & Hin' & Hj & H).
        exists c', j. split; [now right|]. now split.
Qed.

Lemma forEach_removeClient_spec dead :
  forall w,
    NoDup (map fst (clients w)) ->
    sent (snd (forEach removeClient dead w)) = sent w
    /\ clock_reads (snd (forEach removeClient dead w)) = clock_reads w
    /\ (forall k c,
          map_get k (clients (snd (forEach removeClient dead w))) = Some c ->
          map_get k (clients w) = Some c)
    /\ (forall k, ~ In k dead ->
                  map_get k (clients (snd (forEach removeClient dead w)))
                  = map_get k (clients w)).
Proof.
  induction dead as [|x rest IH]; intros w Hnd; [simpl; auto|].
  change (forEach removeClient (x :: rest) w)
    with (bind (removeClient x) (fun _ => forEach removeClient rest) w).
  unfold bind.
  assert (sent (snd (removeClient x w)) = sent w
          /\ clock_reads (snd (removeClient x w)) = clock_reads w) as [Hs Hk].
  { unfold removeClient, bind, gets, set_clients, ret. cbv beta iota.
    now destruct (map_get x (clients w)). }
  pose proof (removeClient_spec x w) as Hrm.
  destruct (removeClient x w) as [[] w1]. cbn [snd] in *.
  assert (NoDup (map fst (clients w1))) as Hnd1.
  { destruct Hrm as [->|[_ ->]]; [now apply map_delete_NoDup|assumption]. }
  assert (forall k c, map_get k (clients w1) = Some c ->
                      map_get k (clients w) = Some c) as Hsub.
  { intros k c Hget. destruct Hrm as [Hrm|[_ Hrm]]; rewrite Hrm in Hget;
      [|assumption].
    destruct (String.eqb_spec k x) as [->|Hne].
    - pose proof (map_delete_same x (clients w) Hnd) as Hnot.
      apply map_get_None in Hnot. congruence.
    - now rewrite (map_get_delete_other _ _ _ Hne) in Hget. }
  destruct (IH w1 Hnd1) as (IHs & IHk & IHsub & IHkeep).
  split; [congruence|]. split; [congruence|]. split.
  - intros k c Hget. apply Hsub. now apply IHsub.
  - intros k Hnot. rewrite IHkeep; [|intro; apply Hnot; now right].
    destruct Hrm as [->|[_ ->]]; [|reflexivity].
    apply map_get_delete_other. intros ->. apply Hnot. now left.
Qed.

Lemma In_entry_unique m k c c' :
  NoDup (map fst m) -> In (k, c) m -> map_get k m = Some c' -> c' = c.
Proof.
  intros Hnd Hin Hget. rewrite (In_map_get m k c Hnd Hin) in Hget.
  now injection Hget.
Qed.

(** X8.  [cleanup] removes and never alters: on a well-formed registry a
    record found after it was there before, unchanged, and its transport is
    open; and a connection with an open transport that every clock reading
    finds seen within three periods is still there afterwards.  Nothing is
    sent. *)
Theorem cleanup_keeps_the_living E w :
  registry_wf w = true ->
  let after := snd (cleanup E w) in
  (forall k c, map_get k (clients after) = Some c ->
               map_get k (clients w) = Some c
               /\ readyState (ws c) = OPEN)
  /\ (forall k c, map_get k (clients w) = Some c ->
                  fresh E w c -> readyState (ws c) = OPEN ->
                  map_get k (clients after) = Some c)
  /\ sent after = sent w.
Proof.
  intros Hwf after. subst after. unfold cleanup, bind, gets. cbv beta iota.
  pose proof (registry_wf_NoDup w Hwf) as Hnd.
  destruct (deadClients_spec E w (clients w) w eq_refl (le_n _))
    as (Hcs & Hsent & _ & Hclosed & Hsound).
  destruct (deadClients E (clients w) w) as [dead w1]. cbn [fst snd] in *.
  assert (NoDup (map fst (clients w1))) as Hnd1 by now rewrite Hcs.
  destruct (forEach_removeClient_spec dead w1 Hnd1)
    as (Hs & _ & Hsub & Hkeep).
  split; [|split; [|congruence]].
  - intros k c Hget. pose proof (Hsub k c Hget) as Hbefore.
    rewrite Hcs in Hbefore. split; [assumption|].
    destruct (ReadyState_eqb (readyState (ws c)) OPEN) eqn:Hopen;
      [now apply ReadyState_eqb_eq|].
    exfalso. apply map_get_In in Hbefore.
    pose proof (Hclosed k c Hbefore Hopen) as Hdead.
    apply (forEach_removeClient_removes k dead w1 Hnd1 (or_introl Hdead)).
    apply map_get_In in Hget. change k with (fst (k, c)). now apply in_map.
  - intros k c Hget Hfresh Hopen. rewrite Hkeep; [now rewrite Hcs|].
    intro Hdead. destruct (Hsound k Hdead) as (c' & j & Hin & Hj & Hwhy).
    pose proof (In_entry_unique (clients w) k c' c Hnd Hin Hget) as ->.
    destruct Hwhy as [Hclosed'|Hold].
    + apply ReadyState_eqb_eq in Hopen. congruence.
    + rewrite Hget in Hold. apply Z.ltb_ge in Hold.
      specialize (Hfresh j Hj). lia.
Qed.

Lemma ping_frame E k c w :
  clock_reads w <= clock_reads (snd (ping E (k, c) w))
  /\ sent (snd (ping E (k, c) w)) = sent w
  /\ (forall x, x <> k ->
                map_get x (clients (snd (ping E (k, c) w)))
                = map_get x (clients w)).
Proof.
  unfold ping, bind, gets, set_clients, ret, Date_now.
  destruct (ReadyState_eqb (readyState (ws c)) OPEN); [|auto].
  destruct (ws_ping_throws E c); [auto|]. cbv beta iota.
  cbn [snd clients sent clock_reads]. split; [lia|]. split; [reflexivity|].
  intros x Hx. now apply map_get_set_other.
Qed.

(** The ping loop stamps the record of a key it meets, once, and leaves the
    records of the keys it does not meet. *)
Lemma forEach_ping_stamps E clientId client entries :
  forall w,
    NoDup (map fst entries) ->
    sent (snd (forEach (ping E) entries w)) = sent w
    /\ clock_reads w <= clock_reads (snd (forEach (ping E) entries w))
    /\ (~ In clientId (map fst entries) ->
        map_get clientId (clients (snd (forEach (ping E) entries w)))
        = map_get clientId (clients w))
    /\ (In (clientId, client) entries ->
        readyState (ws client) = OPEN -> ws_ping_throws E client = false ->
        exists j, clock_reads w <= j
                  /\ map_get clientId
                       (clients (snd (forEach (ping E) entries w)))
                     = Some (stamped client (Date_now_at E j))).
Proof.
  induction entries as [|[k c] rest IH]; intros w Hnd.
  - simpl. repeat split; auto. intros [].
  - change (forEach (ping E) ((k, c) :: rest) w)
      with (bind (ping E (k, c)) (fun _ => forEach (ping E) rest) w).
    unfold bind. inversion Hnd as [|? ? Hnotin Hrest]; subst.
    destruct (ping_frame E k c w) as (Hk1 & Hs1 & Hother).
    assert (readyState (ws c) = OPEN -> ws_ping_throws E c = false ->
            map_get k (clients (snd (ping E (k, c) w)))
            = Some (stamped c (Date_now_at E (clock_reads w)))) as Hstamp.
    { intros Hopen Hok. unfold ping, bind, gets, set_clients, ret, Date_now.
      rewrite Hopen, Hok. cbv beta iota. cbn [snd clients ReadyState_eqb].
      apply map_get_set_same. }
    destruct (ping E (k, c) w) as [[] w1]. cbn [snd] in *.
    destruct (IH w1 Hrest) as (IHs & IHk & IHkeep & IHstamp).
    split; [congruence|]. split; [lia|]. split.
    + intro Hnot. cbn [map fst In] in Hnot. rewrite IHkeep; [|tauto].
      apply Hother. intros ->. apply Hnot. now left.
    + intros [Heq|Hin] Hopen Hok.
      * injection Heq as -> ->. exists (clock_reads w). split; [lia|].
        rewrite IHkeep; [|assumption]. now apply Hstamp.
      * destruct (IHstamp Hin Hopen Hok) as (j & Hj & Hget).
        exists j. split; [lia|assumption].
Qed.

(** X9.  A heartbeat tick stamps what it keeps: on a well-formed registry,
    a connection with an open transport that every clock reading finds seen
    within three periods, and whose ping does not raise, is still
    registered after the tick, and its record differs from the old one
    only by [lastPing], now a clock reading taken during the tick.  The
    tick sends no message frame. *)
Theorem tick_stamps_the_living E w clientId client :
  registry_wf w = true ->
  map_get clientId (clients w) = Some client ->
  fresh E w client ->
  readyState (ws client) = OPEN ->
  ws_ping_throws E client = false ->
  let after := snd (pingIntervalTick E w) in
  (exists j, clock_reads w <= j
             /\ map_get clientId (clients after)
                = Some (stamped client (Date_now_at E j)))
  /\ sent after = sent w.
Proof.
  intros Hwf Hget Hfresh Hopen Hok after. subst after.
  unfold pingIntervalTick, bind, gets.
  assert (map_get clientId (clients (snd (cleanup E w))) = Some client
          /\ sent (snd (cleanup E w)) = sent w
          /\ clock_reads w <= clock_reads (snd (cleanup E w))
          /\ registry_wf (snd (cleanup E w)) = true)
    as (Hget1 & Hsent1 & Hclock1 & Hwf1).
  { pose proof (cleanup_wf E w Hwf) as Hwf1.
    unfold cleanup, bind, gets in *. cbv beta iota in *.
    pose proof (registry_wf_NoDup w Hwf) as Hnd.
    destruct (deadClients_spec E w (clients w) w eq_refl (le_n _))
      as (Hcs & Hsent & Hclock & _ & Hsound).
    destruct (deadClients E (clients w) w) as [dead w1]. cbn [fst snd] in *.
    assert (NoDup (map fst (clients w1))) as Hnd1 by now rewrite Hcs.
    destruct (forEach_removeClient_spec dead w1 Hnd1)
      as (Hs & Hk & _ & Hkeep).
    split; [|split; [congruence|split; [lia|assumption]]].
    rewrite Hkeep; [now rewrite Hcs|].
    intro Hdead. destruct (Hsound clientId Hdead) as (c' & j & Hin & Hj & Hwhy).
    pose proof (In_entry_unique (clients w) clientId c' client Hnd Hin Hget)
      as ->.
    destruct Hwhy as [Hclosed|Hold].
    - apply ReadyState_eqb_eq in Hopen. congruence.
    - rewrite Hget in Hold. apply Z.ltb_ge in Hold.
      specialize (Hfresh j Hj). lia. }
  destruct (cleanup E w) as [[] w1]. cbv beta iota. cbn [snd] in *.
  destruct (forEach_ping_stamps E clientId client (clients w1) w1
              (registry_wf_NoDup w1 Hwf1)) as (Hs & _ & _ & Hstamp).
  destruct (Hstamp (map_get_In _ _ _ Hget1) Hopen Hok) as (j & Hj & Hafter).
  split; [|congruence]. exists j. split; [lia|assumption].
Qed.

(** X10.  A pong from an unknown connection does nothing.  A pong from a
    registered one sets its [lastPing] to the clock reading and nothing
    else; if that reading is not zero the connection is then alive exactly
    while less than 3 x 30000 ms have passed since it, however long it had
    been silent before. *)
Theorem pong_refreshes_liveness E clientId w :
  let t := Date_now_at E (clock_reads w) in
  let after := snd (Server.onPong E clientId w) in
  (map_get clientId (clients w) = None ->
   Server.onPong E clientId w = (tt, w))
  /\ (forall client,
        map_get clientId (clients w) = Some client ->
        map_get clientId (clients after) = Some (stamped client t)
        /\ (forall k, k <> clientId ->
                      map_get k (clients after) = map_get k (clients w))
        /\ sent after = sent w
        /\ (t <> 0%Z ->
            (fst (isClientAlive E clientId after) = true
             <-> (Date_now_at E (clock_reads after) - t < 3 * 30000)%Z))).
Proof.
  unfold Server.onPong, getClient. unfold bind, gets, set_clients, ret,
    Date_now. cbv beta iota zeta.
  destruct (map_get clientId (clients w)) as [c|] eqn:Hget.
  - split; [discriminate|]. intros client H. injection H as <-.
    cbn [snd clients sent clock_reads].
    split; [apply map_get_set_same|].
    split; [intros k Hk; now apply map_get_set_other|].
    split; [reflexivity|]. intro Hnz.
    match goal with
    | |- context [isClientAlive E clientId ?w1] =>
        destruct (isClientAlive_spec E clientId w1) as (_ & _ & ->)
    end.
    cbn [clients clock_reads]. rewrite map_get_set_same.
    unfold last_seen, PING_INTERVAL. cbn [lastPing assign or_else u_lastPing].
    apply Z.eqb_neq in Hnz. rewrite Hnz. rewrite Z.ltb_lt. lia.
  - split; [reflexivity|]. discriminate.
Qed.

(** ** Building and cleaning messages *)

Lemma set_field_same k o :
  has_field k o = true -> set_field k (get_field k o) o = o.
Proof.
  induction o as [|[k' v'] rest IH]; simpl; [discriminate|].
  destruct (k =? k') eqn:Hk; simpl; [reflexivity|]. intro H. now rewrite IH.
Qed.

Lemma truthy_has_field k o : truthy (get_field k o) = true -> has_field k o = true.
Proof.
  intro H. destruct (has_field k o) eqn:Hhas; [reflexivity|].
  now rewrite (get_field_absent k o Hhas) in H.
Qed.

(** X11.  [createMessage] fills in what is missing and keeps the rest.  A
    message that already carries a truthy [id] and [timestamp] comes back
    as it is, without a reading of the clock or of the random source.  A
    missing or falsy [id] (such as the empty string) becomes "msg_", the
    clock reading, "_" and nine characters of the random text; a missing or
    falsy [timestamp] (such as 0) becomes a clock reading.  Every other
    field is kept.  If [type] and [source] are strings and a supplied [id]
    and [timestamp] are a string and a number, [isValidMessage] accepts the
    result. *)
Theorem createMessage_completes E partialMessage w :
  let message := fst (createMessage E partialMessage w) in
  (truthy (get_field "id" partialMessage) = true ->
   truthy (get_field "timestamp" partialMessage) = true ->
   createMessage E partialMessage w = (partialMessage, w))
  /\ (truthy (get_field "id" partialMessage) = true ->
      get_field "id" message = get_field "id" partialMessage)
  /\ (truthy (get_field "id" partialMessage) = false ->
      get_field "id" message
      = JStr ("msg_" ++ ToString (JNum (Date_now_at E (clock_reads w)))
              ++ "_" ++ substring 2 9 (Math_random_at E (random_draws w))))
  /\ (truthy (get_field "timestamp" partialMessage) = true ->
      get_field "timestamp" message = get_field "timestamp" partialMessage)
  /\ (truthy (get_field "timestamp" partialMessage) = false ->
      exists j, clock_reads w <= j
                /\ get_field "timestamp" message = JNum (Date_now_at E j))
  /\ (forall k, k <> "id" -> k <> "timestamp" ->
                get_field k message = get_field k partialMessage)
  /\ (typeof (get_field "type" partialMessage) = Tstring ->
      typeof (get_field "source" partialMessage) = Tstring ->
      typeof (get_field "id" partialMessage) = Tstring
      \/ truthy (get_field "id" partialMessage) = false ->
      typeof (get_field "timestamp" partialMessage) = Tnumber
      \/ truthy (get_field "timestamp" partialMessage) = false ->
      isValidMessage (JObj message) = true).
Proof.
  intro message.
  assert (get_field "id" message
          = if truthy (get_field "id" partialMessage)
            then get_field "id" partialMessage
            else JStr ("msg_"
                       ++ ToString (JNum (Date_now_at E (clock_reads w)))
                       ++ "_"
                       ++ substring 2 9 (Math_random_at E (random_draws w))))
    as Hid.
  { subst message.
    unfold createMessage, generateMessageId, bind, ret, Date_now, Math_random.
    destruct (truthy (get_field "id" partialMessage));
      destruct (truthy (get_field "timestamp" partialMessage));
      cbv beta iota; cbn [fst];
      (rewrite get_set_other by discriminate); now rewrite get_set_same. }
  assert (truthy (get_field "timestamp" partialMessage) = true ->
          get_field "timestamp" message = get_field "timestamp" partialMessage)
    as Hts.
  { intro Ht. subst message.
    unfold createMessage, generateMessageId, bind, ret, Date_now, Math_random.
    rewrite Ht. destruct (truthy (get_field "id" partialMessage));
      cbv beta iota; cbn [fst]; now rewrite get_set_same. }
  assert (truthy (get_field "timestamp" partialMessage) = false ->
          exists j, clock_reads w <= j
                    /\ get_field "timestamp" message = JNum (Date_now_at E j))
    as Hnew.
  { intro Ht. subst message.
    unfold createMessage, generateMessageId, bind, ret, Date_now, Math_random.
    rewrite Ht. destruct (truthy (get_field "id" partialMessage));
      cbv beta iota; cbn [fst clock_reads]; rewrite get_set_same;
      eexists; (split; [|reflexivity]); lia. }
  destruct (createMessage_spec E partialMessage w) as (_ & _ & Hother).
  fold message in Hother.
  split; [|split; [|split; [|split; [|split; [|split]]]]].
  - intros Hi Ht. unfold createMessage, bind, ret. rewrite Hi, Ht.
    cbv beta iota.
    rewrite (set_field_same "id") by now apply truthy_has_field.
    now rewrite (set_field_same "timestamp") by now apply truthy_has_field.
  - intro Hi. now rewrite Hid, Hi.
  - intro Hi. now rewrite Hid, Hi.
  - exact Hts.
  - exact Hnew.
  - exact Hother.
  - intros Htype Hsource Hi Ht. unfold isValidMessage.
    rewrite (Hother "type"), (Hother "source") by discriminate.
    rewrite Htype, Hsource.
    assert (typeof (get_field "id" message) = Tstring) as ->.
    { rewrite Hid. destruct (truthy (get_field "id" partialMessage)) eqn:H;
        [|reflexivity]. destruct Hi as [Hi|Hi]; [assumption|discriminate]. }
    assert (typeof (get_field "timestamp" message) = Tnumber) as ->;
      [|reflexivity].
    destruct (truthy (get_field "timestamp" partialMessage)) eqn:H.
    + rewrite (Hts eq_refl). destruct Ht as [Ht|Ht];
        [assumption|discriminate].
    + destruct (Hnew eq_refl) as (j & _ & ->). reflexivity.
Qed.

(** Decimal digits hold no underscore. *)
Lemma digits_no_underscore d :
  forall c, In c (list_ascii_of_string (NilEmpty.string_of_uint d)) ->
            c <> "_"%char.
Proof.
  induction d; simpl; intros c Hin; try contradiction;
    destruct Hin as [<-|Hin]; try discriminate; now apply IHd.
Qed.

Lemma number_text_no_underscore n :
  forall c, In c (list_ascii_of_string (ToString (JNum n))) -> c <> "_"%char.
Proof.
  intros c. cbn [ToString]. unfold NilZero.string_of_int.
  assert (forall d c', In c' (list_ascii_of_string (NilZero.string_of_uint d))
                       -> c' <> "_"%char) as Hu.
  { intros d c'. destruct d; try apply digits_no_underscore.
    simpl. intros [<-|[]]. discriminate. }
  destruct (Z.to_int n) as [d|d]; [apply Hu|].
  simpl. intros [<-|Hin]; [discriminate|now apply (Hu d)].
Qed.

Lemma number_text_injective a b :
  ToString (JNum a) = ToString (JNum b) -> a = b.
Proof.
  cbn [ToString]. intro H.
  assert (forall z, Z.to_int z <> Decimal.Pos Decimal.Nil
                    /\ Z.to_int z <> Decimal.Neg Decimal.Nil) as Hnn.
  { intros [|q|q]; simpl; split; try discriminate; intro Hq;
      injection Hq as Hq; now apply DecimalPos.Unsigned.to_uint_nonnil in Hq. }
  destruct (Hnn a) as [Ha1 Ha2]. destruct (Hnn b) as [Hb1 Hb2].
  pose proof (NilZero.isi (Z.to_int a) Ha1 Ha2) as Ia.
  pose proof (NilZero.isi (Z.to_int b) Hb1 Hb2) as Ib.
  rewrite H in Ia. rewrite Ia in Ib. injection Ib as Hab.
  rewrite <- (DecimalZ.of_to a), <- (DecimalZ.of_to b). now rewrite Hab.
Qed.

(** Two texts cut at their first underscore agree part by part. *)
Lemma split_at_underscore a c :
  forall b d,
    (forall x, In x (list_ascii_of_string a) -> x <> "_"%char) ->
    (forall x, In x (list_ascii_of_string c) -> x <> "_"%char) ->
    a ++ String "_" b = c ++ String "_" d -> a = c /\ b = d.
Proof.
  revert c. induction a as [|x a IH]; intros [|y c] b d Ha Hc H; simpl in *.
  - injection H as ->. auto.
  - injection H as <- _. exfalso. apply (Hc "_"%char); auto.
  - injection H as -> _. exfalso. apply (Ha "_"%char); auto.
  - injection H as -> H.
    destruct (IH c b d) as [-> ->]; auto.
Qed.

(** X12.  Two ids made by [generateMessageId] are equal exactly when they
    were made from the same clock reading and the same nine characters of
    random text; likewise for [generateClientId] with six characters.  So
    ids made at different readings of the clock never collide. *)
Theorem generated_ids_collide_only_on_equal_draws E w1 w2 :
  (fst (generateMessageId E w1) = fst (generateMessageId E w2)
   <-> Date_now_at E (clock_reads w1) = Date_now_at E (clock_reads w2)
       /\ substring 2 9 (Math_random_at E (random_draws w1))
          = substring 2 9 (Math_random_at E (random_draws w2)))
  /\ (fst (generateClientId E w1) = fst (generateClientId E w2)
      <-> Date_now_at E (clock_reads w1) = Date_now_at E (clock_reads w2)
          /\ substring 2 6 (Math_random_at E (random_draws w1))
             = substring 2 6 (Math_random_at E (random_draws w2))).
Proof.
  unfold generateMessageId, generateClientId, bind, ret, Date_now, Math_random.
  cbv beta iota. cbn [fst clock_reads random_draws].
  split; split.
  - intro H. simpl in H. injection H as H.
    apply split_at_underscore in H as [Hn Hr];
      try apply number_text_no_underscore.
    split; [now apply number_text_injective|assumption].
  - intros [-> ->]. reflexivity.
  - intro H. simpl in H. injection H as H.
    apply split_at_underscore in H as [Hn Hr];
      try apply number_text_no_underscore.
    split; [now apply number_text_injective|assumption].
  - intros [-> ->]. reflexivity.
Qed.

Lemma strip_angles_idempotent s : strip_angles (strip_angles s) = strip_angles s.
Proof.
  induction s as [|c rest IH]; simpl; [reflexivity|].
  destruct (is_angle c) eqn:Hc; simpl; [assumption|]. now rewrite Hc, IH.
Qed.

Lemma strip_angles_clean s :
  forall c, In c (list_ascii_of_string (strip_angles s)) ->
            c <> "<"%char /\ c <> ">"%char.
Proof.
  intros c. rewrite strip_angles_filter. intro Hin.
  apply filter_In in Hin as [_ Hc]. apply negb_true_iff in Hc.
  unfold is_angle in Hc. apply orb_false_elim in Hc as [H1 H2].
  split; intros ->; discriminate.
Qed.

Lemma set_field_twice k v1 v2 o :
  set_field k v2 (set_field k v1 o) = set_field k v2 o.
Proof.
  induction o as [|[k' v'] rest IH]; simpl.
  - now rewrite String.eqb_refl.
  - destruct (k =? k') eqn:Hk; simpl; rewrite Hk; [reflexivity|].
    now rewrite IH.
Qed.

(** X13.  Sanitizing is idempotent: on a message that is not a chat, and
    on a chat whose [content] is plain, a second pass changes nothing.
    After one pass the [content] of such a chat is a string without ['<']
    and ['>'], be it a number, an array or absent before, and the [type] is
    what it was. *)
Theorem sanitizeMessage_idempotent message :
  (get_field "type" message = JStr "chat" ->
   plain (get_field "content" message) = true) ->
  sanitizeMessage (sanitizeMessage message) = sanitizeMessage message
  /\ get_field "type" (sanitizeMessage message) = get_field "type" message
  /\ (get_field "type" message = JStr "chat" ->
      exists text,
        get_field "content" (sanitizeMessage message) = JStr text
        /\ forall c, In c (list_ascii_of_string text) ->
                     c <> "<"%char /\ c <> ">"%char).
Proof.
  intros _. split; [|split; [apply sanitize_keeps_type|]].
  - destruct (strict_eq (get_field "type" message) (JStr "chat")) eqn:Hchat.
    + apply strict_eq_str in Hchat.
      rewrite (sanitize_chat (sanitizeMessage message))
        by now rewrite sanitize_keeps_type.
      rewrite (sanitize_chat message Hchat) at 1 2.
      rewrite get_set_same. cbn [ToString].
      rewrite strip_angles_idempotent, set_field_twice.
      now rewrite <- (sanitize_chat message Hchat).
    + assert (get_field "type" message <> JStr "chat") as Hne.
      { intro H. apply strict_eq_str in H. congruence. }
      now rewrite !(sanitize_other_kind message Hne).
  - intro Hchat. rewrite (sanitize_chat message Hchat), get_set_same.
    eexists. split; [reflexivity|]. apply strip_angles_clean.
Qed.

(** ** Routing and the registry *)

Lemma routeMessage_registry_exact E message sender w :
  clients (snd (routeMessage E message sender w)) = clients w
  \/ exists client,
      map_get sender (clients w) = Some client
      /\ get_field "type" message = JStr "api_registration"
      /\ clients (snd (routeMessage E message sender w))
         = map_set sender (assign client (registered_as message)) (clients w).
Proof.
  destruct (validateMessageType message) eqn:Hvalid.
  2:{ left. unfold routeMessage. now rewrite Hvalid. }
  destruct (switch_type (get_field "type" message)) as [kind|] eqn:Hkind.
  2:{ apply switch_type_total_false in Hkind. congruence. }
  destruct kind.
  - left. rewrite (routeMessage_dispatch E message sender w _ Hvalid Hkind).
    unfold handleChatMessage, bind, ret.
    pose proof (broadcastToType_clients E dashboard (sanitizeMessage message) w).
    now destruct (broadcastToType E dashboard (sanitizeMessage message) w).
  - left. rewrite (routeMessage_dispatch E message sender w _ Hvalid Hkind).
    apply handleCommandMessage_clients.
  - rewrite (routeMessage_dispatch E message sender w _ Hvalid Hkind).
    destruct (map_get sender (clients w)) as [client|] eqn:Hget.
    + destruct (function_names (get_field "functions" message)) eqn:Hnames.
      * right. exists client. split; [reflexivity|].
        split; [now apply switch_type_inv in Hkind|].
        apply handleAPIRegistration_registry; [congruence|assumption].
      * left. destruct (handleAPIRegistration_completion E message sender w)
          as [Hthrow _]. now rewrite (Hthrow Hnames).
    + left. now apply handleAPIRegistration_unregistered.
  - left. rewrite (routeMessage_dispatch E message sender w _ Hvalid Hkind).
    unfold handleStatusUpdate.
    destruct (member _ "currentTask"); [|reflexivity].
    unfold bind, ret.
    pose proof (broadcastToType_clients E dashboard message w).
    now destruct (broadcastToType E dashboard message w).
  - left. rewrite (routeMessage_dispatch E message sender w _ Hvalid Hkind).
    unfold handleCommandResponse, bind, ret.
    pose proof (broadcastToType_clients E dashboard message w).
    now destruct (broadcastToType E dashboard message w).
Qed.

(** X14.  Routing a message never adds or removes a connection and never
    changes one's identity: the keys of the registry stay as they are, in
    order; every record keeps its id, socket, role and timestamps; no
    record but the sender's changes at all; and when the sender is not
    registered, as for every message that arrives over HTTP, the registry
    is left exactly as it was. *)
Theorem routing_preserves_identities E message sender w :
  let after := snd (routeMessage E message sender w) in
  map fst (clients after) = map fst (clients w)
  /\ (forall k c,
        map_get k (clients w) = Some c ->
        exists c',
          map_get k (clients after) = Some c'
          /\ id c' = id c /\ ws c' = ws c /\ type c' = type c
          /\ connectedAt c' = connectedAt c /\ lastPing c' = lastPing c)
  /\ (forall k, k <> sender ->
                map_get k (clients after) = map_get k (clients w))
  /\ (map_get sender (clients w) = None -> clients after = clients w).
Proof.
  intros after. subst after.
  destruct (routeMessage_registry_exact E message sender w)
    as [->|(client & Hget & _ & ->)].
  - split; [reflexivity|]. split; [|split; [reflexivity|reflexivity]].
    intros k c Hk. exists c. auto 10.
  - split; [now apply (map_set_same_keys sender _ (clients w) client)|].
    split; [|split].
    + intros k c Hk. destruct (String.eqb_spec k sender) as [->|Hne].
      * rewrite map_get_set_same. eexists. split; [reflexivity|].
        assert (c = client) as -> by congruence. simpl. auto.
      * rewrite (map_get_set_other _ _ _ _ Hne). exists c. auto 10.
    + intros k Hk. now apply map_get_set_other.
    + intro Hnone. congruence.
Qed.

Lemma generated_ids_lookup w k :
  generated_ids w = true -> String.prefix "client_" k = false ->
  map_get k (clients w) = None.
Proof.
  unfold generated_ids. intros Hgen Hk.
  destruct (map_get k (clients w)) as [c|] eqn:Hget; [|reflexivity].
  apply map_get_In in Hget. rewrite forallb_forall in Hgen.
  specialize (Hgen _ Hget). simpl in Hgen. congruence.
Qed.

Lemma generated_ids_clients w w' :
  clients w' = clients w -> generated_ids w' = generated_ids w.
Proof. unfold generated_ids. now intros ->. Qed.

Lemma generated_ids_same_keys w w' :
  map fst (clients w') = map fst (clients w) ->
  generated_ids w = true -> generated_ids w' = true.
Proof.
  unfold generated_ids. intros Hkeys Hgen.
  rewrite forallb_forall in *. intros [k c] Hin.
  assert (In k (map fst (clients w))) as Hk.
  { rewrite <- Hkeys. change k with (fst (k, c)). now apply in_map. }
  apply in_map_iff in Hk as ([k' c'] & Heq & Hin'). simpl in Heq. subst k'.
  exact (Hgen _ Hin').
Qed.

(** ** Where routed frames go *)

Lemma broadcastToType_frames_role E ty message w :
  registry_wf w = true ->
  exists frames,
    snd (broadcastToType E ty message w) = deliver w frames
    /\ forall f, In f frames ->
                 frame_data f = message
                 /\ exists client,
                     map_get (frame_to f) (clients w) = Some client
                     /\ type client = ty.
Proof.
  intro Hwf. rewrite broadcastToType_attempts. cbn [fst snd].
  set (role := fst (getClientsByType ty w)).
  exists (frames_of message role (fst (attempts E message role w))).
  split; [apply attempts_frames|].
  intros f Hin.
  destruct (frames_of_targets message role _ f Hin) as [Hdata Hto].
  split; [assumption|].
  apply in_map_iff in Hto as (c & Hid & Hc).
  subst role. unfold getClientsByType, gets in Hc. cbn [fst] in Hc.
  apply filter_In in Hc as [Hc Hty].
  exists c. rewrite <- Hid. split; [now apply registry_wf_values|].
  now destruct (type c), ty.
Qed.

(** A reply built for the sender reaches the sender or nobody. *)
Lemma reply_to_sender E partialMessage sender w :
  exists frames,
    sent (snd (bind (createMessage E partialMessage)
                 (fun reply => bind (sendToClient E sender reply)
                                 (fun _ => ret Normal)) w))
    = (sent w ++ frames)%list
    /\ forall f, In f frames ->
                 frame_to f = sender
                 /\ map_get sender (clients w) <> None.
Proof.
  unfold bind, ret.
  destruct (createMessage_spec E partialMessage w) as (Hcs & Hsent & _).
  destruct (createMessage E partialMessage w) as [reply w1].
  cbn [fst snd] in *. rewrite sendToClient_spec. cbn [snd deliver sent].
  rewrite Hsent. eexists. split; [reflexivity|].
  intros f Hin. destruct (accepts E w1 sender reply) eqn:Hacc;
    [|contradiction].
  destruct Hin as [<-|[]]. split; [reflexivity|].
  unfold accepts in Hacc. rewrite Hcs in Hacc.
  now destruct (map_get sender (clients w)).
Qed.

Lemma routeMessage_frames E message sender w :
  registry_wf w = true ->
  exists frames,
    sent (snd (routeMessage E message sender w)) = (sent w ++ frames)%list
    /\ forall f, In f frames -> rightful w message sender f.
Proof.
  intro Hwf.
  assert (exists frames : list Frame,
             sent w = (sent w ++ frames)%list
             /\ forall f, In f frames -> rightful w message sender f) as Hnone.
  { exists []. split; [now rewrite app_nil_r|intros f []]. }
  destruct (validateMessageType message) eqn:Hvalid.
  2:{ unfold routeMessage. now rewrite Hvalid. }
  destruct (switch_type (get_field "type" message)) as [kind|] eqn:Hkind.
  2:{ apply switch_type_total_false in Hkind. congruence. }
  rewrite (routeMessage_dispatch E message sender w kind Hvalid Hkind).
  assert (forall m,
             exists frames,
               sent (snd (broadcastToType E dashboard m w))
               = (sent w ++ frames)%list
               /\ forall f, In f frames -> rightful w message sender f)
    as Hbroadcast.
  { intro m. destruct (broadcastToType_frames_role E dashboard m w Hwf)
      as (frames & -> & Hrole).
    exists frames. split; [reflexivity|]. intros f Hin.
    destruct (Hrole f Hin) as (_ & c & Hget & Hty).
    split; [congruence|]. right. left. now exists c. }
  destruct kind.
  - unfold handleChatMessage, bind, ret.
    destruct (Hbroadcast (sanitizeMessage message)) as (frames & Hs & Hr).
    destruct (broadcastToType E dashboard (sanitizeMessage message) w).
    now exists frames.
  - unfold handleCommandMessage. unfold bind at 1.
    unfold getComputerByName at 1, gets at 1. cbv beta iota.
    destruct (find _ (values (clients w))) as [device|] eqn:Hfind.
    + unfold bind at 1. rewrite sendToClient_spec.
      destruct (accepts E w (id device) message) eqn:Hacc.
      * exists [{| frame_to := id device; frame_data := message |}].
        split; [reflexivity|]. intros f [<-|[]]. split.
        -- unfold accepts in Hacc. cbn [frame_to].
           now destruct (map_get (id device) (clients w)).
        -- right. right. split; [now apply switch_type_inv in Hkind|].
           split; [reflexivity|]. exists device. split; [|reflexivity].
           unfold getComputerByName, gets. exact Hfind.
      * rewrite deliver_nil.
        destruct (reply_to_sender E (sendFailedResponse message) sender w)
          as (frames & Hs & Hr).
        exists frames. split; [exact Hs|]. intros f Hin.
        destruct (Hr f Hin) as [Hto Hreg]. split; [congruence|now left].
    + destruct (reply_to_sender E (notConnectedResponse message) sender w)
        as (frames & Hs & Hr).
      exists frames. split; [exact Hs|]. intros f Hin.
      destruct (Hr f Hin) as [Hto Hreg]. split; [congruence|now left].
  - unfold handleAPIRegistration.
    destruct (function_names (get_field "functions" message)); [|exact Hnone].
    unfold bind at 1.
    pose proof (updateClient_wf sender (registered_as message) w eq_refl Hwf)
      as Hwf0.
    assert (sent (snd (updateClient sender (registered_as message) w)) = sent w
            /\ (forall k, k <> sender ->
                   map_get k (clients (snd (updateClient sender
                                              (registered_as message) w)))
                   = map_get k (clients w))
            /\ (map_get sender (clients (snd (updateClient sender
                                               (registered_as message) w)))
                <> None ->
                map_get sender (clients w) <> None))
      as (Hs0 & Hother & Hsender).
    { unfold updateClient, bind, gets, set_clients, ret. cbv beta iota.
      destruct (map_get sender (clients w)) eqn:Hget; cbn [snd clients sent].
      - split; [reflexivity|]. split; [|discriminate].
        intros k Hk. now apply map_get_set_other.
      - split; [reflexivity|]. split; [reflexivity|]. now rewrite Hget. }
    unfold registered_as in *.
    destruct (updateClient sender _ w) as [[] w0]. cbn [snd] in *.
    unfold bind at 1.
    destruct (broadcastToType_frames_role E dashboard message w0 Hwf0)
      as (frames1 & Hw1 & Hrole).
    pose proof (broadcastToType_clients E dashboard message w0) as Hcs1.
    destruct (broadcastToType E dashboard message w0) as [n w1].
    cbn [snd] in *.
    destruct (reply_to_sender E (welcomeMessage message) sender w1)
      as (frames2 & Hs2 & Hr2).
    exists (frames1 ++ frames2)%list. split.
    + rewrite Hs2, Hw1. cbn [sent deliver]. now rewrite Hs0, app_assoc.
    + intros f Hin. apply in_app_or in Hin as [Hin|Hin].
      * destruct (Hrole f Hin) as (_ & c & Hget & Hty).
        destruct (String.eqb_spec (frame_to f) sender) as [Heq|Hne].
        -- split; [|now left]. rewrite Heq. apply Hsender.
           rewrite <- Heq. congruence.
        -- rewrite (Hother _ Hne) in Hget. split; [congruence|].
           right. left. now exists c.
      * destruct (Hr2 f Hin) as [Hto Hreg]. split; [|now left].
        rewrite Hto. apply Hsender. now rewrite <- Hcs1.
  - unfold handleStatusUpdate.
    destruct (member _ "currentTask"); [|exact Hnone].
    unfold bind, ret. destruct (Hbroadcast message) as (frames & Hs & Hr).
    destruct (broadcastToType E dashboard message w). now exists frames.
  - unfold handleCommandResponse, bind, ret.
    destruct (Hbroadcast message) as (frames & Hs & Hr).
    destruct (broadcastToType E dashboard message w). now exists frames.
Qed.

(** X15.  Routing never reaches a bystander.  On a well-formed registry
    routing only appends frames to the wire, and none of the frames it
    appends is addressed to an id other than the sender's that is
    unregistered, nor to a device other than the sender unless the message
    is a command and that device is the one found under its
    [targetComputer]. *)
Theorem routing_never_reaches_a_bystander E message sender w k :
  registry_wf w = true ->
  k <> sender ->
  map_get k (clients w) = None
  \/ (exists c,
        map_get k (clients w) = Some c /\ type c = computercraft
        /\ ~ (get_field "type" message = JStr "command"
              /\ exists d,
                  fst (getComputerByName (get_field "targetComputer" message) w)
                  = Some d
                  /\ id d = k)) ->
  exists frames,
    sent (snd (routeMessage E message sender w)) = (sent w ++ frames)%list
    /\ forall f, In f frames -> frame_to f <> k.
Proof.
  intros Hwf Hne Hk.
  destruct (routeMessage_frames E message sender w Hwf) as (frames & Hs & Hr).
  exists frames. split; [exact Hs|]. intros f Hin Hto.
  destruct (Hr f Hin) as [Hreg Hwhy]. rewrite Hto in *.
  destruct Hk as [Hnone|(c & Hget & Hdev & Hnot)]; [contradiction|].
  destruct Hwhy as [Hs'|[(c' & Hget' & Hdash)|(Hcmd & _ & d & Hd & Hid)]].
  - contradiction.
  - rewrite Hget in Hget'. injection Hget' as <-. congruence.
  - apply Hnot. split; [assumption|]. now exists d.
Qed.

(** X16.  A plain message that passes validation and is a
    [command_response], or a [status_update] whose [status] is neither
    [null] nor [undefined], is relayed: routing returns normally and does
    exactly what a broadcast of the message, unaltered, to the dashboards
    does, whoever the sender is. *)
Theorem telemetry_is_relayed_verbatim E message sender w :
  plain_message message = true ->
  validateMessageType message = true ->
  get_field "type" message = JStr "command_response"
  \/ (get_field "type" message = JStr "status_update"
      /\ ~ nullish (get_field "status" message)) ->
  routeMessage E message sender w
  = (Normal, snd (broadcastToType E dashboard message w))
  /\ forall other, routeMessage E message other w
                   = routeMessage E message sender w.
Proof.
  intros _ Hvalid Hkind.
  assert (forall s, routeMessage E message s w
                    = (Normal, snd (broadcastToType E dashboard message w)))
    as Hroute.
  { intro s0. destruct Hkind as [Htype|[Htype Hstatus]].
    - rewrite (routeMessage_dispatch E message s0 w command_response Hvalid)
        by now rewrite Htype.
      unfold handleCommandResponse, bind, ret.
      now destruct (broadcastToType E dashboard message w).
    - rewrite (routeMessage_dispatch E message s0 w status_update Hvalid)
        by now rewrite Htype.
      unfold handleStatusUpdate.
      destruct (member (get_field "status" message) "currentTask") eqn:Hm.
      + unfold bind, ret. now destruct (broadcastToType E dashboard message w).
      + apply member_None in Hm. contradiction. }
  split; [apply Hroute|]. intro other. now rewrite !Hroute.
Qed.

(** X17.  A well-formed registration, all of whose values are plain, does
    three things in order: it writes
    name, type and function list on the sender's record if there is one;
    it broadcasts the registration to the dashboards; and it builds one
    welcome chat from the server, medium priority, whose text names the
    device and the number of functions, for the sender alone: that frame
    follows the broadcast on the wire when the sender's connection takes
    it, and nothing follows otherwise. *)
Theorem registration_broadcasts_and_welcomes
  E message sender w name functions :
  plain_message message = true ->
  get_field "type" message = JStr "api_registration" ->
  validateMessageType message = true ->
  get_field "computerName" message = JStr name ->
  get_field "functions" message = JArr functions ->
  (forall f, In f functions -> ~ nullish f) ->
  let updated := snd (updateClient sender (registered_as message) w) in
  let told := snd (broadcastToType E dashboard message updated) in
  exists welcome,
    get_field "type" welcome = JStr "chat"
    /\ get_field "source" welcome = JStr "server"
    /\ get_field "priority" welcome = JStr "medium"
    /\ get_field "category" welcome = JStr "system"
    /\ get_field "content" welcome
       = JStr ("Welcome " ++ name ++ "! Registration successful. Functions: "
               ++ ToString (JNum (Z.of_nat (List.length functions))))
    /\ fst (routeMessage E message sender w) = Normal
    /\ clients (snd (routeMessage E message sender w)) = clients updated
    /\ sent (snd (routeMessage E message sender w))
       = (sent told
          ++ (if accepts E told sender welcome
              then [{| frame_to := sender; frame_data := welcome |}]
              else []))%list.
Proof.
  intros _ Htype Hvalid Hname Hfunctions Hentries updated told.
  assert (function_names (get_field "functions" message) <> None) as Hnames.
  { intro Hnone. apply function_names_None in Hnone. apply Hnone.
    now exists functions. }
  enough (exists welcome after,
             (get_field "type" welcome = JStr "chat"
              /\ get_field "source" welcome = JStr "server"
              /\ get_field "priority" welcome = JStr "medium"
              /\ get_field "category" welcome = JStr "system"
              /\ get_field "content" welcome
                 = JStr ("Welcome " ++ name
                         ++ "! Registration successful. Functions: "
                         ++ ToString (JNum (Z.of_nat (List.length functions)))))
             /\ routeMessage E message sender w = (Normal, after)
             /\ clients after = clients updated
             /\ sent after
                = (sent told
                   ++ (if accepts E told sender welcome
                       then [{| frame_to := sender; frame_data := welcome |}]
                       else []))%list)
    as (welcome & after & Hwelcome & -> & Hcs & Hsent).
  { exists welcome. cbn [fst snd]. tauto. }
  rewrite (routeMessage_dispatch E message sender w api_registration Hvalid)
    by now rewrite Htype.
  unfold handleAPIRegistration.
  destruct (function_names (get_field "functions" message)); [|contradiction].
  fold (registered_as message). unfold bind, ret.
  subst told updated.
  destruct (updateClient sender (registered_as message) w) as [[] w0].
  cbn [snd].
  pose proof (broadcastToType_clients E dashboard message w0) as Hcs1.
  destruct (broadcastToType E dashboard message w0) as [n w1]. cbn [snd] in *.
  destruct (createMessage_spec E (welcomeMessage message) w1)
    as (Hcs & Hsent & Hfields).
  destruct (createMessage E (welcomeMessage message) w1) as [welcome w2].
  cbn [fst snd] in *. exists welcome.
  rewrite sendToClient_spec. eexists. split; [|split; [reflexivity|]].
  - repeat split;
      try (rewrite Hfields; [reflexivity|discriminate|discriminate]).
    rewrite Hfields by discriminate. unfold welcomeMessage.
    simpl get_field. unfold array_length. now rewrite Hname, Hfunctions.
  - rewrite (accepts_same_registry_and_wire E w1 w2 sender welcome Hcs Hsent).
    cbn [clients sent deliver]. split; [congruence|now rewrite Hsent].
Qed.

(** ** Invariants of the registry *)








Lemma addClient_spec E socket ty metadata w :
  u_id metadata = None ->
  exists client,
    id client = fst (addClient E socket ty metadata w)
    /\ String.prefix "client_" (id client) = true
    /\ ws client = or_else (u_ws metadata) socket
    /\ type client = or_else (u_type metadata) ty
    /\ userAgent client = or_else (u_userAgent metadata) None
    /\ computerName client = or_else (u_computerName metadata) JUndefined
    /\ clients (snd (addClient E socket ty metadata w))
       = map_set (id client) client (clients w)
    /\ sent (snd (addClient E socket ty metadata w)) = sent w
    /\ registeredFunctions client
       = or_else (u_registeredFunctions metadata) JUndefined.
Proof.
  intro H.
  exists (assign
            {| id := fst (addClient E socket ty metadata w); ws := socket;
               type := ty;
               connectedAt := Date_now_at E (S (clock_reads w));
               lastPing := Some (Date_now_at E (S (S (clock_reads w))));
               computerName := JUndefined; computerType := JUndefined;
               registeredFunctions := JUndefined; userAgent := None |}
            metadata).
  unfold addClient, generateClientId, bind, gets, set_clients, ret,
    Date_now, Math_random. cbv beta iota.
  cbn [fst snd clients sent clock_reads random_draws id ws type userAgent
       computerName registeredFunctions assign].
  rewrite H. cbn [or_else].
  repeat split. apply prefix_append.
Qed.

(** What the [connection] callback leaves: the new record under a new
    key, and the welcome on the wire if the write went through. *)
Lemma onConnection_spec E socket agent w :
  exists client welcome delivered after,
    Server.onConnection E socket agent w = ((id client, delivered), after)
    /\ String.prefix "client_" (id client) = true
    /\ ws client = socket /\ type client = dashboard
    /\ userAgent client = agent
    /\ computerName client = JUndefined
    /\ clients after = map_set (id client) client (clients w)
    /\ get_field "content" welcome
       = JStr ("Connected to ComputerCraft server! Client ID: " ++ id client)
    /\ get_field "type" welcome = JStr "chat"
    /\ get_field "source" welcome = JStr "server"
    /\ sent after
       = (sent w
          ++ (if delivered : bool
              then [{| frame_to := id client; frame_data := welcome |}]
              else []))%list
    /\ registeredFunctions client = JUndefined.
Proof.
  unfold Server.onConnection. unfold bind at 1.
  match goal with
  | |- context [addClient E socket dashboard ?m w] =>
      destruct (addClient_spec E socket dashboard m w eq_refl)
        as (client & Hid & Hprefix & Hws & Hty & Hagent & Hname & Hcs & Hsent
            & Hfuns);
      destruct (addClient E socket dashboard m w) as [clientId w0]
  end.
  cbn [fst snd or_else u_type u_ws u_userAgent u_computerName
       u_registeredFunctions] in *. subst clientId.
  unfold bind at 1.
  destruct (createMessage_spec E (Server.connectedMessage (id client)) w0)
    as (Hcs1 & Hsent1 & Hfields).
  destruct (createMessage E (Server.connectedMessage (id client)) w0)
    as [welcome w1].
  cbn [fst snd] in *. exists client, welcome.
  unfold bind, gets. cbv beta iota.
  rewrite Hcs1, Hcs, map_get_set_same.
  assert (get_field "content" welcome
          = JStr ("Connected to ComputerCraft server! Client ID: " ++ id client)
          /\ get_field "type" welcome = JStr "chat"
          /\ get_field "source" welcome = JStr "server") as (Hc & Ht & Hs).
  { repeat split; rewrite Hfields by discriminate; reflexivity. }
  destruct (ws_send_throws E (sent w1) client welcome);
    unfold ret, ws_send; eexists; eexists;
    (split; [reflexivity|]); cbn [clients sent];
    rewrite ?app_nil_r; repeat split; congruence.
Qed.




Lemma map_delete_set k c m :
  map_get k m = None -> map_delete k (map_set k c m) = m.
Proof.
  induction m as [|[k' c'] rest IH]; simpl.
  - now rewrite String.eqb_refl.
  - destruct (k =? k') eqn:Hk; [discriminate|]. simpl. rewrite Hk.
    intro H. now rewrite IH.
Qed.

(** X19.  A connection that opens under an id not yet in use is
    registered as a dashboard, with its socket and user agent, and the
    registry grows by one.  If the unguarded welcome write returns, the
    wire grows by one frame, a chat from the server to that connection
    whose text ends with the new id; if it raises, by none.  Closing the
    connection then leaves the registry exactly as it was before it
    opened. *)
Theorem connect_then_close_restores_registry E socket agent w :
  let result := Server.onConnection E socket agent w in
  let clientId := fst (fst result) in
  map_get clientId (clients w) = None ->
  (exists client,
      map_get clientId (clients (snd result)) = Some client
      /\ id client = clientId /\ ws client = socket
      /\ type client = dashboard /\ userAgent client = agent)
  /\ List.length (clients (snd result)) = S (List.length (clients w))
  /\ (exists welcome,
        get_field "type" welcome = JStr "chat"
        /\ get_field "source" welcome = JStr "server"
        /\ get_field "content" welcome
           = JStr ("Connected to ComputerCraft server! Client ID: "
                   ++ clientId)
        /\ sent (snd result)
           = (sent w
              ++ (if snd (fst result)
                  then [{| frame_to := clientId; frame_data := welcome |}]
                  else []))%list)
  /\ clients (snd (Server.onClose clientId (snd result))) = clients w.
Proof.
  intros result clientId. subst clientId result.
  destruct (onConnection_spec E socket agent w)
    as (client & welcome & delivered & after' & -> & _ & Hws & Hty & Hagent
        & _ & Hcs & Hcontent & Htype & Hsource & Hsent & _).
  cbn [fst snd]. intro Hfree.
  split; [|split; [|split]].
  - exists client. rewrite Hcs, map_get_set_same. auto.
  - now rewrite Hcs, map_set_length, Hfree.
  - exists welcome. auto.
  - unfold Server.onClose, removeClient, bind, gets, set_clients, ret.
    cbv beta iota. rewrite Hcs, map_get_set_same. cbn [snd clients].
    now apply map_delete_set.
Qed.

(** ** The HTTP endpoints *)

Lemma has_field_set_field k k' v o :
  has_field k o = true -> has_field k (set_field k' v o) = true.
Proof.
  induction o as [|[k0 v0] rest IH]; simpl; [discriminate|].
  destruct (k' =? k0); simpl; destruct (k =? k0); simpl; auto.
Qed.

Lemma createMessage_has_field E partialMessage w k :
  has_field k partialMessage = true ->
  has_field k (fst (createMessage E partialMessage w)) = true.
Proof.
  intro H. unfold createMessage, generateMessageId, bind, ret, Date_now,
    Math_random.
  destruct (truthy (get_field "id" partialMessage));
    destruct (truthy (get_field "timestamp" partialMessage));
    cbv beta iota; cbn [fst]; now apply has_field_set_field, has_field_set_field.
Qed.

Lemma http_id_unregistered w rest :
  generated_ids w = true -> map_get ("http_" ++ rest) (clients w) = None.
Proof. intro Hgen. now apply generated_ids_lookup. Qed.

(** A message routed for a sender that is not registered, and that is not a
    command: the registry stays, and frames go to dashboards only. *)
Lemma route_from_stranger E message sender w :
  registry_wf w = true ->
  map_get sender (clients w) = None ->
  get_field "type" message <> JStr "command" ->
  clients (snd (routeMessage E message sender w)) = clients w
  /\ exists frames,
      sent (snd (routeMessage E message sender w)) = (sent w ++ frames)%list
      /\ forall f, In f frames ->
                   exists c, map_get (frame_to f) (clients w) = Some c
                             /\ type c = dashboard.
Proof.
  intros Hwf Hnone Hkind. split.
  - destruct (routeMessage_registry_exact E message sender w)
      as [H|(client & Hget & _)]; [exact H|congruence].
  - destruct (routeMessage_frames E message sender w Hwf) as (frames & Hs & Hr).
    exists frames. split; [exact Hs|]. intros f Hin.
    destruct (Hr f Hin) as [Hreg [Hto|[Hdash|[Hcmd _]]]].
    + rewrite Hto in Hreg. contradiction.
    + exact Hdash.
    + contradiction.
Qed.

(** A raise ends routing before anything happened, and only a registration
    or a status update can raise. *)
Lemma routeMessage_throw E message sender w e :
  fst (routeMessage E message sender w) = Throw e ->
  snd (routeMessage E message sender w) = w
  /\ (get_field "type" message = JStr "api_registration"
      \/ get_field "type" message = JStr "status_update").
Proof.
  destruct (validateMessageType message) eqn:Hvalid.
  2:{ unfold routeMessage. rewrite Hvalid. discriminate. }
  destruct (switch_type (get_field "type" message)) as [kind|] eqn:Hkind.
  2:{ apply switch_type_total_false in Hkind. congruence. }
  rewrite (routeMessage_dispatch E message sender w kind Hvalid Hkind).
  apply switch_type_inv in Hkind. destruct kind.
  - now rewrite handleChatMessage_normal.
  - now rewrite handleCommandMessage_normal.
  - destruct (handleAPIRegistration_completion E message sender w)
      as [Hthrow Hnormal].
    destruct (function_names (get_field "functions" message)).
    + rewrite Hnormal by discriminate. discriminate.
    + rewrite (Hthrow eq_refl). auto.
  - destruct (handleStatusUpdate_completion E message sender w)
      as [Hthrow Hnormal].
    destruct (member (get_field "status" message) "currentTask") eqn:Hm.
    + rewrite Hnormal; [discriminate|].
      intro Hn. apply (member_None _ "currentTask") in Hn. congruence.
    + apply member_None in Hm. rewrite (Hthrow Hm). auto.
  - now rewrite handleCommandResponse_normal.
Qed.

(** X20.  Registering over HTTP records nothing.  On a registry with the
    server's invariants, [POST /register] answers 400, 500 or 200; it never
    changes the registry, whatever the body, so [getComputerByName] finds
    under every name exactly what it found before the request: the
    computer the reply calls "registered successfully" is found afterwards
    only if a connection held its name already.  On 400 the world is
    untouched; every frame the request causes goes to a dashboard; and a
    200 means [functions] was an array, whose length the reply reports. *)
Theorem http_registration_is_not_recorded E describe requestBody w :
  registry_ok w ->
  let reply := fst (Server.postRegister E describe requestBody w) in
  let after := snd (Server.postRegister E describe requestBody w) in
  clients after = clients w
  /\ (forall name,
        fst (getComputerByName name after) = fst (getComputerByName name w))
  /\ (Server.status reply = 400 \/ Server.status reply = 500
      \/ Server.status reply = 200)
  /\ (Server.status reply = 400 -> after = w)
  /\ (exists frames,
        sent after = (sent w ++ frames)%list
        /\ forall f, In f frames ->
                     exists c, map_get (frame_to f) (clients w) = Some c
                               /\ type c = dashboard)
  /\ (Server.status reply = 200 ->
      exists functions,
        member requestBody "functions" = Some (JArr functions)
        /\ get_field "registeredFunctions" (Server.body reply)
           = JNum (Z.of_nat (List.length functions))).
Proof.
  intros [Hwf Hgen] reply after.
  enough (clients after = clients w
          /\ (Server.status reply = 400 \/ Server.status reply = 500
              \/ Server.status reply = 200)
          /\ (Server.status reply = 400 -> after = w)
          /\ (exists frames,
                sent after = (sent w ++ frames)%list
                /\ forall f, In f frames ->
                             exists c, map_get (frame_to f) (clients w) = Some c
                                       /\ type c = dashboard)
          /\ (Server.status reply = 200 ->
              exists functions,
                member requestBody "functions" = Some (JArr functions)
                /\ get_field "registeredFunctions" (Server.body reply)
                   = JNum (Z.of_nat (List.length functions))))
    as (Hregistry & Hrest).
  { split; [exact Hregistry|]. split; [|exact Hrest].
    intro name. unfold getComputerByName, gets. cbn [fst].
    now rewrite Hregistry. }
  subst reply after.
  assert (exists frames : list Frame,
             sent w = (sent w ++ frames)%list
             /\ forall f, In f frames ->
                          exists c, map_get (frame_to f) (clients w) = Some c
                                    /\ type c = dashboard) as Hquiet.
  { exists []. split; [now rewrite app_nil_r|intros f []]. }
  unfold Server.postRegister.
  destruct (member requestBody "computerName") as [computerName|];
    [|cbn; repeat split; auto; discriminate].
  destruct (member requestBody "computerType") as [computerType|];
    [|cbn; repeat split; auto; discriminate].
  destruct (member requestBody "functions") as [functions|];
    [|cbn; repeat split; auto; discriminate].
  destruct (member requestBody "status") as [status|];
    [|cbn; repeat split; auto; discriminate].
  destruct (negb (truthy computerName) || negb (truthy computerType)
            || negb (truthy functions));
    [cbn; repeat split; auto; discriminate|].
  unfold bind.
  set (request := Server.registrationRequest computerName computerType
                    functions status).
  destruct (createMessage_spec E request w) as (Hcs & Hsent & Hfields).
  pose proof (fun k => createMessage_has_field E request w k) as Hhas.
  destruct (createMessage E request w) as [message w1]. cbn [fst snd] in *.
  set (virtual := "http_" ++ ToString computerName ++ "_register").
  assert (get_field "type" message = JStr "api_registration") as Htype
    by (rewrite Hfields by discriminate; reflexivity).
  assert (get_field "functions" message = functions) as Hfunctions
    by (rewrite Hfields by discriminate; reflexivity).
  assert (validateMessageType message = true) as Hvalid.
  { unfold validateMessageType. rewrite Htype. cbn [switch_type String.eqb
      Ascii.eqb Bool.eqb]. simpl switch_type. cbv iota.
    now rewrite !Hhas by reflexivity. }
  assert (registry_wf w1 = true) as Hwf1
    by now rewrite (registry_wf_clients _ _ Hcs).
  assert (map_get virtual (clients w1) = None) as Hstranger.
  { rewrite Hcs. now apply http_id_unregistered. }
  destruct (route_from_stranger E message virtual w1 Hwf1 Hstranger)
    as (Hcs2 & frames & Hs2 & Hdash); [rewrite Htype; discriminate|].
  pose proof (routeMessage_throw E message virtual w1) as Hthrow.
  pose proof (routeMessage_dispatch E message virtual w1 api_registration
                Hvalid) as Hdispatch.
  rewrite Htype in Hdispatch. specialize (Hdispatch eq_refl).
  destruct (handleAPIRegistration_completion E message virtual w1)
    as [Hraise _].
  rewrite <- Hdispatch in Hraise.
  destruct (routeMessage E message virtual w1) as [[|e] w2];
    unfold ret; cbn [fst snd Server.status Server.body Server.internalError]
    in *.
  - split; [congruence|]. split; [auto|]. split; [discriminate|]. split.
    + exists frames. split; [congruence|]. intros f Hin.
      rewrite <- Hcs. now apply Hdash.
    + intros _. rewrite Hfunctions in Hraise.
      destruct functions; try (now specialize (Hraise eq_refl)).
      eexists. split; reflexivity.
  - destruct (Hthrow e eq_refl) as [-> _].
    split; [congruence|]. split; [auto|]. split; [discriminate|].
    split; [|discriminate]. exists []. rewrite app_nil_r.
    split; [congruence|intros f []].
Qed.

(** X21.  [POST /command] cannot tell a lost command from a delivered one.
    On a registry with the server's invariants, a request with a plain body
    that names a
    target and a function answers 200 with [success] true even when no
    device is registered under the target: the failure response the router
    builds is addressed to the request's own virtual id, which is never
    registered, so nothing is sent and nothing changes in the registry. *)
Theorem http_command_to_unknown_computer_reports_success
  E describe requestBody w target function :
  registry_ok w ->
  plain requestBody = true ->
  member requestBody "targetComputer" = Some target ->
  member requestBody "functionName" = Some function ->
  truthy target = true ->
  truthy function = true ->
  fst (getComputerByName target w) = None ->
  let reply := fst (Server.postCommand E describe requestBody w) in
  let after := snd (Server.postCommand E describe requestBody w) in
  Server.status reply = 200
  /\ get_field "success" (Server.body reply) = JBool true
  /\ get_field "command" (Server.body reply) = function
  /\ sent after = sent w
  /\ clients after = clients w.
Proof.
  intros [Hwf Hgen] _ Htarget Hfunction Ht Hf Hnone reply after.
  subst reply after. unfold Server.postCommand.
  rewrite Htarget, Hfunction.
  assert (exists parameters, member requestBody "parameters" = Some parameters)
    as (parameters & ->).
  { destruct requestBody; try discriminate; eexists; reflexivity. }
  rewrite Ht, Hf. cbn [negb orb]. unfold bind.
  set (request := Server.commandRequest target function parameters).
  destruct (createMessage_spec E request w) as (Hcs & Hsent & Hfields).
  pose proof (fun k => createMessage_has_field E request w k) as Hhas.
  destruct (createMessage E request w) as [message w1]. cbn [fst snd] in *.
  unfold Date_now. cbv beta iota.
  match goal with
  | |- context [routeMessage E message ?v ?w2] =>
      set (virtual := v); set (world := w2)
  end.
  assert (clients world = clients w /\ sent world = sent w) as [Hcw Hsw]
    by (subst world; cbn [clients sent]; split; congruence).
  assert (get_field "type" message = JStr "command") as Htype
    by (rewrite Hfields by discriminate; reflexivity).
  assert (get_field "targetComputer" message = target) as Hname
    by (rewrite Hfields by discriminate; reflexivity).
  assert (validateMessageType message = true) as Hvalid.
  { unfold validateMessageType. rewrite Htype. simpl switch_type. cbv iota.
    now rewrite !Hhas by reflexivity. }
  assert (routeMessage E message virtual world
          = handleCommandMessage E message virtual world) as ->.
  { apply (routeMessage_dispatch E message virtual world command Hvalid).
    now rewrite Htype. }
  unfold handleCommandMessage, bind. rewrite Hname.
  unfold getComputerByName, gets in *. cbn [fst] in Hnone. cbv beta iota.
  rewrite Hcw, Hnone.
  destruct (createMessage_spec E (notConnectedResponse message) world)
    as (Hcs2 & Hsent2 & _).
  destruct (createMessage E (notConnectedResponse message) world)
    as [response w3]. cbn [fst snd] in *.
  rewrite sendToClient_spec.
  assert (accepts E w3 virtual response = false) as ->.
  { assert (map_get virtual (clients w) = None) as Hv
      by (subst virtual; now apply generated_ids_lookup).
    unfold accepts. now rewrite Hcs2, Hcw, Hv. }
  rewrite deliver_nil. unfold ret. cbn [fst snd Server.status Server.body].
  repeat split; congruence.
Qed.

(** X22.  [POST /message] is gated by [isValidMessage]: the answer is 400
    exactly when the body fails it, and then the world is untouched.  On a
    registry with the server's invariants the endpoint never changes the
    registry; for a plain body a 500 means that routing raised on a
    registration or a status update, the only two kinds whose handlers
    read into a value, and then nothing was sent; any other answer is
    200. *)
Theorem http_message_is_gated E describe requestBody w :
  registry_ok w ->
  plain requestBody = true ->
  let reply := fst (Server.postMessage E describe requestBody w) in
  let after := snd (Server.postMessage E describe requestBody w) in
  (Server.status reply = 400 <-> isValidMessage requestBody = false)
  /\ (Server.status reply = 400 -> after = w)
  /\ (Server.status reply = 400 \/ Server.status reply = 500
      \/ Server.status reply = 200)
  /\ clients after = clients w
  /\ (Server.status reply = 500 ->
      sent after = sent w
      /\ exists message,
          requestBody = JObj message
          /\ (get_field "type" message = JStr "api_registration"
              \/ get_field "type" message = JStr "status_update")).
Proof.
  intros [Hwf Hgen] _ reply after. subst reply after.
  unfold Server.postMessage.
  destruct requestBody as [| | | | | |message];
    try (cbn; repeat split; auto; discriminate).
  destruct (isValidMessage (JObj message)) eqn:Hvalid; cbn [negb].
  2:{ cbn. repeat split; auto; discriminate. }
  unfold bind. unfold Date_now. cbv beta iota.
  match goal with
  | |- context [routeMessage E message ?v ?w2] =>
      set (virtual := v); set (world := w2)
  end.
  assert (clients world = clients w /\ sent world = sent w) as [Hcw Hsw]
    by (subst world; cbn [clients sent]; split; congruence).
  assert (map_get virtual (clients world) = None) as Hstranger.
  { rewrite Hcw. subst virtual. now apply generated_ids_lookup. }
  assert (clients (snd (routeMessage E message virtual world)) = clients w)
    as Hcs.
  { destruct (routeMessage_registry_exact E message virtual world)
      as [H|(client & Hget & _)]; congruence. }
  pose proof (routeMessage_throw E message virtual world) as Hthrow.
  destruct (routeMessage E message virtual world) as [[|e] w2];
    unfold ret, Date_now;
    cbn [fst snd Server.status Server.body Server.internalError clients]
    in *.
  - split; [split; discriminate|]. split; [discriminate|].
    split; [auto|]. split; [assumption|discriminate].
  - destruct (Hthrow e eq_refl) as [-> Hkind].
    split; [split; discriminate|]. split; [discriminate|].
    split; [auto|]. split; [assumption|]. intros _.
    split; [assumption|]. now exists message.
Qed.

(** ** The list of computers *)





(** X24.  After [destroy] the registry is empty: no id resolves, every
    [sendToClient] returns false, every broadcast returns 0 and writes
    nothing, and the statistics are all zero.  What was sent before stays
    on the wire. *)
Theorem destroy_leaves_nothing_to_reach E w :
  let after := snd (destroy w) in
  clients after = []
  /\ sent after = sent w
  /\ (forall clientId message,
        sendToClient E clientId message after = (false, after))
  /\ (forall ty message, broadcastToType E ty message after = (0, after))
  /\ fst (getStats E after)
     = {| totalClients := 0; dashboards := 0; computers := 0;
          aliveClients := 0 |}.
Proof.
  unfold destroy, set_clients. cbn [snd].
  split; [reflexivity|]. split; [reflexivity|]. split; [|split].
  - intros clientId message. rewrite sendToClient_spec.
    unfold accepts. cbn [clients map_get]. now rewrite deliver_nil.
  - intros ty message. rewrite broadcastToType_attempts.
    unfold getClientsByType, gets. cbn [fst clients values map filter].
    reflexivity.
  - reflexivity.
Qed.

Lemma function_names_listable functions names :
  function_names functions = Some names -> listable functions = true.
Proof.
  destruct functions; try discriminate. cbn [function_names listable].
  revert names. induction elems as [|e rest IH]; intros names H;
    [reflexivity|].
  cbn [map all_some forallb] in *.
  destruct (member e "name") eqn:He; [|discriminate].
  destruct (all_some (map (fun f => member f "name") rest)) eqn:Hrest;
    [|discriminate].
  rewrite (IH l eq_refl), andb_true_r. now destruct e.
Qed.

Lemma forallb_map_set (p : string * ConnectedClient -> bool) k c m :
  forallb p m = true -> (forall k', p (k', c) = true) ->
  forallb p (map_set k c m) = true.
Proof.
  intros Hm Hc. induction m as [|[k' c'] rest IH]; simpl in *.
  - now rewrite Hc.
  - apply andb_prop in Hm as [H1 H2].
    destruct (k =? k'); simpl; [now rewrite Hc, H2|].
    now rewrite H1, IH.
Qed.

Lemma forallb_map_delete (p : string * ConnectedClient -> bool) k m :
  forallb p m = true -> forallb p (map_delete k m) = true.
Proof.
  induction m as [|[k' c'] rest IH]; simpl; [reflexivity|]. intro H.
  apply andb_prop in H as [H1 H2].
  destruct (k =? k'); simpl; [assumption|]. now rewrite H1, IH.
Qed.

Lemma functions_listable_lookup w k c :
  functions_listable w = true -> map_get k (clients w) = Some c ->
  listable (registeredFunctions c) = true.
Proof.
  unfold functions_listable. intros H Hget. rewrite forallb_forall in H.
  apply map_get_In in Hget. exact (H _ Hget).
Qed.

Lemma updateClient_listable clientId updates w :
  functions_listable w = true ->
  match u_registeredFunctions updates with
  | Some functions => listable functions = true
  | None => True
  end ->
  functions_listable (snd (updateClient clientId updates w)) = true.
Proof.
  intros Hlist Hnew. unfold updateClient, bind, gets, set_clients, ret.
  cbv beta iota.
  destruct (map_get clientId (clients w)) as [c|] eqn:Hget; [|exact Hlist].
  cbn [snd]. unfold functions_listable. cbn [clients].
  apply forallb_map_set; [exact Hlist|]. intros k'. cbn [snd registeredFunctions
    assign].
  destruct (u_registeredFunctions updates); cbn [or_else]; [assumption|].
  now apply (functions_listable_lookup w clientId).
Qed.

Lemma routeMessage_listable E message sender w :
  functions_listable w = true ->
  functions_listable (snd (routeMessage E message sender w)) = true.
Proof.
  intro Hlist.
  destruct (routeMessage_registry_exact E message sender w)
    as [Hsame|(client & Hget & Htype & Hset)].
  - unfold functions_listable in *. now rewrite Hsame.
  - destruct (validateMessageType message) eqn:Hvalid.
    2:{ unfold routeMessage. now rewrite Hvalid. }
    rewrite (routeMessage_dispatch E message sender w api_registration Hvalid)
      in * by now rewrite Htype.
    destruct (handleAPIRegistration_completion E message sender w)
      as [Hthrow _].
    destruct (function_names (get_field "functions" message)) eqn:Hnames.
    + unfold functions_listable. rewrite Hset.
      apply forallb_map_set; [exact Hlist|]. intros k'.
      cbn [snd registeredFunctions assign registered_as or_else
           u_registeredFunctions].
      now apply (function_names_listable _ l).
    + now rewrite (Hthrow eq_refl).
Qed.

(** X25.  The function list stored on a record is always one the summary
    can read: nothing, or an array without [null] and [undefined] entries.
    Routing a message, the [message] callback, a new connection and the
    removal of one all keep it so; a registration whose list is anything
    else raises before it is stored. *)
Theorem function_lists_stay_listable E w :
  functions_listable w = true ->
  (forall message sender,
      functions_listable (snd (routeMessage E message sender w)) = true)
  /\ (forall clientId data,
        functions_listable (snd (Server.onMessage E clientId data w)) = true)
  /\ (forall socket agent,
        functions_listable (snd (Server.onConnection E socket agent w)) = true)
  /\ (forall clientId,
        functions_listable (snd (Server.onClose clientId w)) = true).
Proof.
  intro Hlist. split; [|split; [|split]].
  - intros message sender. now apply routeMessage_listable.
  - intros clientId data. unfold Server.onMessage.
    destruct data as [[| | | | | |message]|]; try exact Hlist.
    destruct (negb (isValidMessage (JObj message))); [exact Hlist|].
    unfold bind at 1. unfold bind at 1. unfold getClient, gets. cbv beta iota.
    assert (forall (m : M unit),
               functions_listable (snd (m w)) = true ->
               functions_listable
                 (snd (let (_, w') := m w in
                       bind (routeMessage E message clientId)
                            (fun _ => ret tt) w')) = true) as Hrun.
    { intros m Hm. destruct (m w) as [[] w1]. cbn [snd] in Hm.
      unfold bind, ret.
      pose proof (routeMessage_listable E message clientId w1 Hm).
      now destruct (routeMessage E message clientId w1). }
    destruct (map_get clientId (clients w)).
    + destruct (strict_eq (get_field "type" message) (JStr "api_registration"));
        apply Hrun; [|exact Hlist].
      now apply updateClient_listable.
    + now apply Hrun.
  - intros socket agent.
    destruct (onConnection_spec E socket agent w)
      as (client & welcome & delivered & after' & -> & _ & _ & _ & _ & _
          & Hcs & _ & _ & _ & _ & Hfuns).
    cbn [snd]. unfold functions_listable. rewrite Hcs.
    apply forallb_map_set; [exact Hlist|]. intros k'. cbn [snd].
    now rewrite Hfuns.
  - intro clientId.
    destruct (removeClient_spec clientId w) as [Hrm|[_ Hrm]];
      unfold Server.onClose, functions_listable in *; rewrite Hrm;
      [now apply forallb_map_delete|assumption].
Qed.

(** ** Two devices under one name *)

Lemma values_app (a b : list (string * ConnectedClient)) :
  values (a ++ b) = (values a ++ values b)%list.
Proof. unfold values. apply map_app. Qed.

Lemma find_app {A} (p : A -> bool) l1 l2 :
  find p (l1 ++ l2)
  = match find p l1 with Some x => Some x | None => find p l2 end.
Proof.
  induction l1 as [|x rest IH]; simpl; [reflexivity|].
  now destruct (p x).
Qed.

Lemma map_set_app_later k c a b :
  map_get k a = None -> map_set k c (a ++ b) = (a ++ map_set k c b)%list.
Proof.
  induction a as [|[k' c'] rest IH]; simpl; [reflexivity|].
  destruct (k =? k'); [discriminate|]. intro H. now rewrite IH.
Qed.

(** X26.  Of two devices under one name the one registered first keeps
    the name.  If [getComputerByName] finds device [d] and the sender is
    another connection that comes after [d] in the registry (or is not in
    it), then whatever the sender routes, a registration under the very
    same name included, [getComputerByName] still finds [d]. *)
Theorem first_registered_keeps_the_name
  E message sender w name d earlier later :
  fst (getComputerByName (JStr name) w) = Some d ->
  clients w = (earlier ++ (id d, d) :: later)%list ->
  map_get sender earlier = None ->
  sender <> id d ->
  fst (getComputerByName (JStr name) (snd (routeMessage E message sender w)))
  = Some d.
Proof.
  intros Hfound Hsplit Hlater Hne.
  unfold getComputerByName, gets in *. cbn [fst] in *.
  destruct (routeMessage_registry_exact E message sender w)
    as [->|(client & Hget & _ & ->)]; [exact Hfound|].
  rewrite Hsplit in Hfound |- *. clear Hget.
  rewrite (map_set_app_later _ _ _ _ Hlater).
  cbn [map_set]. apply String.eqb_neq in Hne. rewrite Hne.
  unfold values in *. rewrite map_app, find_app in Hfound.
  rewrite map_app, find_app. cbn [map snd find] in Hfound |- *.
  destruct (find _ (map snd earlier)); [exact Hfound|].
  destruct (ClientType_eqb (type d) computercraft
            && strict_eq (computerName d) (JStr name)) eqn:Hd;
    [exact Hfound|].
  exfalso. apply find_some in Hfound as [_ Hp].
  (* the record found is [d] itself, which does not pass the test *)
  congruence.
Qed.

(** ** The further properties at concrete worlds *)

Lemma removeClient_idempotent_witness :
  registry_wf with_stale = true
  /\ map_get "old" (clients (snd (removeClient "old" with_stale))) = None
  /\ map_get "v1" (clients (snd (removeClient "old" with_stale)))
     = map_get "v1" (clients with_stale).
Proof.
  destruct (removeClient_idempotent "old" with_stale eq_refl)
    as (Hgone & _ & _ & _ & Hothers).
  split; [reflexivity|]. split; [exact Hgone|]. apply Hothers. discriminate.
Defined.

Lemma addClient_then_getClient_witness :
  fst (addClient quiet new_socket dashboard rebound one_viewer)
  = "client_1000000_k3j9x2"
  /\ exists client,
       fst (getClient "client_1000000_k3j9x2"
              (snd (addClient quiet new_socket dashboard rebound one_viewer)))
       = Some client
       /\ id client = "client_1000000_k3j9x2"
       /\ ws client = {| handle := 9; readyState := CLOSED |}
       /\ type client = dashboard.
Proof.
  destruct (addClient_then_getClient quiet new_socket dashboard rebound
              one_viewer eq_refl)
    as (_ & (client & Hget & Hid & Hws & Hty & _) & _).
  split; [reflexivity|]. exists client. split; [exact Hget|].
  split; [exact Hid|]. split; [exact Hws|exact Hty].
Defined.

Lemma broadcast_reaches_only_role_witness :
  exists frames,
    snd (broadcastToType flaky dashboard chat_hi three_viewers)
    = deliver three_viewers frames
    /\ List.length frames = 2
    /\ NoDup (map frame_to frames).
Proof.
  destruct (broadcast_reaches_only_role flaky dashboard chat_hi three_viewers
              eq_refl) as (frames & Hafter & Hcount & Hdistinct & _).
  exists frames. split; [exact Hafter|]. split; [exact Hcount|exact Hdistinct].
Defined.

Lemma broadcast_reaches_every_open_connection_witness :
  broadcastToType quiet dashboard chat_hi viewer_and_turtle
  = (1, deliver viewer_and_turtle
          [{| frame_to := "v1"; frame_data := chat_hi |}]).
Proof.
  exact (broadcast_reaches_every_open_connection quiet dashboard chat_hi
           viewer_and_turtle (fun _ _ _ => eq_refl) eq_refl).
Defined.

Lemma cleanup_keeps_the_living_witness :
  readyState (ws v1) = OPEN
  /\ map_get "v1" (clients (snd (cleanup quiet with_stale))) = Some v1
  /\ sent (snd (cleanup quiet with_stale)) = sent with_stale.
Proof.
  destruct (cleanup_keeps_the_living quiet with_stale eq_refl)
    as (_ & Hkept & Hsent).
  split; [reflexivity|]. split; [|exact Hsent].
  apply Hkept; [reflexivity| |reflexivity].
  intros k _. simpl. unfold PING_INTERVAL. lia.
Defined.

Lemma tick_stamps_the_living_witness :
  map_get "v1" (clients (snd (pingIntervalTick quiet one_viewer)))
  = Some (stamped v1 1000000)
  /\ sent (snd (pingIntervalTick quiet one_viewer)) = sent one_viewer.
Proof.
  destruct (tick_stamps_the_living quiet one_viewer "v1" v1
              eq_refl eq_refl) as [(j & _ & Hstamped) Hsent].
  - intros k _. simpl. unfold PING_INTERVAL. lia.
  - reflexivity.
  - reflexivity.
  - split; [exact Hstamped|exact Hsent].
Defined.

Lemma sanitizeMessage_idempotent_witness :
  plain (get_field "content" chat_number) = true
  /\ sanitizeMessage (sanitizeMessage chat_number) = sanitizeMessage chat_number
  /\ get_field "content" (sanitizeMessage chat_number) = JStr "5".
Proof.
  destruct (sanitizeMessage_idempotent chat_number (fun _ => eq_refl))
    as (Hagain & _ & _).
  split; [reflexivity|]. split; [exact Hagain|reflexivity].
Defined.

Lemma routing_never_reaches_a_bystander_witness :
  map_get "t1" (clients viewer_and_turtle) = Some turtle1
  /\ exists frames,
       sent (snd (routeMessage quiet chat_hi "v1" viewer_and_turtle))
       = (sent viewer_and_turtle ++ frames)%list
       /\ forall f, In f frames -> frame_to f <> "t1".
Proof.
  split; [reflexivity|].
  apply (routing_never_reaches_a_bystander quiet chat_hi "v1"
           viewer_and_turtle "t1" eq_refl).
  - discriminate.
  - right. exists turtle1. split; [reflexivity|]. split; [reflexivity|].
    intros [Hkind _]. cbv in Hkind. discriminate Hkind.
Defined.

Lemma telemetry_is_relayed_verbatim_witness :
  routeMessage quiet status_report "t1" viewer_and_turtle
  = (Normal,
     deliver viewer_and_turtle
       [{| frame_to := "v1"; frame_data := status_report |}]).
Proof.
  destruct (telemetry_is_relayed_verbatim quiet status_report "t1"
              viewer_and_turtle eq_refl eq_refl) as [Hrelay _].
  - right. split; [reflexivity|].
    intros [Hnull|Hnull]; cbv in Hnull; discriminate Hnull.
  - exact Hrelay.
Defined.

Lemma registration_broadcasts_and_welcomes_witness :
  exists welcome,
    get_field "content" welcome
    = JStr "Welcome Turtle1! Registration successful. Functions: 1"
    /\ get_field "priority" welcome = JStr "medium"
    /\ fst (routeMessage quiet registration "t1" viewer_and_promoted) = Normal.
Proof.
  destruct (registration_broadcasts_and_welcomes quiet registration "t1"
              viewer_and_promoted "Turtle1"
              [ JObj [ ("name", JStr "dig"); ("description", JStr "Dig forward");
                       ("parameters", JArr []); ("category", JStr "mining") ] ]
              eq_refl eq_refl eq_refl eq_refl eq_refl)
    as (welcome & _ & _ & Hpriority & _ & Hcontent & Hnormal & _).
  - intros f [<-|[]] [H|H]; discriminate.
  - exists welcome. split; [exact Hcontent|].
    split; [exact Hpriority|exact Hnormal].
Defined.

(** Why [addClient] and [updateClient] are taken without an [id] among the
    fields given: with one, the record no longer sits under its own id. *)
Example update_of_the_id_breaks_the_key :
  registry_wf one_viewer = true
  /\ registry_wf (snd (updateClient "v1" renamed one_viewer)) = false
  /\ option_map id
       (map_get "v1" (clients (snd (updateClient "v1" renamed one_viewer))))
     = Some "v9".
Proof. repeat split. Qed.


Lemma connect_then_close_restores_registry_witness :
  fst (fst (Server.onConnection quiet new_socket (Some "Mozilla") one_viewer))
  = "client_1000000_k3j9x2"
  /\ List.length
       (clients (snd (Server.onConnection quiet new_socket (Some "Mozilla")
                        one_viewer))) = 2
  /\ clients
       (snd (Server.onClose "client_1000000_k3j9x2"
               (snd (Server.onConnection quiet new_socket (Some "Mozilla")
                       one_viewer))))
     = clients one_viewer.
Proof.
  destruct (connect_then_close_restores_registry quiet new_socket
              (Some "Mozilla") one_viewer eq_refl)
    as (_ & Hgrows & _ & Hrestored).
  split; [reflexivity|]. split; [exact Hgrows|exact Hrestored].
Defined.

Lemma http_registration_is_not_recorded_witness :
  Server.status (fst (Server.postRegister quiet error_text register_body hub))
  = 200
  /\ clients (snd (Server.postRegister quiet error_text register_body hub))
     = clients hub
  /\ fst (getComputerByName (JStr "Turtle9")
            (snd (Server.postRegister quiet error_text register_body hub)))
     = None
  /\ get_field "registeredFunctions"
       (Server.body
          (fst (Server.postRegister quiet error_text register_body hub)))
     = JNum 1.
Proof.
  destruct (http_registration_is_not_recorded quiet error_text register_body
              hub (conj eq_refl eq_refl))
    as (Hregistry & Hlookup & _ & _ & _ & Hok).
  split; [reflexivity|]. split; [exact Hregistry|].
  split; [exact (Hlookup (JStr "Turtle9"))|].
  destruct (Hok eq_refl) as (functions & Hfunctions & Hcount).
  injection Hfunctions as <-. exact Hcount.
Defined.

Lemma http_command_to_unknown_computer_reports_success_witness :
  fst (getComputerByName (JStr "Ghost") hub) = None
  /\ Server.status (fst (Server.postCommand quiet error_text command_body hub))
     = 200
  /\ sent (snd (Server.postCommand quiet error_text command_body hub))
     = sent hub.
Proof.
  destruct (http_command_to_unknown_computer_reports_success quiet error_text
              command_body hub (JStr "Ghost") (JStr "dig")
              (conj eq_refl eq_refl) eq_refl eq_refl eq_refl eq_refl eq_refl
              eq_refl)
    as (Hstatus & _ & _ & Hsent & _).
  split; [reflexivity|]. split; [exact Hstatus|exact Hsent].
Defined.

Lemma http_message_is_gated_witness :
  isValidMessage (JObj chat_no_id) = false
  /\ Server.status
       (fst (Server.postMessage quiet error_text (JObj chat_no_id) hub)) = 400
  /\ snd (Server.postMessage quiet error_text (JObj chat_no_id) hub) = hub.
Proof.
  destruct (http_message_is_gated quiet error_text (JObj chat_no_id) hub
              (conj eq_refl eq_refl) eq_refl) as ([_ Hgate] & Huntouched & _).
  split; [reflexivity|]. split; [exact (Hgate eq_refl)|].
  exact (Huntouched (Hgate eq_refl)).
Defined.


Lemma function_lists_stay_listable_witness :
  functions_listable viewer_and_promoted = true
  /\ functions_listable
       (snd (routeMessage quiet registration "t1" viewer_and_promoted)) = true
  /\ functions_listable
       (snd (routeMessage quiet registration_bad_functions "t1"
               viewer_and_promoted)) = true.
Proof.
  destruct (function_lists_stay_listable quiet viewer_and_promoted eq_refl)
    as (Hroute & _).
  split; [reflexivity|]. split; apply Hroute.
Defined.

Lemma first_registered_keeps_the_name_witness :
  fst (getComputerByName (JStr "Turtle1")
         (snd (routeMessage quiet registration "t2" turtle_and_latecomer)))
  = Some turtle1
  /\ option_map computerName
       (map_get "t2"
          (clients (snd (routeMessage quiet registration "t2"
                           turtle_and_latecomer))))
     = Some (JStr "Turtle1").
Proof.
  split; [|reflexivity].
  apply (first_registered_keeps_the_name quiet registration "t2"
           turtle_and_latecomer "Turtle1" turtle1 [] [("t2", latecomer)]);
    [reflexivity|reflexivity|reflexivity|discriminate].
Defined.
